(** * aliyun-cdt-check: traffic quota check, firewall toggle and notifications

    A shallow embedding of [app/aliyun_cdt_check.py] and of the progress-bar
    and digest logic of [app/dailyjob.py], with the properties of the
    specification stated over it.

    Conventions of the embedding.
    - Python [float] is binary64: the primitive floats of the kernel.
      [round] is taken on the exact value of the float.
    - Python [int] is [Z].
    - [str] is [string], holding the UTF-8 bytes of the text.
    - A [dict] built by the program is an association list in insertion
      order.
    - The cloud API, the SMTP server and the HTTP endpoints form an
      environment [Env]: a state machine whose answers the program cannot
      predict.  Every call may return or raise.
    - A run produces a trace of events (remote calls, prints, fanout
      invocations), the final state of the environment and a value or an
      exception. *)

From Stdlib Require Import ZArith List String Ascii Bool Lia Floats.
Import ListNotations.

Set Warnings "-inexact-float".

Open Scope string_scope.
Open Scope Z_scope.

(* ================================================================= *)
(** ** Exceptions and results *)

(** A Python exception: its class name and [str(e)]. *)
Record exc := mkExc { exc_class : string; exc_msg : string }.

Inductive res (A : Type) : Type :=
| Ok (a : A)
| Raise (e : exc).
Arguments Ok {A} a.
Arguments Raise {A} e.

Definition ZeroDivisionError (msg : string) : exc := mkExc "ZeroDivisionError" msg.
Definition OverflowError (msg : string) : exc := mkExc "OverflowError" msg.
Definition ValueError (msg : string) : exc := mkExc "ValueError" msg.
Definition KeyError (key : string) : exc := mkExc "KeyError" ("'" ++ key ++ "'").
Definition IndexError (msg : string) : exc := mkExc "IndexError" msg.
Definition Exception (msg : string) : exc := mkExc "Exception" msg.

(* ================================================================= *)
(** ** Python numbers *)

Module PyNum.

(** A Python number as the program meets it: [int] or [float]. *)
Inductive pynum := PInt (z : Z) | PFloat (f : float).

(** Quotient [n / d] rounded to the nearest integer, ties to even
    ([d] positive). *)
Definition rhe_div (n d : Z) : Z :=
  let q := n / d in
  let r := n mod d in
  match (2 * r) ?= d with
  | Lt => q
  | Gt => q + 1
  | Eq => if Z.even q then q else q + 1
  end.

(** [round(x)] of a float: nearest integer of the exact value, ties to
    even; NaN and the infinities raise. *)
Definition py_round (x : float) : res Z :=
  match Prim2SF x with
  | S754_nan => Raise (ValueError "cannot convert float NaN to integer")
  | S754_infinity _ => Raise (OverflowError "cannot convert float infinity to integer")
  | S754_zero _ => Ok 0
  | S754_finite s m e =>
      let v := if s then Z.neg m else Z.pos m in
      Ok (if 0 <=? e then v * 2 ^ e else rhe_div v (2 ^ (- e)))
  end.

(** [round(x, 2)] of a float: the exact value is rounded to hundredths,
    ties to even, and the decimal result is read back as the nearest
    float.  Zeros, infinities and NaN are returned as they are. *)
Definition py_round2 (x : float) : float :=
  match Prim2SF x with
  | S754_finite s m e =>
      if 0 <=? e then x
      else
        match rhe_div (100 * Z.pos m) (2 ^ (- e)) with
        | Z.pos n =>
            SF2Prim (SFdiv prec emax (S754_finite s n 0) (S754_finite false 100 0))
        | _ => SF2Prim (S754_zero s)
        end
  | _ => x
  end.

(** [float(z)] for an [int]: nearest float, [OverflowError] beyond the
    range. *)
Definition float_of_int (z : Z) : res float :=
  match binary_normalize prec emax z 0 false with
  | S754_infinity _ => Raise (OverflowError "int too large to convert to float")
  | sf => Ok (SF2Prim sf)
  end.

(** [a / b] on two [int]s: the correctly rounded quotient. *)
Definition int_truediv (a b : Z) : res float :=
  let sa := a <? 0 in
  let sb := b <? 0 in
  match Z.abs a, Z.abs b with
  | _, 0 => Raise (ZeroDivisionError "division by zero")
  | Z.pos ma, Z.pos mb =>
      match SFdiv prec emax (S754_finite sa ma 0) (S754_finite sb mb 0) with
      | S754_infinity _ =>
          Raise (OverflowError "integer division result too large for a float")
      | sf => Ok (SF2Prim sf)
      end
  | _, _ => Ok (SF2Prim (S754_zero (xorb sa sb)))
  end.

(** [a / b] on two floats. *)
Definition float_truediv (a b : float) : res float :=
  if PrimFloat.eqb b 0 then Raise (ZeroDivisionError "float division by zero")
  else Ok (a / b)%float.

(** [a / b] on numbers: true division always answers a float. *)
Definition py_truediv (a b : pynum) : res float :=
  match a, b with
  | PInt x, PInt y => int_truediv x y
  | PFloat x, PFloat y => float_truediv x y
  | PFloat x, PInt y =>
      match float_of_int y with
      | Ok fy => float_truediv x fy
      | Raise e => Raise e
      end
  | PInt x, PFloat y =>
      match float_of_int x with
      | Ok fx => float_truediv fx y
      | Raise e => Raise e
      end
  end.

(** [round(n, 2)] on numbers: an [int] is returned unchanged. *)
Definition py_round2_num (n : pynum) : pynum :=
  match n with
  | PInt z => PInt z
  | PFloat f => PFloat (py_round2 f)
  end.


End PyNum.
Export PyNum.

(* ================================================================= *)
(** ** Python strings and dictionaries *)

Module PyStr.

(** [s * n]: [n] copies of [s]; none when [n] is not positive. *)
Fixpoint repeat_nat (s : string) (n : nat) : string :=
  match n with
  | O => ""
  | S k => s ++ repeat_nat s k
  end.

Definition str_mul (s : string) (n : Z) : string := repeat_nat s (Z.to_nat n).

(** The upper-case form of an ASCII letter; other bytes are unchanged.
    The program compares [x.upper()] with ['ALL'] only, and no non-ASCII
    character has [A] or [L] as its upper case. *)
Definition upper_ascii (c : ascii) : ascii :=
  let n := nat_of_ascii c in
  if (Nat.leb 97 n && Nat.leb n 122)%bool then ascii_of_nat (n - 32) else c.

Fixpoint upper (s : string) : string :=
  match s with
  | EmptyString => EmptyString
  | String c r => String (upper_ascii c) (upper r)
  end.

(** [s.replace(c, by)] for a one-byte pattern. *)
Fixpoint replace_char (c : ascii) (by_ : string) (s : string) : string :=
  match s with
  | EmptyString => EmptyString
  | String d r =>
      if Ascii.eqb c d then by_ ++ replace_char c by_ r
      else String d (replace_char c by_ r)
  end.

(** The line feed. *)
Definition LF : string := String (ascii_of_nat 10) EmptyString.

(** [s[:n]] on a string of one-byte characters. *)
Definition prefix_bytes (n : nat) (s : string) : string := substring 0 n s.

End PyStr.
Export PyStr.

Module PyDict.

(** A [dict] with string keys, in insertion order. *)
Definition pydict (V : Type) : Type := list (string * V).

Fixpoint dict_get {V} (d : pydict V) (k : string) : option V :=
  match d with
  | [] => None
  | (k', v) :: r => if String.eqb k k' then Some v else dict_get r k
  end.

(** [k in d] *)
Definition dict_mem {V} (d : pydict V) (k : string) : bool :=
  match dict_get d k with Some _ => true | None => false end.

(** [d.get(k, default)] *)
Definition dict_get_default {V} (d : pydict V) (k : string) (dflt : V) : V :=
  match dict_get d k with Some v => v | None => dflt end.

(** [d[k]]: [KeyError] when the key is absent. *)
Definition dict_index {V} (d : pydict V) (k : string) : res V :=
  match dict_get d k with Some v => Ok v | None => Raise (KeyError k) end.

(** [d[k] = v]: an existing key keeps its place, a new key goes last. *)
Fixpoint dict_set {V} (d : pydict V) (k : string) (v : V) : pydict V :=
  match d with
  | [] => [(k, v)]
  | (k', v') :: r =>
      if String.eqb k k' then (k', v) :: r else (k', v') :: dict_set r k v
  end.

End PyDict.
Export PyDict.

(** [x.get(k, default)] on an optional field of a response or of the
    configuration. *)
Definition get_default {A} (o : option A) (dflt : A) : A :=
  match o with Some a => a | None => dflt end.

(* ================================================================= *)
(** ** JSON text of a fanout outcome map *)

Module Json.

(** A value of the outcome map: [True], [False] or a string. *)
Inductive jvalue := JTrue | JFalse | JStr (s : string).

(** The double quote. *)
Definition DQ : string := String (ascii_of_nat 34) EmptyString.

Definition hex_digit (n : nat) : ascii :=
  ascii_of_nat (if Nat.ltb n 10 then 48 + n else 87 + n).

(** One byte of a string inside a JSON text with [ensure_ascii=False]:
    the quote, the backslash and the control characters are escaped, all
    other bytes stand for themselves. *)
Definition escape_byte (c : ascii) : string :=
  let n := nat_of_ascii c in
  if Nat.eqb n 34 then "\" ++ DQ
  else if Nat.eqb n 92 then "\\"
  else if Nat.eqb n 10 then "\n"
  else if Nat.eqb n 13 then "\r"
  else if Nat.eqb n 9 then "\t"
  else if Nat.eqb n 8 then "\b"
  else if Nat.eqb n 12 then "\f"
  else if Nat.ltb n 32 then
    "\u00" ++ String (hex_digit (n / 16)) (String (hex_digit (n mod 16)) EmptyString)
  else String c EmptyString.

Fixpoint escape (s : string) : string :=
  match s with
  | EmptyString => EmptyString
  | String c r => escape_byte c ++ escape r
  end.

Definition dumps_str (s : string) : string := DQ ++ escape s ++ DQ.

Definition dumps_value (v : jvalue) : string :=
  match v with
  | JTrue => "true"
  | JFalse => "false"
  | JStr s => dumps_str s
  end.

Fixpoint dumps_items (d : pydict jvalue) : string :=
  match d with
  | [] => ""
  | [(k, v)] => dumps_str k ++ ": " ++ dumps_value v
  | (k, v) :: r => dumps_str k ++ ": " ++ dumps_value v ++ ", " ++ dumps_items r
  end.

(** [json.dumps(d, ensure_ascii=False)] *)
Definition dumps (d : pydict jvalue) : string := "{" ++ dumps_items d ++ "}".

End Json.
Export Json.

(* ================================================================= *)
(** ** Data model *)

(** One entry of [Accounts] in [config.json]. *)
Record Account := mkAccount {
  accountName : option string;
  AccessKeyId : string;
  AccessKeySecret : string;
  regionId : string;
  instanceId : string;
  maxTraffic : pynum;
  enableNotification : option bool;
  onlyNotifyOnToggle : option bool
}.

(** The [Notification] object of [config.json].  The enable flags are the
    truth values of [notification_config.get('enable...')]. *)
Record NotificationConfig := mkNotificationConfig {
  title : option string;
  enableEmail : bool;
  enableBark : bool;
  enableTG : bool;
  enableWebhook : bool;
  enableQywx : bool;
  username : string;
  email : string;
  host : string;
  port : string;
  password : string;
  secure : option string;
  barkUrl : string;
  tgBotToken : string;
  tgChatId : string;
  webhookUrl : string;
  webhookId : string;
  touser : string;
  corpid : string;
  corpsecret : string;
  agentid : string;
  baseApiUrl : string;
  picUrl : string
}.

(** A run-log record or an error record: a [dict] of strings. *)
Definition log_record : Type := pydict string.

(** *** Bodies of the cloud API responses

    A member the program reads with [.get] is optional. *)

Record TrafficItem := mkTrafficItem { Traffic : option Z }.

Record Instance := mkInstance {
  InstanceId : string;
  ExpiredTime : option string;
  EipAddress_IpAddress : option string
}.

Record Permission := mkPermission {
  IpProtocol : option string;
  SourceCidrIp : option string;
  Policy : option string;
  NicType : option string;
  Direction : option string
}.

(** A call of [api_call]: the action with the credentials of the client
    and the queries. *)
Inductive request :=
| ListCdtInternetTraffic (ak sk : string)
| DescribeInstanceAttribute (ak sk region instance : string)
| DescribeInstances (ak sk region : string) (instance_ids : option string)
| DescribeSecurityGroupAttribute (ak sk region : string) (sg : option string)
| RevokeSecurityGroup (ak sk region : string) (sg : option string)
| AuthorizeSecurityGroup (ak sk region : string) (sg : option string).

(** What the program reads of the body answered to a request. *)
Definition response (rq : request) : Type :=
  match rq with
  | ListCdtInternetTraffic _ _ => option (list TrafficItem)
      (* result.get('TrafficDetails') *)
  | DescribeInstanceAttribute _ _ _ _ => option (list string)
      (* result['SecurityGroupIds']['SecurityGroupId'] *)
  | DescribeInstances _ _ _ _ => option (list Instance)
      (* result.get('Instances', {}).get('Instance') *)
  | DescribeSecurityGroupAttribute _ _ _ _ => option (list Permission)
      (* result.get('Permissions', {}).get('Permission') *)
  | RevokeSecurityGroup _ _ _ _ => unit
  | AuthorizeSecurityGroup _ _ _ _ => unit
  end.

(** The two calls that change a security group. *)
Definition is_mutating (rq : request) : bool :=
  match rq with
  | RevokeSecurityGroup _ _ _ _ | AuthorizeSecurityGroup _ _ _ _ => true
  | _ => false
  end.

(** A delivery attempt of a notification channel. *)
Inductive transport :=
| SmtpSend (tls : bool) (smtp_host smtp_port user pass rcpt subject html : string)
| HttpGet (url : string) (params : pydict string)
| HttpGetJson (url : string)
| HttpPostJson (url : string) (to_user agent_id news_title description pic_url : string).

(** What the program reads of the answer: nothing of SMTP, the status
    code of a GET, the [access_token] member of the token document, the
    [errcode] member of the send document. *)
Definition transport_result (t : transport) : Type :=
  match t with
  | SmtpSend _ _ _ _ _ _ _ _ => unit
  | HttpGet _ _ => Z
  | HttpGetJson _ => option string
  | HttpPostJson _ _ _ _ _ _ => option Z
  end.

(** What a run does, in order. *)
Inductive event :=
| ECall (rq : request)
| ESend (t : transport)
| EPrint (s : string)
| ENotify (log : log_record)
| EDigest (message : string)
| EWriteLog (logs : list log_record).

(** The surroundings of a run: the remote services as a state machine,
    and the text functions of the Python library the embedding leaves
    open ([str] of a number, [urllib.parse.quote] and [quote_plus], the
    date reformatting of the digest). *)
Record Env := mkEnv {
  world : Type;
  call_api : forall rq : request, world -> res (response rq) * world;
  deliver : forall t : transport, world -> res (transport_result t) * world;
  str_num : pynum -> string;
  quote : string -> string;
  quote_plus : string -> string;
  format_expiry : string -> string
}.

(* ================================================================= *)
(** ** Runs: state, trace and exceptions *)

Section Run.

Context (E : Env).

(** A computation: from a state of the environment to a result, the next
    state and the events emitted. *)
Definition M (A : Type) : Type := world E -> res A * world E * list event.

Definition ret {A} (a : A) : M A := fun w => (Ok a, w, []).

Definition raise {A} (e : exc) : M A := fun w => (Raise e, w, []).

Definition bind {A B} (c : M A) (k : A -> M B) : M B :=
  fun w =>
    match c w with
    | (Ok a, w1, t1) =>
        match k a w1 with
        | (r, w2, t2) => (r, w2, (t1 ++ t2)%list)
        end
    | (Raise e, w1, t1) => (Raise e, w1, t1)
    end.

(** [try: c  except Exception as e: h e] *)
Definition try_except {A} (c : M A) (h : exc -> M A) : M A :=
  fun w =>
    match c w with
    | (Ok a, w1, t1) => (Ok a, w1, t1)
    | (Raise e, w1, t1) =>
        match h e w1 with
        | (r, w2, t2) => (r, w2, (t1 ++ t2)%list)
        end
    end.

Definition emit (ev : event) : M unit := fun w => (Ok tt, w, [ev]).

Definition lift {A} (r : res A) : M A := fun w => (r, w, []).

Definition print (s : string) : M unit := emit (EPrint s).

End Run.

Arguments ret {E A} a.
Arguments raise {E A} e.
Arguments bind {E A B} c k.
Arguments try_except {E A} c h.
Arguments emit {E} ev.
Arguments lift {E A} r.
Arguments print {E} s.

Declare Scope run_scope.
Delimit Scope run_scope with run.
Notation "x <- c ;; k" := (bind c (fun x => k))
  (at level 61, c at next level, right associativity) : run_scope.
Notation "c ;; k" := (bind c (fun _ => k))
  (at level 61, right associativity) : run_scope.
Open Scope run_scope.

(** The parts of an outcome. *)
Definition result_of {A W} (o : res A * W * list event) : res A := fst (fst o).
Definition world_of {A W} (o : res A * W * list event) : W := snd (fst o).
Definition trace_of {A W} (o : res A * W * list event) : list event := snd o.

(* ================================================================= *)
(** ** aliyun_cdt_check.py *)

Definition REGION_NAMES : pydict string :=
  [ ("cn-qingdao", "华北1(青岛)");
    ("cn-beijing", "华北2(北京)");
    ("cn-zhangjiakou", "华北3(张家口)");
    ("cn-huhehaote", "华北5(呼和浩特)");
    ("cn-wulanchabu", "华北6(乌兰察布)");
    ("cn-hangzhou", "华东1(杭州)");
    ("cn-shanghai", "华东2(上海)");
    ("cn-nanjing", "华东5 (南京-本地地域)");
    ("cn-fuzhou", "华东6(福州-本地地域)");
    ("cn-wuhan-lr", "华中1(武汉-本地地域)");
    ("cn-shenzhen", "华南1(深圳)");
    ("cn-heyuan", "华南2(河源)");
    ("cn-guangzhou", "华南3(广州)");
    ("cn-chengdu", "西南1(成都)");
    ("cn-hongkong", "中国香港");
    ("ap-southeast-1", "新加坡");
    ("ap-southeast-2", "澳大利亚(悉尼)");
    ("ap-southeast-3", "马来西亚(吉隆坡)");
    ("ap-southeast-5", "印度尼西亚(雅加达)");
    ("ap-southeast-6", "菲律宾(马尼拉)");
    ("ap-southeast-7", "泰国(曼谷)");
    ("ap-northeast-1", "日本(东京)");
    ("ap-northeast-2", "韩国(首尔)");
    ("us-west-1", "美国(硅谷)");
    ("us-east-1", "美国(弗吉尼亚)");
    ("eu-central-1", "德国(法兰克福)");
    ("eu-west-1", "英国(伦敦)");
    ("me-east-1", "阿联酋(迪拜)");
    ("me-central-1", "沙特(利雅得)") ].

Definition get_region_name (region_id : string) : string :=
  dict_get_default REGION_NAMES region_id "未知地区".

(** The outcome of a fanout: [True], or the failure text. *)
Inductive notify_result := NTrue | NText (s : string).

(** [sum(item.get('Traffic', 0) for item in traffic_details)] *)
Definition sum_traffic (traffic_details : list TrafficItem) : Z :=
  fold_left (fun acc item => acc + get_default (Traffic item) 0) traffic_details 0.

(** The rule the firewall toggle looks for: all protocols from
    0.0.0.0/0, accepted, intranet, ingress. *)
Definition is_open_rule (rule : Permission) : bool :=
  String.eqb (upper (get_default (IpProtocol rule) "")) "ALL"
  && match SourceCidrIp rule with Some s => String.eqb s "0.0.0.0/0" | None => false end
  && match Policy rule with Some s => String.eqb s "Accept" | None => false end
  && match NicType rule with Some s => String.eqb s "intranet" | None => false end
  && match Direction rule with Some s => String.eqb s "ingress" | None => false end.

(** [round((traffic / max_traffic) * 100, 2)] *)
Definition usage_percentage (traffic max_traffic : pynum) : res float :=
  match py_truediv traffic max_traffic with
  | Ok q => Ok (py_round2 (q * 100)%float)
  | Raise e => Raise e
  end.

(** [usage_percentage >= 95] *)
Definition reached_95 (usage : float) : bool := PrimFloat.leb 95 usage.

(** What the loop body of [check] knows when it reaches the decision. *)
Record observation := mkObservation {
  ob_usage : float;
  ob_security_group_id : option string;
  ob_log : log_record;
  ob_is_enabled : bool
}.

Section Program.

Context (E : Env).

(** [api_call(client, action, version, queries)] *)
Definition api_call (rq : request) : M E (response rq) :=
  fun w => match call_api E rq w with (r, w1) => (r, w1, [ECall rq]) end.

(** A call of [smtplib] or [requests]. *)
Definition transport_call (t : transport) : M E (transport_result t) :=
  fun w => match deliver E t w with (r, w1) => (r, w1, [ESend t]) end.

Definition get_traffic (access_key_id access_key_secret : string) : M E pynum :=
  try_except
    (traffic_details_opt <- api_call (ListCdtInternetTraffic access_key_id access_key_secret) ;;
     let traffic_details := get_default traffic_details_opt [] in
     let total := sum_traffic traffic_details in
     gb <- lift (int_truediv total (1024 * 1024 * 1024)) ;;
     ret (PFloat gb))
    (fun e =>
       print ("获取流量异常: " ++ exc_msg e) ;;
       ret (PInt 0)).

Definition get_security_group_id
    (instance_id access_key_id access_key_secret region_id : string) : M E (option string) :=
  try_except
    (ids <- api_call (DescribeInstanceAttribute access_key_id access_key_secret
                        region_id instance_id) ;;
     match ids with
     | None => raise (KeyError "SecurityGroupIds")
     | Some [] => raise (IndexError "list index out of range")
     | Some (sg :: _) => ret (Some sg)
     end)
    (fun e =>
       print ("获取安全组ID异常: " ++ exc_msg e) ;;
       ret None).

Definition is_security_group_rule_enabled
    (security_group_id : option string)
    (access_key_id access_key_secret region_id : string) : M E bool :=
  try_except
    (perms <- api_call (DescribeSecurityGroupAttribute access_key_id access_key_secret
                          region_id security_group_id) ;;
     let permissions := get_default perms [] in
     ret (existsb is_open_rule permissions))
    (fun e =>
       print ("检查安全组规则异常: " ++ exc_msg e) ;;
       ret false).

Definition disable_security_group_rule
    (security_group_id : option string)
    (access_key_id access_key_secret region_id : string) : M E unit :=
  try_except
    (api_call (RevokeSecurityGroup access_key_id access_key_secret
                 region_id security_group_id) ;;
     print "已禁用0.0.0.0/0的全部协议规则")
    (fun e => print ("禁用安全组规则异常: " ++ exc_msg e)).

Definition enable_security_group_rule
    (security_group_id : option string)
    (access_key_id access_key_secret region_id : string) : M E unit :=
  try_except
    (api_call (AuthorizeSecurityGroup access_key_id access_key_secret
                 region_id security_group_id) ;;
     print "已恢复0.0.0.0/0的全部协议规则")
    (fun e => print ("恢复安全组规则异常: " ++ exc_msg e)).

Definition get_instance_details
    (access_key_id access_key_secret instance_id region_id : string) : M E (pydict string) :=
  try_except
    (found <- api_call (DescribeInstances access_key_id access_key_secret
                          region_id (Some instance_id)) ;;
     match get_default found [] with
     | instance :: _ =>
         let expiration_time := get_default (ExpiredTime instance) "无到期时间" in
         let public_ip :=
           match EipAddress_IpAddress instance with
           | Some (String c r) => String c r
           | _ => "无公网 IP 地址"
           end in
         ret [("到期时间", expiration_time); ("公网IP地址", public_ip)]
     | [] => ret [("到期时间", "无到期时间"); ("公网IP地址", "无公网 IP 地址")]
     end)
    (fun e =>
       print ("获取实例详情异常: " ++ exc_msg e) ;;
       ret [("到期时间", "查询失败"); ("公网IP地址", "查询失败")]).

(** *** The channels *)

Definition send_email_notification
    (message title_ : string) (config : NotificationConfig) : M E jvalue :=
  try_except
    (let html_body := replace_char (ascii_of_nat 10) "<br>" message in
     let tls := match secure config with Some s => String.eqb s "tls" | None => false end in
     transport_call (SmtpSend tls (host config) (port config) (username config)
                       (password config) (email config) title_ html_body) ;;
     ret JTrue)
    (fun e =>
       print ("邮件发送失败: " ++ exc_msg e) ;;
       ret (JStr (exc_msg e))).

Definition status_is_200 (code : Z) : jvalue := if code =? 200 then JTrue else JFalse.

Definition send_bark_notification (message bark_url : string) : M E jvalue :=
  try_except
    (let full_url := bark_url ++ "/流量告警/" ++ quote E message in
     code <- transport_call (HttpGet full_url []) ;;
     ret (status_is_200 code))
    (fun e =>
       print ("Bark 通知失败: " ++ exc_msg e) ;;
       ret JFalse).

Definition send_tg_notification (message bot_token chat_id : string) : M E jvalue :=
  try_except
    (let url := "https://api.telegram.org/bot" ++ bot_token ++ "/sendMessage" in
     code <- transport_call (HttpGet url [("chat_id", chat_id); ("text", message)]) ;;
     ret (status_is_200 code))
    (fun e =>
       print ("Telegram 通知失败: " ++ exc_msg e) ;;
       ret JFalse).

Definition send_webhook_notification
    (message webhook_url title_ webhook_id : string) : M E jvalue :=
  try_except
    (let full_url := webhook_url ++ "&id=" ++ webhook_id ++ "&title=" ++ quote E title_
                     ++ "&content=" ++ quote_plus E message in
     code <- transport_call (HttpGet full_url []) ;;
     ret (status_is_200 code))
    (fun e =>
       print ("Webhook 通知失败: " ++ exc_msg e) ;;
       ret JFalse).

Definition send_qywx_notification
    (message title_ touser_ corpid_ corpsecret_ agentid_ base_api_url pic_url : string)
    : M E jvalue :=
  try_except
    (let token_url := base_api_url ++ "/cgi-bin/gettoken?corpid=" ++ corpid_
                      ++ "&corpsecret=" ++ corpsecret_ in
     token_data <- transport_call (HttpGetJson token_url) ;;
     access_token <- match token_data with
                     | Some t => ret t
                     | None => raise (KeyError "access_token")
                     end ;;
     let send_url := base_api_url ++ "/cgi-bin/message/send?access_token=" ++ access_token in
     errcode <- transport_call
                  (HttpPostJson send_url touser_ agentid_ title_ message pic_url) ;;
     ret (match errcode with
          | Some 0 => JTrue
          | _ => JFalse
          end))
    (fun e =>
       print ("企业微信通知失败: " ++ exc_msg e) ;;
       ret JFalse).

(** *** The fanout *)

(** The text of a notification, from an error record or from a run-log
    record. *)
Definition notification_message (log : log_record) : res string :=
  if dict_mem log "错误信息" then
    let message := "⚠️ 错误通知" ++ LF in
    let message := message ++ "服务器: " ++ dict_get_default log "服务器" "" ++ LF in
    match dict_index log "错误信息" with
    | Raise e => Raise e
    | Ok err =>
        let message := message ++ "错误信息: " ++ err ++ LF in
        if dict_mem log "实例ID" then
          match dict_index log "实例ID" with
          | Raise e => Raise e
          | Ok iid => Ok (message ++ "实例ID: " ++ iid ++ LF)
          end
        else Ok message
    end
  else
    match dict_index log "服务器" with
    | Raise e => Raise e
    | Ok v1 =>
    match dict_index log "实例ID" with
    | Raise e => Raise e
    | Ok v2 =>
    match dict_index log "公网IP地址" with
    | Raise e => Raise e
    | Ok v3 =>
    match dict_index log "实例到期时间" with
    | Raise e => Raise e
    | Ok v4 =>
    match dict_index log "总流量" with
    | Raise e => Raise e
    | Ok v5 =>
    match dict_index log "已使用流量" with
    | Raise e => Raise e
    | Ok v6 =>
    match dict_index log "使用百分比" with
    | Raise e => Raise e
    | Ok v7 =>
    match dict_index log "地区" with
    | Raise e => Raise e
    | Ok v8 =>
    match dict_index log "安全组状态" with
    | Raise e => Raise e
    | Ok v9 =>
        Ok ("服务器: " ++ v1 ++ LF
            ++ "实例ID: " ++ v2 ++ LF
            ++ "实例IP: " ++ v3 ++ LF
            ++ "到期时间: " ++ v4 ++ LF
            ++ "CDT总流量: " ++ v5 ++ LF
            ++ "已使用流量: " ++ v6 ++ LF
            ++ "使用百分比: " ++ v7 ++ LF
            ++ "地区: " ++ v8 ++ LF
            ++ "安全组状态: " ++ v9 ++ LF)
    end end end end end end end end end.

(** [result is not True] *)
Definition is_not_True (v : jvalue) : bool :=
  match v with JTrue => false | _ => true end.

(** One [if notification_config.get('enable...'): results[key] = send(...)] *)
Definition attempt (enabled : bool) (key : string) (send : M E jvalue)
    (results : pydict jvalue) : M E (pydict jvalue) :=
  if enabled then
    r <- send ;;
    ret (dict_set results key r)
  else ret results.

(** The five attempts of [send_notification], in the order of the source. *)
Definition fanout (message title_ : string) (config : NotificationConfig)
    : M E (pydict jvalue) :=
  results <- attempt (enableEmail config) "email"
               (send_email_notification message title_ config) [] ;;
  results <- attempt (enableBark config) "bark"
               (send_bark_notification message (barkUrl config)) results ;;
  results <- attempt (enableTG config) "tg"
               (send_tg_notification message (tgBotToken config) (tgChatId config))
               results ;;
  results <- attempt (enableWebhook config) "webhook"
               (send_webhook_notification message (webhookUrl config) title_
                  (webhookId config)) results ;;
  attempt (enableQywx config) "qywx"
    (send_qywx_notification message title_ (touser config) (corpid config)
       (corpsecret config) (agentid config) (baseApiUrl config) (picUrl config))
    results.

(** The closing loop of [send_notification] over [results.items()]. *)
Definition aggregate (results : pydict jvalue) : notify_result :=
  if existsb (fun kv => is_not_True (snd kv)) results
  then NText ("发送失败: " ++ dumps results)
  else NTrue.

Definition send_notification (log : log_record) (notification_config : NotificationConfig)
    : M E notify_result :=
  emit (ENotify log) ;;
  message <- lift (notification_message log) ;;
  let title_ := get_default (title notification_config) "CDT流量统计" in
  results <- fanout message title_ notification_config ;;
  ret (aggregate results).

(** *** The validation gate *)

Definition validate_credentials_and_instance
    (account : Account) (notification_config : NotificationConfig) : M E bool :=
  try_except
    (found <- api_call (DescribeInstances (AccessKeyId account) (AccessKeySecret account)
                          (regionId account) None) ;;
     let instances := get_default found [] in
     let instance_valid :=
       existsb (fun inst => String.eqb (InstanceId inst) (instanceId account)) instances in
     if negb instance_valid
     then raise (Exception ("指定的实例ID不存在: " ++ instanceId account))
     else ret true)
    (fun e =>
       print ("验证异常: " ++ exc_msg e) ;;
       let log := [ ("服务器", get_default (accountName account) "");
                    ("实例ID", instanceId account);
                    ("错误信息", exc_msg e) ] in
       send_notification log notification_config ;;
       ret false).

(** *** The main check *)

(** [account.get('accountName', account['AccessKeyId'][:7] + '***')] *)
Definition account_name_of (account : Account) : string :=
  get_default (accountName account) (prefix_bytes 7 (AccessKeyId account) ++ "***").

(** ['成功' if notification_result is True else f"失败: {notification_result}"] *)
Definition sent_text (r : notify_result) : string :=
  match r with
  | NTrue => "成功"
  | NText s => "失败: " ++ s
  end.

(** Lines 383 to 407 of [check]: the queries and the record. *)
Definition check_observe (account : Account) : M E observation :=
  traffic <- get_traffic (AccessKeyId account) (AccessKeySecret account) ;;
  let account_name := account_name_of account in
  usage <- lift (usage_percentage traffic (maxTraffic account)) ;;
  let region_name := get_region_name (regionId account) in
  security_group_id <- get_security_group_id (instanceId account) (AccessKeyId account)
                         (AccessKeySecret account) (regionId account) ;;
  instance_details <- get_instance_details (AccessKeyId account) (AccessKeySecret account)
                        (instanceId account) (regionId account) ;;
  expiry <- lift (dict_index instance_details "到期时间") ;;
  public_ip <- lift (dict_index instance_details "公网IP地址") ;;
  let log :=
    [ ("实例ID", instanceId account);
      ("服务器", account_name);
      ("总流量", str_num E (maxTraffic account) ++ "GB");
      ("已使用流量", str_num E (py_round2_num traffic) ++ "GB");
      ("使用百分比", str_num E (PFloat usage) ++ "%");
      ("地区", region_name);
      ("实例到期时间", expiry);
      ("公网IP地址", public_ip);
      ("使用率达到95%", if reached_95 usage then "是" else "否") ] in
  is_enabled <- is_security_group_rule_enabled security_group_id (AccessKeyId account)
                  (AccessKeySecret account) (regionId account) ;;
  ret (mkObservation usage security_group_id log is_enabled).

(** Lines 409 to 428 of [check]: the decision, the toggle and the
    notification. *)
Definition check_reconcile (account : Account) (notification_config : NotificationConfig)
    (o : observation) : M E log_record :=
  let log := ob_log o in
  if reached_95 (ob_usage o) then
    if ob_is_enabled o then
      disable_security_group_rule (ob_security_group_id o) (AccessKeyId account)
        (AccessKeySecret account) (regionId account) ;;
      let log := dict_set log "安全组状态" "已禁用 0.0.0.0/0 访问规则" in
      notification_result <- send_notification log notification_config ;;
      ret (dict_set log "通知发送" (sent_text notification_result))
    else
      let log := dict_set log "安全组状态" "规则已禁用，无需操作" in
      ret (dict_set log "通知发送" "不需要")
  else
    if negb (ob_is_enabled o) then
      enable_security_group_rule (ob_security_group_id o) (AccessKeyId account)
        (AccessKeySecret account) (regionId account) ;;
      let log := dict_set log "安全组状态" "已恢复 0.0.0.0 访问规则" in
      notification_result <- send_notification log notification_config ;;
      ret (dict_set log "通知发送" (sent_text notification_result))
    else
      let log := dict_set log "安全组状态" "规则已启用，无需操作" in
      ret (dict_set log "通知发送" "不需要").

(** The body of the loop of [check] for one account: the records so far
    go in, the records after this account come out. *)
Definition check_account (notification_config : NotificationConfig)
    (logs : list log_record) (account : Account) : M E (list log_record) :=
  valid <- validate_credentials_and_instance account notification_config ;;
  if negb valid then ret logs
  else
    try_except
      (o <- check_observe account ;;
       log <- check_reconcile account notification_config o ;;
       ret (logs ++ [log])%list)
      (fun e =>
         print ("异常: " ++ exc_msg e) ;;
         let error_log := [ ("服务器", account_name_of account);
                            ("实例ID", instanceId account);
                            ("错误信息", exc_msg e) ] in
         send_notification error_log notification_config ;;
         ret logs).

Fixpoint check_loop (notification_config : NotificationConfig)
    (accounts : list Account) (logs : list log_record) : M E (list log_record) :=
  match accounts with
  | [] => ret logs
  | account :: rest =>
      logs1 <- check_account notification_config logs account ;;
      check_loop notification_config rest logs1
  end.

(** [write_log]: the records go to [data.json] (and to the console). *)
Definition write_log (logs : list log_record) : M E unit := emit (EWriteLog logs).

(** [check()], after [load_config()] has answered the accounts and the
    notification object. *)
Definition check (accounts : list Account) (notification_config : NotificationConfig)
    : M E unit :=
  logs <- check_loop notification_config accounts [] ;;
  write_log logs.

End Program.

(* ================================================================= *)
(** ** dailyjob.py *)

(** Lines 101 to 114 of [send_daily_notification]: the number of filled
    cells of the progress bar. *)
Definition progress_do_num (usage : float) : res Z :=
  match py_round usage with
  | Raise e => Raise e
  | Ok progress_val =>
      let progress_all_num := 20 in
      if (PrimFloat.ltb 0 usage && PrimFloat.ltb usage 1)%bool then Ok 1
      else if progress_val =? 0 then Ok 0
      else if ((95 <? progress_val) && PrimFloat.ltb usage 100)%bool
           then Ok (progress_all_num - 1)
      else
        match int_truediv (progress_all_num * progress_val) 100 with
        | Raise e => Raise e
        | Ok q =>
            match py_round (0.5 + q)%float with
            | Raise e => Raise e
            | Ok r => Ok (Z.min progress_all_num r)
            end
        end
  end.

(** Lines 116 and 117: the bar of filled and empty cells. *)
Definition progress_bar (usage : float) : res string :=
  match progress_do_num usage with
  | Raise e => Raise e
  | Ok progress_do_num_ =>
      let progress_undo_num := 20 - progress_do_num_ in
      Ok (str_mul "■" progress_do_num_ ++ str_mul "□" progress_undo_num)
  end.

Section Daily.

Context (E : Env).

Definition send_daily_notification_message
    (message traffic : string) (notification_config : NotificationConfig) : M E bool :=
  emit (EDigest message) ;;
  let title_ := get_default (title notification_config) "CDT流量统计" in
  let daily_title := "已使用" ++ traffic ++ " - " ++ title_ in
  results <- attempt E (enableEmail notification_config) "email"
               (send_email_notification E message title_ notification_config) [] ;;
  results <- attempt E (enableBark notification_config) "bark"
               (send_bark_notification E message (barkUrl notification_config)) results ;;
  results <- attempt E (enableTG notification_config) "tg"
               (send_tg_notification E message (tgBotToken notification_config)
                  (tgChatId notification_config)) results ;;
  results <- attempt E (enableWebhook notification_config) "webhook"
               (send_webhook_notification E message (webhookUrl notification_config)
                  daily_title (webhookId notification_config)) results ;;
  results <- attempt E (enableQywx notification_config) "qywx"
               (send_qywx_notification E message daily_title (touser notification_config)
                  (corpid notification_config) (corpsecret notification_config)
                  (agentid notification_config) (baseApiUrl notification_config)
                  (picUrl notification_config)) results ;;
  if existsb (fun kv => is_not_True (snd kv)) results then
    print ("通知发送失败: " ++ dumps results) ;;
    ret false
  else
    print "通知发送成功" ;;
    ret true.

(** [account['accountName']] *)
Definition account_name_index (account : Account) : res string :=
  match accountName account with
  | Some n => Ok n
  | None => Raise (KeyError "accountName")
  end.

(** The [try] block of the loop body of [send_daily_notification]. *)
Definition daily_digest (account : Account) (notification_config : NotificationConfig)
    : M E unit :=
  traffic <- get_traffic E (AccessKeyId account) (AccessKeySecret account) ;;
  usage <- lift (usage_percentage traffic (maxTraffic account)) ;;
  instance_details <- get_instance_details E (AccessKeyId account) (AccessKeySecret account)
                        (instanceId account) (regionId account) ;;
  security_group_id <- get_security_group_id E (instanceId account) (AccessKeyId account)
                         (AccessKeySecret account) (regionId account) ;;
  is_enabled <- is_security_group_rule_enabled E security_group_id (AccessKeyId account)
                  (AccessKeySecret account) (regionId account) ;;
  if negb is_enabled then ret tt
  else
    bar <- lift (progress_bar usage) ;;
    expiry <- lift (dict_index instance_details "到期时间") ;;
    let formatted_datetime := format_expiry E expiry in
    name <- lift (account_name_index account) ;;
    public_ip <- lift (dict_index instance_details "公网IP地址") ;;
    let message := name ++ "（" ++ public_ip ++ "）" ++ LF in
    let message := message ++ bar ++ " " ++ str_num E (PFloat usage) ++ "%" ++ LF in
    let message := message ++ "已使用流量: " ++ str_num E (py_round2_num traffic) ++ "GB / "
                   ++ str_num E (maxTraffic account) ++ "GB" ++ LF in
    let message := message ++ "实例地区: " ++ get_region_name (regionId account) ++ LF in
    let message := message ++ "到期时间: " ++ formatted_datetime ++ LF in
    let message := message ++ "实例ID: " ++ instanceId account ++ LF in
    let message := message ++ "安全组状态: 启用" ++ LF in
    let traffic_str := str_num E (py_round2_num traffic) ++ "GB" in
    send_daily_notification_message message traffic_str notification_config ;;
    ret tt.

(** The body of the loop of [send_daily_notification] for one account. *)
Definition daily_account (notification_config : NotificationConfig) (account : Account)
    : M E unit :=
  if negb (get_default (enableNotification account) true) then
    name <- lift (account_name_index account) ;;
    print ("跳过账户 " ++ name ++ "：未启用通知")
  else if get_default (onlyNotifyOnToggle account) false then
    name <- lift (account_name_index account) ;;
    print ("跳过账户 " ++ name ++ "：仅在防火墙切换时通知")
  else
    valid <- validate_credentials_and_instance E account notification_config ;;
    if negb valid then ret tt
    else
      try_except
        (daily_digest account notification_config)
        (fun e => print ("异常: " ++ exc_msg e)).

Fixpoint send_daily_notification (accounts : list Account)
    (notification_config : NotificationConfig) : M E unit :=
  match accounts with
  | [] => ret tt
  | account :: rest =>
      daily_account notification_config account ;;
      send_daily_notification rest notification_config
  end.

End Daily.

(* ================================================================= *)
(** ** Reading a trace *)

Definition mutation_of (ev : event) : list request :=
  match ev with
  | ECall rq => if is_mutating rq then [rq] else []
  | _ => []
  end.

(** The calls of a run that change a security group, in order. *)
Definition mutating_calls (tr : list event) : list request := flat_map mutation_of tr.

Definition notification_of (ev : event) : list log_record :=
  match ev with
  | ENotify log => [log]
  | _ => []
  end.

(** The records handed to [send_notification] during a run, in order. *)
Definition notifications (tr : list event) : list log_record := flat_map notification_of tr.

Definition call_of (ev : event) : list request :=
  match ev with
  | ECall rq => [rq]
  | _ => []
  end.

(** All the cloud API calls of a run, in order. *)
Definition api_calls (tr : list event) : list request := flat_map call_of tr.

Definition send_of (ev : event) : list transport :=
  match ev with
  | ESend t => [t]
  | _ => []
  end.

(** All the delivery attempts of a run, in order. *)
Definition deliveries (tr : list event) : list transport := flat_map send_of tr.

Definition print_of (ev : event) : list string :=
  match ev with
  | EPrint s => [s]
  | _ => []
  end.

(** The lines a run prints, in order. *)
Definition printed (tr : list event) : list string := flat_map print_of tr.

(** A computation none of whose events is seen by the reader [f]. *)
Definition emits_none {E : Env} {A X : Type} (f : event -> list X) (c : M E A) : Prop :=
  forall w, flat_map f (trace_of (c w)) = [].

(** A computation that always returns. *)
Definition never_raises {E : Env} {A : Type} (c : M E A) : Prop :=
  forall w, exists a, result_of (c w) = Ok a.

(* ================================================================= *)
(** ** Vocabulary of the statements *)

(** The keys of the outcome map for a configuration, in the order the
    fanout fills them. *)
Definition enabled_channels (config : NotificationConfig) : list string :=
  ((if enableEmail config then ["email"] else [])
   ++ (if enableBark config then ["bark"] else [])
   ++ (if enableTG config then ["tg"] else [])
   ++ (if enableWebhook config then ["webhook"] else [])
   ++ (if enableQywx config then ["qywx"] else []))%list.

(** The delivery each channel starts with. *)
Definition email_request (message title_ : string) (config : NotificationConfig) : transport :=
  SmtpSend (match secure config with Some s => String.eqb s "tls" | None => false end)
    (host config) (port config) (username config) (password config) (email config)
    title_ (replace_char (ascii_of_nat 10) "<br>" message).

Definition bark_request (E : Env) (message : string) (config : NotificationConfig)
    : transport :=
  HttpGet (barkUrl config ++ "/流量告警/" ++ quote E message) [].

Definition tg_request (message : string) (config : NotificationConfig) : transport :=
  HttpGet ("https://api.telegram.org/bot" ++ tgBotToken config ++ "/sendMessage")
    [("chat_id", tgChatId config); ("text", message)].

Definition webhook_request (E : Env) (message title_ : string) (config : NotificationConfig)
    : transport :=
  HttpGet (webhookUrl config ++ "&id=" ++ webhookId config ++ "&title=" ++ quote E title_
           ++ "&content=" ++ quote_plus E message) [].

Definition qywx_token_request (config : NotificationConfig) : transport :=
  HttpGetJson (baseApiUrl config ++ "/cgi-bin/gettoken?corpid=" ++ corpid config
               ++ "&corpsecret=" ++ corpsecret config).


(** The outcome a channel records for the answer of its delivery. *)
Definition email_outcome (r : res unit) : jvalue :=
  match r with
  | Ok _ => JTrue
  | Raise e => JStr (exc_msg e)
  end.

Definition http_outcome (r : res Z) : jvalue :=
  match r with
  | Ok code => status_is_200 code
  | Raise _ => JFalse
  end.

(** The validation gate rejects the answer of [DescribeInstances]. *)
Definition validation_fails (account : Account) (r : res (option (list Instance))) : bool :=
  match r with
  | Raise _ => true
  | Ok found =>
      negb (existsb (fun inst => String.eqb (InstanceId inst) (instanceId account))
              (get_default found []))
  end.

Definition validation_message (account : Account) (r : res (option (list Instance)))
    : string :=
  match r with
  | Raise e => exc_msg e
  | Ok _ => "指定的实例ID不存在: " ++ instanceId account
  end.

(** The error record of the validation gate. *)
Definition validation_record (account : Account) (message : string) : log_record :=
  [ ("服务器", get_default (accountName account) "");
    ("实例ID", instanceId account);
    ("错误信息", message) ].

(** The error record of the handler of [check]. *)
Definition check_error_record (account : Account) (message : string) : log_record :=
  [ ("服务器", account_name_of account);
    ("实例ID", instanceId account);
    ("错误信息", message) ].

Definition validate_request (account : Account) : request :=
  DescribeInstances (AccessKeyId account) (AccessKeySecret account) (regionId account) None.

Definition revoke_request (account : Account) (o : observation) : request :=
  RevokeSecurityGroup (AccessKeyId account) (AccessKeySecret account) (regionId account)
    (ob_security_group_id o).

Definition authorize_request (account : Account) (o : observation) : request :=
  AuthorizeSecurityGroup (AccessKeyId account) (AccessKeySecret account) (regionId account)
    (ob_security_group_id o).

(** The decision of the specification.  Modelled on its contract
    [reconcile(observedEnabled, usagePercentage) -> Action]; the source
    has the decision inline in [check], see [check_reconcile]. *)
Inductive Action := NoAction | Disable | Enable.

Definition reconcile (observedEnabled : bool) (usagePercentage : float) : Action :=
  if PrimFloat.leb 95 usagePercentage then
    if observedEnabled then Disable else NoAction
  else
    if observedEnabled then NoAction else Enable.

(** The state of the rule a decision aims at. *)
Definition state_after (a : Action) (observedEnabled : bool) : bool :=
  match a with
  | NoAction => observedEnabled
  | Disable => false
  | Enable => true
  end.

(** The rule of the specification for the filled cells of the 20-cell
    bar, in its words: 0% gives none; above 0% and below 1% gives one;
    above 95% and below 100% gives at most 19; otherwise
    [round(0.5 + 20 * percentage / 100)] clamped to 20. *)
Definition bar_rule (percentage : float) (cells : Z) : Prop :=
  if PrimFloat.eqb percentage 0 then cells = 0
  else if (PrimFloat.ltb 0 percentage && PrimFloat.ltb percentage 1)%bool then cells = 1
  else if (PrimFloat.ltb 95 percentage && PrimFloat.ltb percentage 100)%bool
       then cells <= 19
  else match py_round (0.5 + 20 * percentage / 100)%float with
       | Ok r => cells = Z.min 20 r
       | Raise _ => False
       end.

(** The five attempts of the fanout as a list, for proofs by induction:
    the flag, the key and the sender of each channel. *)
Definition channels (E : Env) (message title_ : string) (config : NotificationConfig)
    : list (bool * string * M E jvalue) :=
  [ (enableEmail config, "email", send_email_notification E message title_ config);
    (enableBark config, "bark", send_bark_notification E message (barkUrl config));
    (enableTG config, "tg",
     send_tg_notification E message (tgBotToken config) (tgChatId config));
    (enableWebhook config, "webhook",
     send_webhook_notification E message (webhookUrl config) title_ (webhookId config));
    (enableQywx config, "qywx",
     send_qywx_notification E message title_ (touser config) (corpid config)
       (corpsecret config) (agentid config) (baseApiUrl config) (picUrl config)) ].

Fixpoint run_attempts (E : Env) (chs : list (bool * string * M E jvalue))
    (results : pydict jvalue) : M E (pydict jvalue) :=
  match chs with
  | [] => ret results
  | (enabled, key, send) :: rest =>
      results1 <- attempt E enabled key send results ;;
      run_attempts E rest results1
  end.

(** The keys of the enabled channels of a list of attempts. *)
Definition enabled_keys {E : Env} (chs : list (bool * string * M E jvalue)) : list string :=
  map (fun ch => snd (fst ch)) (filter (fun ch => fst (fst ch)) chs).

(** Every sender of a list of attempts always returns. *)
Definition all_total {E : Env} (chs : list (bool * string * M E jvalue)) : Prop :=
  forall ch, In ch chs -> never_raises (snd ch).

(* ================================================================= *)
(** ** A small cloud for the examples

    The state is whether the open rule is present in the security
    group.  A scenario fixes what the services answer. *)

Record scenario := mkScenario {
  sc_traffic : res (option (list TrafficItem));
  sc_instances : res (option (list Instance));
  sc_permissions_fail : bool;
  sc_toggle_fails : bool;
  sc_smtp : res unit;
  sc_get : res Z;          (* a GET without parameters: Bark, webhook *)
  sc_get_params : res Z    (* a GET with parameters: Telegram *)
}.

Definition open_rule : Permission :=
  mkPermission (Some "all") (Some "0.0.0.0/0") (Some "Accept") (Some "intranet")
    (Some "ingress").

Definition sim_call_api (sc : scenario) (rq : request) (w : bool)
    : res (response rq) * bool :=
  match rq as r return res (response r) * bool with
  | ListCdtInternetTraffic _ _ => (sc_traffic sc, w)
  | DescribeInstanceAttribute _ _ _ _ => (Ok (Some ["sg-demo"]), w)
  | DescribeInstances _ _ _ _ => (sc_instances sc, w)
  | DescribeSecurityGroupAttribute _ _ _ _ =>
      if sc_permissions_fail sc then (Raise (mkExc "TeaException" "Throttling"), w)
      else (Ok (Some (if w then [open_rule] else [])), w)
  | RevokeSecurityGroup _ _ _ _ =>
      if sc_toggle_fails sc then (Raise (mkExc "TeaException" "Forbidden"), w)
      else (Ok tt, false)
  | AuthorizeSecurityGroup _ _ _ _ =>
      if sc_toggle_fails sc then (Raise (mkExc "TeaException" "Forbidden"), w)
      else (Ok tt, true)
  end.

Definition sim_deliver (sc : scenario) (t : transport) (w : bool)
    : res (transport_result t) * bool :=
  match t as r return res (transport_result r) * bool with
  | SmtpSend _ _ _ _ _ _ _ _ => (sc_smtp sc, w)
  | HttpGet _ [] => (sc_get sc, w)
  | HttpGet _ (_ :: _) => (sc_get_params sc, w)
  | HttpGetJson _ => (Ok (Some "token"), w)
  | HttpPostJson _ _ _ _ _ _ => (Ok (Some 0), w)
  end.

Definition sim_env (sc : scenario) : Env :=
  mkEnv bool (sim_call_api sc) (sim_deliver sc)
    (fun n => match n with PInt _ => "int" | PFloat _ => "float" end)
    (fun s => s) (fun s => s) (fun s => s).

Definition demo_instance : Instance :=
  mkInstance "i-demo" (Some "2030-01-01T00:00Z") (Some "203.0.113.7").

(** 192 GiB used, in two line items and one without a value. *)
Definition demo_traffic : list TrafficItem :=
  [ mkTrafficItem (Some (100 * 1024 * 1024 * 1024));
    mkTrafficItem None;
    mkTrafficItem (Some (92 * 1024 * 1024 * 1024)) ].

Definition demo_scenario : scenario :=
  mkScenario (Ok (Some demo_traffic)) (Ok (Some [demo_instance])) false false
    (Ok tt) (Ok 200) (Ok 200).

(** A quota of 200 GB. *)
Definition demo_account : Account :=
  mkAccount (Some "demo") "LTAI-demo-key" "secret" "cn-hongkong" "i-demo" (PInt 200)
    None None.

Definition demo_config : NotificationConfig :=
  mkNotificationConfig None true true true false false
    "robot@example.org" "ops@example.org" "smtp.example.org" "465" "pw" None
    "https://bark.example.org/key" "bot-token" "chat" "https://hook.example.org/?a=1"
    "7" "ops" "corp" "corp-secret" "1000002" "https://qyapi.example.org"
    "https://example.org/pic.png".

(** [min(20, round(0.5 + (20 * p) / 100))]: the last branch of the
    progress bar, for the rounded percentage [p]. *)
Definition cells_formula (p : Z) : res Z :=
  match int_truediv (20 * p) 100 with
  | Raise e => Raise e
  | Ok q =>
      match py_round (0.5 + q)%float with
      | Raise e => Raise e
      | Ok r => Ok (Z.min 20 r)
      end
  end.

(** The integers [lo], [lo + 1], ..., [lo + n - 1]. *)
Definition Z_range (lo : Z) (n : nat) : list Z := map (fun i => lo + Z.of_nat i) (seq 0 n).

(** For a rounded percentage from 1 to 94 the formula gives from 1 to 19
    cells. *)
Definition formula_stays_below_full (p : Z) : bool :=
  match cells_formula p with
  | Ok cells => (1 <=? cells) && (cells <=? 19)
  | Raise _ => false
  end.

Definition digest_of (ev : event) : list string :=
  match ev with
  | EDigest message => [message]
  | _ => []
  end.

(** The digests the daily job composes and hands to its channels, in order. *)
Definition digests (tr : list event) : list string := flat_map digest_of tr.

(* ================================================================= *)
(** ** Vocabulary of the runs *)

(** The four queries of an observation. *)
Definition traffic_request (account : Account) : request :=
  ListCdtInternetTraffic (AccessKeyId account) (AccessKeySecret account).

Definition group_request (account : Account) : request :=
  DescribeInstanceAttribute (AccessKeyId account) (AccessKeySecret account)
    (regionId account) (instanceId account).

Definition details_request (account : Account) : request :=
  DescribeInstances (AccessKeyId account) (AccessKeySecret account) (regionId account)
    (Some (instanceId account)).

Definition rules_request (account : Account) (sg : option string) : request :=
  DescribeSecurityGroupAttribute (AccessKeyId account) (AccessKeySecret account)
    (regionId account) sg.

Definition observation_requests (account : Account) (sg : option string) : list request :=
  [ traffic_request account; group_request account; details_request account;
    rules_request account sg ].

(** [result['SecurityGroupIds']['SecurityGroupId'][0]], or [None] when
    the call or one of the lookups raised. *)
Definition first_group (r : res (option (list string))) : option string :=
  match r with
  | Ok (Some (sg :: _)) => Some sg
  | _ => None
  end.

(** The call of the validation gate: [DescribeInstances] without
    [InstanceIds]. *)
Definition is_validation (rq : request) : bool :=
  match rq with
  | DescribeInstances _ _ _ None => true
  | _ => false
  end.

(** The validation calls of a run, in order. *)
Definition validations (tr : list event) : list request :=
  filter is_validation (api_calls tr).

Definition write_of (ev : event) : list (list log_record) :=
  match ev with
  | EWriteLog logs => [logs]
  | _ => []
  end.

(** What a run writes to [data.json], in order. *)
Definition written (tr : list event) : list (list log_record) := flat_map write_of tr.

(** The members of a run-log record, in the order [check] sets them. *)
Definition run_log_keys : list string :=
  [ "实例ID"; "服务器"; "总流量"; "已使用流量"; "使用百分比"; "地区"; "实例到期时间";
    "公网IP地址"; "使用率达到95%"; "安全组状态"; "通知发送" ].

(** The members the status text of [send_notification] reads, in the
    order it reads them. *)
Definition status_keys : list string :=
  [ "服务器"; "实例ID"; "公网IP地址"; "实例到期时间"; "总流量"; "已使用流量"; "使用百分比";
    "地区"; "安全组状态" ].

(** The first key of a list that a record lacks. *)
Fixpoint first_missing (log : log_record) (keys : list string) : option string :=
  match keys with
  | [] => None
  | k :: rest => if dict_mem log k then first_missing log rest else Some k
  end.

(** Whether the configuration enables the channel a delivery belongs to:
    SMTP is email; a GET without parameters is Bark or the webhook; a GET
    with parameters is Telegram; the token GET and the JSON POST are the
    enterprise chat. *)
Definition channel_enabled (config : NotificationConfig) (t : transport) : bool :=
  match t with
  | SmtpSend _ _ _ _ _ _ _ _ => enableEmail config
  | HttpGet _ [] => enableBark config || enableWebhook config
  | HttpGet _ (_ :: _) => enableTG config
  | HttpGetJson _ => enableQywx config
  | HttpPostJson _ _ _ _ _ _ => enableQywx config
  end.

(** The POST of the enterprise chat for a token. *)
Definition qywx_send_request (message title_ : string) (config : NotificationConfig)
    (access_token : string) : transport :=
  HttpPostJson (baseApiUrl config ++ "/cgi-bin/message/send?access_token=" ++ access_token)
    (touser config) (agentid config) title_ message (picUrl config).

(** Whether a string holds a byte. *)
Fixpoint has_byte (c : ascii) (s : string) : bool :=
  match s with
  | EmptyString => false
  | String d r => Ascii.eqb c d || has_byte c r
  end.

(** The number of occurrences of a byte in a string. *)
Fixpoint count_byte (c : ascii) (s : string) : nat :=
  match s with
  | EmptyString => O
  | String d r => ((if Ascii.eqb c d then 1 else 0) + count_byte c r)%nat
  end.

(** The mutating call of a decision, if any. *)
Definition toggle_requests (account : Account) (o : observation) (a : Action)
    : list request :=
  match a with
  | NoAction => []
  | Disable => [revoke_request account o]
  | Enable => [authorize_request account o]
  end.

(** The [安全组状态] member [check] sets for a decision. *)
Definition reported_state (a : Action) (usage : float) : string :=
  match a with
  | Disable => "已禁用 0.0.0.0/0 访问规则"
  | Enable => "已恢复 0.0.0.0 访问规则"
  | NoAction => if reached_95 usage then "规则已禁用，无需操作" else "规则已启用，无需操作"
  end.

(** [l1] is [l2] with some elements left out. *)
Inductive subseq {A : Type} : list A -> list A -> Prop :=
| subseq_nil : subseq [] []
| subseq_skip x l1 l2 : subseq l1 l2 -> subseq l1 (x :: l2)
| subseq_keep x l1 l2 : subseq l1 l2 -> subseq (x :: l1) (x :: l2).

(** A run-log record of [check] for an account: the eleven members, with
    the instance ID of the account. *)
Definition record_of (account : Account) (log : log_record) : Prop :=
  map fst log = run_log_keys /\ dict_get log "实例ID" = Some (instanceId account).

(** A quota the usage evaluation can divide by: an integer from 1 to
    below 2^53, or a float other than zero. *)
Definition quota_divides (quota : pynum) : Prop :=
  match quota with
  | PInt m => 0 < m < 2 ^ 53
  | PFloat fq => PrimFloat.eqb fq 0 = false
  end.

(** The access key a cloud call is made with. *)
Definition request_key (rq : request) : string :=
  match rq with
  | ListCdtInternetTraffic ak _ => ak
  | DescribeInstanceAttribute ak _ _ _ => ak
  | DescribeInstances ak _ _ _ => ak
  | DescribeSecurityGroupAttribute ak _ _ _ => ak
  | RevokeSecurityGroup ak _ _ _ => ak
  | AuthorizeSecurityGroup ak _ _ _ => ak
  end.

(** The two opt-outs of the daily job: it reports on an account unless
    [enableNotification] is false or [onlyNotifyOnToggle] is true. *)
Definition reports_on (account : Account) : bool :=
  get_default (enableNotification account) true
  && negb (get_default (onlyNotifyOnToggle account) false).

(** [account] has the member [accountName]. *)
Definition is_named (account : Account) : bool :=
  match accountName account with Some _ => true | None => false end.

(** The five attempts of [send_daily_notification_message] as a list:
    the webhook and the enterprise chat get the title with the traffic. *)
Definition daily_channels (E : Env) (message traffic : string) (config : NotificationConfig)
    : list (bool * string * M E jvalue) :=
  let title_ := get_default (title config) "CDT流量统计" in
  let daily_title := "已使用" ++ traffic ++ " - " ++ title_ in
  [ (enableEmail config, "email", send_email_notification E message title_ config);
    (enableBark config, "bark", send_bark_notification E message (barkUrl config));
    (enableTG config, "tg",
     send_tg_notification E message (tgBotToken config) (tgChatId config));
    (enableWebhook config, "webhook",
     send_webhook_notification E message (webhookUrl config) daily_title (webhookId config));
    (enableQywx config, "qywx",
     send_qywx_notification E message daily_title (touser config) (corpid config)
       (corpsecret config) (agentid config) (baseApiUrl config) (picUrl config)) ].

(** The answer of the rules query shows the open rule. *)
Definition shows_open_rule (r : res (option (list Permission))) : bool :=
  match r with
  | Ok perms => existsb is_open_rule (get_default perms [])
  | Raise _ => false
  end.

(** The cloud calls of an event made with another access key than [ak]. *)
Definition foreign_call_of (ak : string) (ev : event) : list request :=
  match ev with
  | ECall rq => if String.eqb (request_key rq) ak then [] else [rq]
  | _ => []
  end.

(** An environment whose rules query never shows the open rule: it
    raises, or the rule is not among the permissions it answers. *)
Definition rule_never_shown (E : Env) : Prop :=
  forall ak sk region sg w,
    shows_open_rule (fst (call_api E (DescribeSecurityGroupAttribute ak sk region sg) w))
    = false.

(** For a rounded percentage the last branch of the bar gives from 1 to
    20 cells. *)
Definition formula_fits_bar (p : Z) : bool :=
  match cells_formula p with
  | Ok cells => (1 <=? cells) && (cells <=? 20)
  | Raise _ => false
  end.

(** No two entries of a list of strings are equal. *)
Fixpoint distinct (l : list string) : bool :=
  match l with
  | [] => true
  | s :: rest => negb (existsb (String.eqb s) rest) && distinct rest
  end.

(** The spellings of [all] in upper and lower case. *)
Definition all_spellings : list string :=
  [ "all"; "alL"; "aLl"; "aLL"; "All"; "AlL"; "ALl"; "ALL" ].

(** The open rule, member by member: the protocol is a spelling of
    [all]; the other four members are exactly those of the rule. *)
Definition is_open (rule : Permission) : Prop :=
  (exists protocol, IpProtocol rule = Some protocol /\ In protocol all_spellings)
  /\ SourceCidrIp rule = Some "0.0.0.0/0"
  /\ Policy rule = Some "Accept"
  /\ NicType rule = Some "intranet"
  /\ Direction rule = Some "ingress".

(* ================================================================= *)
(** ** Vocabulary of the outcomes *)

(** The float a decimal with two places is read as: the float nearest
    to [n / 100], with the sign [s]. *)
Definition hundredths (s : bool) (n : Z) : float :=
  match n with
  | Z.pos p => SF2Prim (SFdiv prec emax (S754_finite s p 0) (S754_finite false 100 0))
  | _ => SF2Prim (S754_zero s)
  end.

(** The outcome the enterprise chat records for the answers of its two
    deliveries: [True] when the token request answered a token and the
    post made with it answered [errcode] 0, [False] otherwise. *)
Definition qywx_outcome (E : Env) (message title_ : string) (config : NotificationConfig)
    (w : world E) : jvalue :=
  match deliver E (qywx_token_request config) w with
  | (Ok (Some access_token), w1) =>
      match fst (deliver E (qywx_send_request message title_ config access_token) w1) with
      | Ok (Some 0) => JTrue
      | _ => JFalse
      end
  | _ => JFalse
  end.

(** The outcome map the answers of the services determine: every
    enabled channel, in the order of the fanout, with the outcome of its
    own delivery, made from the state the channels before it left.
    [title_] is the subject of the email, [late_title] the title of the
    webhook and of the enterprise chat. *)
Definition outcome_map (E : Env) (message title_ late_title : string)
    (config : NotificationConfig) (w : world E) : pydict jvalue :=
  let d1 := deliver E (email_request message title_ config) w in
  let w1 := if enableEmail config then snd d1 else w in
  let d2 := deliver E (bark_request E message config) w1 in
  let w2 := if enableBark config then snd d2 else w1 in
  let d3 := deliver E (tg_request message config) w2 in
  let w3 := if enableTG config then snd d3 else w2 in
  let d4 := deliver E (webhook_request E message late_title config) w3 in
  let w4 := if enableWebhook config then snd d4 else w3 in
  ((if enableEmail config then [("email", email_outcome (fst d1))] else [])
   ++ (if enableBark config then [("bark", http_outcome (fst d2))] else [])
   ++ (if enableTG config then [("tg", http_outcome (fst d3))] else [])
   ++ (if enableWebhook config then [("webhook", http_outcome (fst d4))] else [])
   ++ (if enableQywx config
       then [("qywx", qywx_outcome E message late_title config w4)] else []))%list.


(* ================================================================= *)
(** ** The notification object with absent members

    [NotificationConfig] holds a value for every member.  In
    [config.json] a member of the [Notification] object may be absent.
    The program reads the title, the flags and [secure] with [.get].  The
    fanouts read the members of Bark, Telegram, the webhook and the
    enterprise chat by index, as arguments of the senders and outside
    every handler: an absent one raises [KeyError] there.  Those members
    are kept here as a [dict], and the functions that are given the
    object are embedded again over it, with these reads.  The email
    sender is given the whole object and reads its members inside its own
    handler, so the absence of one can only change the outcome it
    records; the object keeps their values. *)

Record NotificationObject := mkNotificationObject {
  n_title : option string;
  n_enableEmail : bool;
  n_enableBark : bool;
  n_enableTG : bool;
  n_enableWebhook : bool;
  n_enableQywx : bool;
  n_username : string;
  n_email : string;
  n_host : string;
  n_port : string;
  n_password : string;
  n_secure : option string;
  n_members : pydict string
}.

(** The configuration a notification object stands for when none of the
    members read by index is absent: each member with its value. *)
Definition typed (config : NotificationObject) : NotificationConfig :=
  let member key := dict_get_default (n_members config) key "" in
  mkNotificationConfig (n_title config) (n_enableEmail config) (n_enableBark config)
    (n_enableTG config) (n_enableWebhook config) (n_enableQywx config)
    (n_username config) (n_email config) (n_host config) (n_port config)
    (n_password config) (n_secure config)
    (member "barkUrl") (member "tgBotToken") (member "tgChatId")
    (member "webhookUrl") (member "webhookId")
    (member "touser") (member "corpid") (member "corpsecret") (member "agentid")
    (member "baseApiUrl") (member "picUrl").

Module Raw.

Section Program.

Context (E : Env).

(** The calls of the senders with the members they are given, read in
    the order of the arguments. *)
Definition call_bark (message : string) (config : NotificationObject) : M E jvalue :=
  bark_url <- lift (dict_index (n_members config) "barkUrl") ;;
  send_bark_notification E message bark_url.

Definition call_tg (message : string) (config : NotificationObject) : M E jvalue :=
  bot_token <- lift (dict_index (n_members config) "tgBotToken") ;;
  chat_id <- lift (dict_index (n_members config) "tgChatId") ;;
  send_tg_notification E message bot_token chat_id.

Definition call_webhook (message title_ : string) (config : NotificationObject)
    : M E jvalue :=
  webhook_url <- lift (dict_index (n_members config) "webhookUrl") ;;
  webhook_id <- lift (dict_index (n_members config) "webhookId") ;;
  send_webhook_notification E message webhook_url title_ webhook_id.

Definition call_qywx (message title_ : string) (config : NotificationObject) : M E jvalue :=
  touser_ <- lift (dict_index (n_members config) "touser") ;;
  corpid_ <- lift (dict_index (n_members config) "corpid") ;;
  corpsecret_ <- lift (dict_index (n_members config) "corpsecret") ;;
  agentid_ <- lift (dict_index (n_members config) "agentid") ;;
  base_api_url <- lift (dict_index (n_members config) "baseApiUrl") ;;
  pic_url <- lift (dict_index (n_members config) "picUrl") ;;
  send_qywx_notification E message title_ touser_ corpid_ corpsecret_ agentid_
    base_api_url pic_url.

(** The five attempts of [send_notification], in the order of the source. *)
Definition fanout (message title_ : string) (config : NotificationObject)
    : M E (pydict jvalue) :=
  results <- attempt E (n_enableEmail config) "email"
               (send_email_notification E message title_ (typed config)) [] ;;
  results <- attempt E (n_enableBark config) "bark" (call_bark message config) results ;;
  results <- attempt E (n_enableTG config) "tg" (call_tg message config) results ;;
  results <- attempt E (n_enableWebhook config) "webhook"
               (call_webhook message title_ config) results ;;
  attempt E (n_enableQywx config) "qywx" (call_qywx message title_ config) results.

Definition send_notification (log : log_record) (notification_config : NotificationObject)
    : M E notify_result :=
  emit (ENotify log) ;;
  message <- lift (notification_message log) ;;
  let title_ := get_default (n_title notification_config) "CDT流量统计" in
  results <- fanout message title_ notification_config ;;
  ret (aggregate results).

Definition validate_credentials_and_instance
    (account : Account) (notification_config : NotificationObject) : M E bool :=
  try_except
    (found <- api_call E (DescribeInstances (AccessKeyId account) (AccessKeySecret account)
                            (regionId account) None) ;;
     let instances := get_default found [] in
     let instance_valid :=
       existsb (fun inst => String.eqb (InstanceId inst) (instanceId account)) instances in
     if negb instance_valid
     then raise (Exception ("指定的实例ID不存在: " ++ instanceId account))
     else ret true)
    (fun e =>
       print ("验证异常: " ++ exc_msg e) ;;
       let log := [ ("服务器", get_default (accountName account) "");
                    ("实例ID", instanceId account);
                    ("错误信息", exc_msg e) ] in
       send_notification log notification_config ;;
       ret false).

(** Lines 409 to 428 of [check]. *)
Definition check_reconcile (account : Account) (notification_config : NotificationObject)
    (o : observation) : M E log_record :=
  let log := ob_log o in
  if reached_95 (ob_usage o) then
    if ob_is_enabled o then
      disable_security_group_rule E (ob_security_group_id o) (AccessKeyId account)
        (AccessKeySecret account) (regionId account) ;;
      let log := dict_set log "安全组状态" "已禁用 0.0.0.0/0 访问规则" in
      notification_result <- send_notification log notification_config ;;
      ret (dict_set log "通知发送" (sent_text notification_result))
    else
      let log := dict_set log "安全组状态" "规则已禁用，无需操作" in
      ret (dict_set log "通知发送" "不需要")
  else
    if negb (ob_is_enabled o) then
      enable_security_group_rule E (ob_security_group_id o) (AccessKeyId account)
        (AccessKeySecret account) (regionId account) ;;
      let log := dict_set log "安全组状态" "已恢复 0.0.0.0 访问规则" in
      notification_result <- send_notification log notification_config ;;
      ret (dict_set log "通知发送" (sent_text notification_result))
    else
      let log := dict_set log "安全组状态" "规则已启用，无需操作" in
      ret (dict_set log "通知发送" "不需要").

Definition check_account (notification_config : NotificationObject)
    (logs : list log_record) (account : Account) : M E (list log_record) :=
  valid <- validate_credentials_and_instance account notification_config ;;
  if negb valid then ret logs
  else
    try_except
      (o <- check_observe E account ;;
       log <- check_reconcile account notification_config o ;;
       ret (logs ++ [log])%list)
      (fun e =>
         print ("异常: " ++ exc_msg e) ;;
         let error_log := [ ("服务器", account_name_of account);
                            ("实例ID", instanceId account);
                            ("错误信息", exc_msg e) ] in
         send_notification error_log notification_config ;;
         ret logs).

Fixpoint check_loop (notification_config : NotificationObject)
    (accounts : list Account) (logs : list log_record) : M E (list log_record) :=
  match accounts with
  | [] => ret logs
  | account :: rest =>
      logs1 <- check_account notification_config logs account ;;
      check_loop notification_config rest logs1
  end.

(** [check()], after [load_config()] has answered the accounts and the
    notification object. *)
Definition check (accounts : list Account) (notification_config : NotificationObject)
    : M E unit :=
  logs <- check_loop notification_config accounts [] ;;
  write_log E logs.

(** *** dailyjob.py *)

Definition send_daily_notification_message
    (message traffic : string) (notification_config : NotificationObject) : M E bool :=
  emit (EDigest message) ;;
  let title_ := get_default (n_title notification_config) "CDT流量统计" in
  let daily_title := "已使用" ++ traffic ++ " - " ++ title_ in
  results <- attempt E (n_enableEmail notification_config) "email"
               (send_email_notification E message title_ (typed notification_config)) [] ;;
  results <- attempt E (n_enableBark notification_config) "bark"
               (call_bark message notification_config) results ;;
  results <- attempt E (n_enableTG notification_config) "tg"
               (call_tg message notification_config) results ;;
  results <- attempt E (n_enableWebhook notification_config) "webhook"
               (call_webhook message daily_title notification_config) results ;;
  results <- attempt E (n_enableQywx notification_config) "qywx"
               (call_qywx message daily_title notification_config) results ;;
  if existsb (fun kv => is_not_True (snd kv)) results then
    print ("通知发送失败: " ++ dumps results) ;;
    ret false
  else
    print "通知发送成功" ;;
    ret true.

(** The [try] block of the loop body of [send_daily_notification]. *)
Definition daily_digest (account : Account) (notification_config : NotificationObject)
    : M E unit :=
  traffic <- get_traffic E (AccessKeyId account) (AccessKeySecret account) ;;
  usage <- lift (usage_percentage traffic (maxTraffic account)) ;;
  instance_details <- get_instance_details E (AccessKeyId account) (AccessKeySecret account)
                        (instanceId account) (regionId account) ;;
  security_group_id <- get_security_group_id E (instanceId account) (AccessKeyId account)
                         (AccessKeySecret account) (regionId account) ;;
  is_enabled <- is_security_group_rule_enabled E security_group_id (AccessKeyId account)
                  (AccessKeySecret account) (regionId account) ;;
  if negb is_enabled then ret tt
  else
    bar <- lift (progress_bar usage) ;;
    expiry <- lift (dict_index instance_details "到期时间") ;;
    let formatted_datetime := format_expiry E expiry in
    name <- lift (account_name_index account) ;;
    public_ip <- lift (dict_index instance_details "公网IP地址") ;;
    let message := name ++ "（" ++ public_ip ++ "）" ++ LF in
    let message := message ++ bar ++ " " ++ str_num E (PFloat usage) ++ "%" ++ LF in
    let message := message ++ "已使用流量: " ++ str_num E (py_round2_num traffic) ++ "GB / "
                   ++ str_num E (maxTraffic account) ++ "GB" ++ LF in
    let message := message ++ "实例地区: " ++ get_region_name (regionId account) ++ LF in
    let message := message ++ "到期时间: " ++ formatted_datetime ++ LF in
    let message := message ++ "实例ID: " ++ instanceId account ++ LF in
    let message := message ++ "安全组状态: 启用" ++ LF in
    let traffic_str := str_num E (py_round2_num traffic) ++ "GB" in
    send_daily_notification_message message traffic_str notification_config ;;
    ret tt.

(** The body of the loop of [send_daily_notification] for one account. *)
Definition daily_account (notification_config : NotificationObject) (account : Account)
    : M E unit :=
  if negb (get_default (enableNotification account) true) then
    name <- lift (account_name_index account) ;;
    print ("跳过账户 " ++ name ++ "：未启用通知")
  else if get_default (onlyNotifyOnToggle account) false then
    name <- lift (account_name_index account) ;;
    print ("跳过账户 " ++ name ++ "：仅在防火墙切换时通知")
  else
    valid <- validate_credentials_and_instance account notification_config ;;
    if negb valid then ret tt
    else
      try_except
        (daily_digest account notification_config)
        (fun e => print ("异常: " ++ exc_msg e)).

Fixpoint send_daily_notification (accounts : list Account)
    (notification_config : NotificationObject) : M E unit :=
  match accounts with
  | [] => ret tt
  | account :: rest =>
      daily_account notification_config account ;;
      send_daily_notification rest notification_config
  end.

End Program.

End Raw.

(** The members the fanouts read outside every handler, for the enabled
    channels, in the order they are read. *)
Definition indexed_members (config : NotificationObject) : list string :=
  ((if n_enableBark config then ["barkUrl"] else [])
   ++ (if n_enableTG config then ["tgBotToken"; "tgChatId"] else [])
   ++ (if n_enableWebhook config then ["webhookUrl"; "webhookId"] else [])
   ++ (if n_enableQywx config
       then ["touser"; "corpid"; "corpsecret"; "agentid"; "baseApiUrl"; "picUrl"]
       else []))%list.

(** Every enabled channel has the members the fanouts read by index. *)
Definition complete (config : NotificationObject) : bool :=
  forallb (dict_mem (n_members config)) (indexed_members config).

(** What the call of a sender does when it reads its members from the
    object: it returns when they are there, and raises [KeyError] for
    the first absent one before anything is sent. *)
Definition call_reads (E : Env) (c : M E jvalue) (members : pydict string)
    (keys : list string) : Prop :=
  forall w,
    match first_missing members keys with
    | None => exists v, result_of (c w) = Ok v
    | Some k => result_of (c w) = Raise (KeyError k)
    end.

(** The notification object of the examples: email, Bark and Telegram
    enabled, each with its members. *)
Definition demo_object : NotificationObject :=
  mkNotificationObject None true true true false false
    "robot@example.org" "ops@example.org" "smtp.example.org" "465" "pw" None
    [ ("barkUrl", "https://bark.example.org/key");
      ("tgBotToken", "bot-token"); ("tgChatId", "chat") ].

(** The same object with Telegram enabled but its chat left out. *)
Definition demo_object_without_chat : NotificationObject :=
  mkNotificationObject None true true true false false
    "robot@example.org" "ops@example.org" "smtp.example.org" "465" "pw" None
    [ ("barkUrl", "https://bark.example.org/key"); ("tgBotToken", "bot-token") ].

(* ================================================================= *)
(** * Properties *)

(** ** Comparisons of floats *)



Section RunLemmas.
Context {E : Env}.

Lemma bind_ok {A B} (c : M E A) (k : A -> M E B) w a w1 t1 :
  c w = (Ok a, w1, t1) ->
  bind c k w = (result_of (k a w1), world_of (k a w1), (t1 ++ trace_of (k a w1))%list).
Proof.
  intros H. unfold bind. rewrite H. now destruct (k a w1) as [[r w2] t2].
Qed.

Lemma bind_raise {A B} (c : M E A) (k : A -> M E B) w e w1 t1 :
  c w = (Raise e, w1, t1) -> bind c k w = (Raise e, w1, t1).
Proof. intros H. unfold bind. now rewrite H. Qed.

Lemma try_ok {A} (c : M E A) h w a w1 t1 :
  c w = (Ok a, w1, t1) -> try_except c h w = (Ok a, w1, t1).
Proof. intros H. unfold try_except. now rewrite H. Qed.

Lemma try_raise {A} (c : M E A) h w e w1 t1 :
  c w = (Raise e, w1, t1) ->
  try_except c h w = (result_of (h e w1), world_of (h e w1), (t1 ++ trace_of (h e w1))%list).
Proof.
  intros H. unfold try_except. rewrite H. now destruct (h e w1) as [[r w2] t2].
Qed.

Lemma outcome_eta {A W} (o : res A * W * list event) :
  o = (result_of o, world_of o, trace_of o).
Proof. now destruct o as [[r w] t]. Qed.

Section Silence.
Context {X : Type} (f : event -> list X).

Lemma emits_none_ret {A} (a : A) : emits_none f (@ret E A a).
Proof. now intros w. Qed.

Lemma emits_none_raise {A} (e : exc) : emits_none f (@raise E A e).
Proof. now intros w. Qed.

Lemma emits_none_lift {A} (r : res A) : emits_none f (@lift E A r).
Proof. now intros w. Qed.

Lemma emits_none_emit ev : f ev = [] -> emits_none f (@emit E ev).
Proof. intros H w. simpl. now rewrite H. Qed.

Lemma emits_none_bind {A B} (c : M E A) (k : A -> M E B) :
  emits_none f c -> (forall a, emits_none f (k a)) -> emits_none f (bind c k).
Proof.
  intros Hc Hk w. unfold bind. specialize (Hc w).
  destruct (c w) as [[[a|e] w1] t1]; simpl in *; trivial.
  specialize (Hk a w1). destruct (k a w1) as [[r w2] t2]. simpl in *.
  now rewrite flat_map_app, Hc, Hk.
Qed.

Lemma emits_none_try {A} (c : M E A) (h : exc -> M E A) :
  emits_none f c -> (forall e, emits_none f (h e)) -> emits_none f (try_except c h).
Proof.
  intros Hc Hh w. unfold try_except. specialize (Hc w).
  destruct (c w) as [[[a|e] w1] t1]; simpl in *; trivial.
  specialize (Hh e w1). destruct (h e w1) as [[r w2] t2]. simpl in *.
  now rewrite flat_map_app, Hc, Hh.
Qed.

Lemma emits_none_api_call rq : f (ECall rq) = [] -> emits_none f (api_call E rq).
Proof.
  intros H w. unfold api_call. destruct (call_api E rq w) as [r w1]. simpl.
  now rewrite H.
Qed.

Lemma emits_none_transport_call t : f (ESend t) = [] -> emits_none f (transport_call E t).
Proof.
  intros H w. unfold transport_call. destruct (deliver E t w) as [r w1]. simpl.
  now rewrite H.
Qed.

End Silence.

Lemma never_raises_ret {A} (a : A) : never_raises (@ret E A a).
Proof. intros w. now exists a. Qed.

Lemma never_raises_bind {A B} (c : M E A) (k : A -> M E B) :
  never_raises c -> (forall a, never_raises (k a)) -> never_raises (bind c k).
Proof.
  intros Hc Hk w. unfold bind. destruct (Hc w) as [a Ha].
  destruct (c w) as [[r w1] t1]. unfold result_of in Ha. simpl in Ha. subst r.
  destruct (Hk a w1) as [b Hb]. destruct (k a w1) as [[r w2] t2].
  unfold result_of in *. simpl in *. now exists b.
Qed.

Lemma never_raises_try {A} (c : M E A) (h : exc -> M E A) :
  (forall e, never_raises (h e)) -> never_raises (try_except c h).
Proof.
  intros Hh w. unfold try_except. destruct (c w) as [[[a|e] w1] t1].
  - now exists a.
  - destruct (Hh e w1) as [b Hb]. destruct (h e w1) as [[r w2] t2].
    unfold result_of in *. simpl in *. now exists b.
Qed.

Lemma never_raises_emit ev : never_raises (@emit E ev).
Proof. intros w. now exists tt. Qed.

End RunLemmas.

Ltac silent :=
  unfold print;
  repeat first
    [ apply emits_none_ret
    | apply emits_none_raise
    | apply emits_none_lift
    | apply emits_none_emit; reflexivity
    | apply emits_none_api_call; reflexivity
    | apply emits_none_transport_call; reflexivity
    | apply emits_none_bind; [ | intros ? ]
    | apply emits_none_try; [ | intros ? ]
    | match goal with
      | |- emits_none _ (if ?b then _ else _) => destruct b
      | |- emits_none _ (match ?x with _ => _ end) => destruct x
      end ].

Ltac total :=
  unfold print;
  repeat first
    [ apply never_raises_ret
    | apply never_raises_emit
    | apply never_raises_try; intros ?
    | apply never_raises_bind; [ | intros ? ]
    | match goal with
      | |- never_raises (if ?b then _ else _) => destruct b
      | |- never_raises (match ?x with _ => _ end) => destruct x
      end ].

Section Queries.
Context (E : Env).


Lemma get_traffic_no_notify ak sk : emits_none notification_of (get_traffic E ak sk).
Proof. unfold get_traffic. silent. Qed.


Lemma get_security_group_id_no_mutation i ak sk r :
  emits_none mutation_of (get_security_group_id E i ak sk r).
Proof. unfold get_security_group_id. silent. Qed.


Lemma get_instance_details_no_mutation ak sk i r :
  emits_none mutation_of (get_instance_details E ak sk i r).
Proof. unfold get_instance_details. silent. Qed.


Lemma is_enabled_no_mutation sg ak sk r :
  emits_none mutation_of (is_security_group_rule_enabled E sg ak sk r).
Proof. unfold is_security_group_rule_enabled. silent. Qed.


Lemma get_traffic_total ak sk : never_raises (get_traffic E ak sk).
Proof. unfold get_traffic. total. Qed.

Lemma get_security_group_id_total i ak sk r :
  never_raises (get_security_group_id E i ak sk r).
Proof. unfold get_security_group_id. total. Qed.

Lemma get_instance_details_total ak sk i r :
  never_raises (get_instance_details E ak sk i r).
Proof. unfold get_instance_details. total. Qed.

Lemma is_enabled_total sg ak sk r :
  never_raises (is_security_group_rule_enabled E sg ak sk r).
Proof. unfold is_security_group_rule_enabled. total. Qed.

Lemma disable_total sg ak sk r : never_raises (disable_security_group_rule E sg ak sk r).
Proof. unfold disable_security_group_rule. total. Qed.

Lemma enable_total sg ak sk r : never_raises (enable_security_group_rule E sg ak sk r).
Proof. unfold enable_security_group_rule. total. Qed.

End Queries.

Section Channels.
Context (E : Env).

Lemma total_run {A} (c : M E A) w :
  never_raises c -> exists a, c w = (Ok a, world_of (c w), trace_of (c w)).
Proof.
  intros H. destruct (H w) as [a Ha]. exists a.
  rewrite (outcome_eta (c w)) at 1. now rewrite Ha.
Qed.

(** Each sender catches what its delivery raises. *)
Lemma send_email_total m t c : never_raises (send_email_notification E m t c).
Proof. unfold send_email_notification. total. Qed.

Lemma send_bark_total m u : never_raises (send_bark_notification E m u).
Proof. unfold send_bark_notification. total. Qed.

Lemma send_tg_total m b c : never_raises (send_tg_notification E m b c).
Proof. unfold send_tg_notification. total. Qed.

Lemma send_webhook_total m u t i : never_raises (send_webhook_notification E m u t i).
Proof. unfold send_webhook_notification. total. Qed.

Lemma send_qywx_total m t a b c d e f :
  never_raises (send_qywx_notification E m t a b c d e f).
Proof. unfold send_qywx_notification. total. Qed.

(** The outcome of a sender is the outcome of its own delivery. *)
Lemma send_email_run message title_ config w :
  let d := deliver E (email_request message title_ config) w in
  result_of (send_email_notification E message title_ config w) = Ok (email_outcome (fst d))
  /\ world_of (send_email_notification E message title_ config w) = snd d
  /\ deliveries (trace_of (send_email_notification E message title_ config w))
     = [email_request message title_ config].
Proof.
  unfold send_email_notification, try_except, bind, transport_call, email_request.
  cbv zeta.
  destruct (deliver E _ w) as [[u|e] w1]; now cbn.
Qed.

Lemma send_bark_run message config w :
  let d := deliver E (bark_request E message config) w in
  result_of (send_bark_notification E message (barkUrl config) w) = Ok (http_outcome (fst d))
  /\ world_of (send_bark_notification E message (barkUrl config) w) = snd d
  /\ deliveries (trace_of (send_bark_notification E message (barkUrl config) w))
     = [bark_request E message config].
Proof.
  unfold send_bark_notification, try_except, bind, transport_call, bark_request.
  cbv zeta.
  destruct (deliver E _ w) as [[u|e] w1]; now cbn.
Qed.

Lemma send_tg_run message config w :
  let d := deliver E (tg_request message config) w in
  result_of (send_tg_notification E message (tgBotToken config) (tgChatId config) w)
  = Ok (http_outcome (fst d))
  /\ world_of (send_tg_notification E message (tgBotToken config) (tgChatId config) w)
     = snd d
  /\ deliveries (trace_of (send_tg_notification E message (tgBotToken config)
                             (tgChatId config) w))
     = [tg_request message config].
Proof.
  unfold send_tg_notification, try_except, bind, transport_call, tg_request.
  cbv zeta.
  destruct (deliver E _ w) as [[u|e] w1]; now cbn.
Qed.

Lemma send_webhook_run message title_ config w :
  let d := deliver E (webhook_request E message title_ config) w in
  result_of (send_webhook_notification E message (webhookUrl config) title_
               (webhookId config) w) = Ok (http_outcome (fst d))
  /\ world_of (send_webhook_notification E message (webhookUrl config) title_
                 (webhookId config) w) = snd d
  /\ deliveries (trace_of (send_webhook_notification E message (webhookUrl config) title_
                             (webhookId config) w))
     = [webhook_request E message title_ config].
Proof.
  unfold send_webhook_notification, try_except, bind, transport_call, webhook_request.
  cbv zeta.
  destruct (deliver E _ w) as [[u|e] w1]; now cbn.
Qed.


End Channels.

Section Dicts.
Context {V : Type}.

Lemma dict_set_fresh (d : pydict V) k v :
  dict_get d k = None -> dict_set d k v = (d ++ [(k, v)])%list.
Proof.
  induction d as [|[k' v'] d IH]; simpl; trivial.
  destruct (String.eqb k k'); [discriminate|].
  intros H. now rewrite IH.
Qed.

Lemma dict_get_app_fresh (d : pydict V) k k' v :
  dict_get d k = None -> k <> k' -> dict_get (d ++ [(k', v)])%list k = None.
Proof.
  induction d as [|[k1 v1] d IH]; simpl.
  - intros _ Hne. destruct (String.eqb_spec k k'); [contradiction|trivial].
  - destruct (String.eqb k k1); [discriminate|]. auto.
Qed.

Lemma dict_get_set_same (d : pydict V) k v : dict_get (dict_set d k v) k = Some v.
Proof.
  induction d as [|[k' v'] d IH]; simpl.
  - now rewrite String.eqb_refl.
  - destruct (String.eqb k k') eqn:Hk; simpl; rewrite Hk; trivial.
Qed.

Lemma dict_get_set_other (d : pydict V) k k' v :
  k <> k' -> dict_get (dict_set d k' v) k = dict_get d k.
Proof.
  intros Hne. induction d as [|[k1 v1] d IH]; simpl.
  - destruct (String.eqb_spec k k'); [contradiction|trivial].
  - destruct (String.eqb_spec k' k1) as [->|Hk]; simpl.
    + destruct (String.eqb_spec k k1); [contradiction|trivial].
    + destruct (String.eqb k k1); trivial.
Qed.

End Dicts.

Section Fanout.
Context (E : Env).

Lemma bind_ext {A B} (c : M E A) (k k' : A -> M E B) w :
  (forall a w1, k a w1 = k' a w1) -> bind c k w = bind c k' w.
Proof.
  intros H. unfold bind. destruct (c w) as [[[a|e] w1] t1]; trivial. now rewrite H.
Qed.

Lemma bind_ret_r {A} (c : M E A) w : bind c ret w = c w.
Proof.
  unfold bind, ret. destruct (c w) as [[[a|e] w1] t1]; trivial. now rewrite app_nil_r.
Qed.

Lemma fanout_as_attempts message title_ config w :
  fanout E message title_ config w
  = run_attempts E (channels E message title_ config) [] w.
Proof.
  unfold fanout, channels. cbn [run_attempts].
  do 4 (apply bind_ext; intros ? ?). now rewrite bind_ret_r.
Qed.

Lemma attempt_total enabled key send results :
  never_raises send -> never_raises (attempt E enabled key send results).
Proof. intros H. unfold attempt. destruct enabled; total. exact H. Qed.

Lemma run_attempts_total chs :
  all_total chs -> forall results, never_raises (run_attempts E chs results).
Proof.
  induction chs as [|[[en key] send] chs IH]; intros Hall results; cbn [run_attempts].
  - apply never_raises_ret.
  - apply never_raises_bind.
    + apply attempt_total. apply (Hall (en, key, send)). now left.
    + intros r. apply IH. intros ch Hch. apply Hall. now right.
Qed.

Lemma channels_total message title_ config : all_total (channels E message title_ config).
Proof.
  intros ch Hch. unfold channels in Hch. simpl in Hch.
  repeat (destruct Hch as [<-|Hch]; [simpl|]); try contradiction.
  - apply send_email_total.
  - apply send_bark_total.
  - apply send_tg_total.
  - apply send_webhook_total.
  - apply send_qywx_total.
Qed.

Lemma fanout_total message title_ config : never_raises (fanout E message title_ config).
Proof.
  intros w. rewrite fanout_as_attempts.
  apply run_attempts_total, channels_total.
Qed.

(** An attempt in isolation. *)
Lemma attempt_run enabled key send results w :
  never_raises send ->
  exists v,
    attempt E enabled key send results w
    = (Ok (if enabled then dict_set results key v else results),
       (if enabled then world_of (send w) else w),
       (if enabled then trace_of (send w) else []))
    /\ (enabled = true -> result_of (send w) = Ok v).
Proof.
  intros Ht. unfold attempt. destruct enabled.
  - destruct (total_run E send w Ht) as [v Hv]. exists v. split.
    + rewrite (bind_ok _ _ _ _ _ _ Hv). cbn. now rewrite app_nil_r.
    + intros _. now rewrite Hv.
  - exists JTrue. split; [reflexivity|discriminate].
Qed.

(** The keys of the outcome map are the keys of the enabled channels, in
    order, whatever the deliveries answer. *)
Lemma run_attempts_keys chs :
  all_total chs ->
  forall results w results',
    result_of (run_attempts E chs results w) = Ok results' ->
    (forall k, In k (enabled_keys chs) -> dict_get results k = None) ->
    NoDup (enabled_keys chs) ->
    map fst results' = (map fst results ++ enabled_keys chs)%list.
Proof.
  induction chs as [|[[en key] send] chs IH]; intros Hall results w results' Hr Hfresh Hnd.
  - cbn in Hr. inversion Hr. cbn. now rewrite app_nil_r.
  - cbn [run_attempts] in Hr.
    assert (Hs : never_raises send) by (apply (Hall (en, key, send)); now left).
    destruct (attempt_run en key send results w Hs) as [v [Ha _]].
    rewrite (bind_ok _ _ _ _ _ _ Ha) in Hr. cbn in Hr.
    assert (Hall' : all_total chs) by (intros ch Hch; apply Hall; now right).
    destruct en; unfold enabled_keys in *; cbn [filter fst snd map] in *.
    + inversion Hnd as [|k l Hnotin Hnd']; subst.
      rewrite dict_set_fresh in Hr by (apply Hfresh; now left).
      rewrite (IH Hall' _ _ _ Hr); trivial.
      * rewrite map_app. cbn. now rewrite <- app_assoc.
      * intros k Hk. apply dict_get_app_fresh.
        -- apply Hfresh. now right.
        -- intros ->. contradiction.
    + apply (IH Hall' _ _ _ Hr); trivial.
Qed.


End Fanout.

Section Notify.
Context (E : Env).



Ltac unfold_fanout :=
  unfold fanout, attempt, send_email_notification, send_bark_notification,
    send_tg_notification, send_webhook_notification, send_qywx_notification.

Lemma fanout_no_mutation m t c : emits_none mutation_of (fanout E m t c).
Proof. unfold_fanout. silent. Qed.

Lemma fanout_no_notify m t c : emits_none notification_of (fanout E m t c).
Proof. unfold_fanout. silent. Qed.

Lemma fanout_no_call m t c : emits_none call_of (fanout E m t c).
Proof. unfold_fanout. silent. Qed.

(** The run of [send_notification] on a record whose text can be built. *)
Lemma send_notification_run log config message w :
  notification_message log = Ok message ->
  exists results,
    fanout E message (get_default (title config) "CDT流量统计") config w
    = (Ok results,
       world_of (fanout E message (get_default (title config) "CDT流量统计") config w),
       trace_of (fanout E message (get_default (title config) "CDT流量统计") config w))
    /\ send_notification E log config w
       = (Ok (aggregate results),
          world_of (fanout E message (get_default (title config) "CDT流量统计") config w),
          ENotify log
          :: trace_of (fanout E message (get_default (title config) "CDT流量统计") config w)).
Proof.
  intros Hm.
  destruct (total_run E _ w (fanout_total E message
             (get_default (title config) "CDT流量统计") config)) as [results Hf].
  exists results. split; [exact Hf|].
  unfold send_notification, emit, lift. rewrite Hm.
  unfold bind at 1. unfold bind at 1.
  rewrite (bind_ok _ _ _ _ _ _ Hf). cbn. now rewrite app_nil_r.
Qed.

(** Whatever happens, one call of [send_notification] hands exactly its
    record to the fanout and touches no security group. *)
Lemma send_notification_trace log config w :
  notifications (trace_of (send_notification E log config w)) = [log]
  /\ mutating_calls (trace_of (send_notification E log config w)) = []
  /\ api_calls (trace_of (send_notification E log config w)) = [].
Proof.
  destruct (notification_message log) as [message|e] eqn:Hm.
  - destruct (send_notification_run log config message w Hm) as [results [_ Hs]].
    rewrite Hs. unfold trace_of, notifications, mutating_calls, api_calls.
    cbn [snd flat_map notification_of mutation_of call_of app].
    pose proof (fanout_no_mutation message (get_default (title config) "CDT流量统计")
                  config w) as Hmu.
    pose proof (fanout_no_notify message (get_default (title config) "CDT流量统计")
                  config w) as Hn.
    pose proof (fanout_no_call message (get_default (title config) "CDT流量统计")
                  config w) as Hc.
    unfold trace_of in Hmu, Hn, Hc. now rewrite Hmu, Hn, Hc.
  - unfold send_notification, emit, lift, bind. rewrite Hm. now cbn.
Qed.

End Notify.

Section Inversion.
Context {E : Env}.

Lemma bind_inv_ok {A B} (c : M E A) (k : A -> M E B) w b w2 t :
  bind c k w = (Ok b, w2, t) ->
  exists a w1 t1 t2,
    c w = (Ok a, w1, t1) /\ k a w1 = (Ok b, w2, t2) /\ t = (t1 ++ t2)%list.
Proof.
  unfold bind. destruct (c w) as [[[a|e] w1] t1]; [|discriminate].
  destruct (k a w1) as [[r w2'] t2] eqn:Hk. intros H. inversion H; subst.
  now exists a, w1, t1, t2.
Qed.

Lemma lift_inv_ok {A} (r : res A) w a w1 t :
  @lift E A r w = (Ok a, w1, t) -> r = Ok a /\ w1 = w /\ t = [].
Proof. unfold lift. intros H. now inversion H. Qed.

Lemma ret_inv {A} (a b : A) w w1 t :
  @ret E A a w = (Ok b, w1, t) -> b = a /\ w1 = w /\ t = [].
Proof. unfold ret. intros H. now inversion H. Qed.

End Inversion.

Section Validation.
Context (E : Env).

Lemma error_record_message (name iid message : string) :
  exists text,
    notification_message [("服务器", name); ("实例ID", iid); ("错误信息", message)] = Ok text.
Proof. eexists. reflexivity. Qed.

Lemma validate_run_ok account config w r w1 :
  call_api E (validate_request account) w = (r, w1) ->
  validation_fails account r = false ->
  validate_credentials_and_instance E account config w
  = (Ok true, w1, [ECall (validate_request account)]).
Proof.
  intros Hc Hv. unfold validate_credentials_and_instance, try_except, bind, api_call.
  fold (validate_request account). rewrite Hc.
  destruct r as [found|e]; [|discriminate]. cbn in Hv.
  apply negb_false_iff in Hv. rewrite Hv. now cbn.
Qed.

Lemma validate_body_fail account w r w1 :
  call_api E (validate_request account) w = (r, w1) ->
  validation_fails account r = true ->
  exists e,
    exc_msg e = validation_message account r
    /\ bind (api_call E (validate_request account))
         (fun found =>
            let instances := get_default found [] in
            let instance_valid :=
              existsb (fun inst => String.eqb (InstanceId inst) (instanceId account))
                instances in
            if negb instance_valid
            then raise (Exception ("指定的实例ID不存在: " ++ instanceId account))
            else ret true) w
       = (Raise e, w1, [ECall (validate_request account)]).
Proof.
  intros Hc Hv. unfold bind, api_call. rewrite Hc. destruct r as [found|e].
  - cbn in Hv. cbv zeta. rewrite Hv. eexists. split; [|reflexivity]. reflexivity.
  - exists e. now split.
Qed.

Lemma validate_run_fail account config w r w1 :
  call_api E (validate_request account) w = (r, w1) ->
  validation_fails account r = true ->
  validate_credentials_and_instance E account config w
  = (Ok false,
     world_of (send_notification E
                 (validation_record account (validation_message account r)) config w1),
     ECall (validate_request account)
     :: EPrint ("验证异常: " ++ validation_message account r)
     :: trace_of (send_notification E
                    (validation_record account (validation_message account r)) config w1)).
Proof.
  intros Hc Hv.
  destruct (validate_body_fail account w r w1 Hc Hv) as [e [He Hb]].
  unfold validate_credentials_and_instance. fold (validate_request account).
  rewrite (try_raise _ _ _ _ _ _ Hb). rewrite He.
  fold (validation_record account (validation_message account r)).
  destruct (error_record_message (get_default (accountName account) "")
              (instanceId account) (validation_message account r)) as [text Ht].
  destruct (send_notification_run E
              (validation_record account (validation_message account r))
              config text w1 Ht) as [results [_ Hs]].
  assert (Hh : (print ("验证异常: " ++ validation_message account r) ;;
                send_notification E
                  (validation_record account (validation_message account r)) config ;;
                ret false) w1
               = (Ok false,
                  world_of (send_notification E
                    (validation_record account (validation_message account r)) config w1),
                  EPrint ("验证异常: " ++ validation_message account r)
                  :: trace_of (send_notification E
                    (validation_record account (validation_message account r))
                    config w1))).
  { unfold print, emit. unfold bind at 1.
    rewrite (bind_ok _ _ _ _ _ _ Hs). rewrite Hs. cbn. now rewrite app_nil_r. }
  rewrite Hh. reflexivity.
Qed.

End Validation.

Section Check.
Context (E : Env).

Lemma validate_true_inv account config w w0 t0 :
  validate_credentials_and_instance E account config w = (Ok true, w0, t0) ->
  t0 = [ECall (validate_request account)].
Proof.
  destruct (call_api E (validate_request account) w) as [r w1] eqn:Hc.
  destruct (validation_fails account r) eqn:Hv.
  - rewrite (validate_run_fail E account config w r w1 Hc Hv). discriminate.
  - rewrite (validate_run_ok E account config w r w1 Hc Hv). now intros [= _ <-].
Qed.

Ltac unfold_observe :=
  unfold check_observe, get_traffic, get_security_group_id, get_instance_details,
    is_security_group_rule_enabled.

Lemma check_observe_no_mutation account :
  emits_none mutation_of (check_observe E account).
Proof. unfold_observe. silent. Qed.

Lemma check_observe_no_notify account :
  emits_none notification_of (check_observe E account).
Proof. unfold_observe. silent. Qed.

Lemma get_instance_details_shape ak sk i r w d w1 t :
  get_instance_details E ak sk i r w = (Ok d, w1, t) ->
  exists expiry ip, d = [("到期时间", expiry); ("公网IP地址", ip)].
Proof.
  unfold get_instance_details, try_except, bind, api_call, print, emit, ret.
  destruct (call_api E _ w) as [[found|e] w2].
  - destruct (get_default found []) as [|inst rest]; cbn; intros [= <- _ _];
      eexists; eexists; reflexivity.
  - cbn. intros [= <- _ _]. eexists; eexists; reflexivity.
Qed.

(** The record a successful observation builds: the nine members the
    notification text reads, except the state of the security group. *)
Lemma check_observe_log account w o w1 t :
  check_observe E account w = (Ok o, w1, t) ->
  exists traffic expiry ip,
    usage_percentage traffic (maxTraffic account) = Ok (ob_usage o)
    /\ ob_log o =
       [ ("实例ID", instanceId account);
         ("服务器", account_name_of account);
         ("总流量", str_num E (maxTraffic account) ++ "GB");
         ("已使用流量", str_num E (py_round2_num traffic) ++ "GB");
         ("使用百分比", str_num E (PFloat (ob_usage o)) ++ "%");
         ("地区", get_region_name (regionId account));
         ("实例到期时间", expiry);
         ("公网IP地址", ip);
         ("使用率达到95%", if reached_95 (ob_usage o) then "是" else "否") ].
Proof.
  unfold check_observe. intros H.
  apply bind_inv_ok in H. destruct H as (traffic & wa & ta & tb & _ & H & _).
  apply bind_inv_ok in H. destruct H as (usage & wb & tc & td & Hu & H & _).
  apply lift_inv_ok in Hu. destruct Hu as (Hu & _ & _).
  apply bind_inv_ok in H. destruct H as (sg & wc & te & tf & _ & H & _).
  apply bind_inv_ok in H. destruct H as (details & wd & tg & th & Hd & H & _).
  apply get_instance_details_shape in Hd. destruct Hd as (expiry & ip & ->).
  apply bind_inv_ok in H. destruct H as (ex & we & ti & tj & Hex & H & _).
  apply lift_inv_ok in Hex. destruct Hex as (Hex & _ & _).
  apply bind_inv_ok in H. destruct H as (pip & wf & tk & tl & Hip & H & _).
  apply lift_inv_ok in Hip. destruct Hip as (Hip & _ & _).
  apply bind_inv_ok in H. destruct H as (en & wg & tm & tn & _ & H & _).
  apply ret_inv in H. destruct H as (-> & _ & _).
  cbn in Hex, Hip. injection Hex as <-. injection Hip as <-.
  exists traffic, expiry, ip. split; [exact Hu|reflexivity].
Qed.

Lemma status_record_message (v1 v2 v3 v4 v5 v6 v7 v8 v9 state : string) :
  exists text,
    notification_message
      (dict_set [ ("实例ID", v1); ("服务器", v2); ("总流量", v3); ("已使用流量", v4);
                  ("使用百分比", v5); ("地区", v6); ("实例到期时间", v7);
                  ("公网IP地址", v8); ("使用率达到95%", v9) ]
         "安全组状态" state) = Ok text.
Proof. eexists. reflexivity. Qed.

Lemma check_observe_message account w o w1 t :
  check_observe E account w = (Ok o, w1, t) ->
  forall state,
    exists text, notification_message (dict_set (ob_log o) "安全组状态" state) = Ok text.
Proof.
  intros H state. destruct (check_observe_log account w o w1 t H)
    as (traffic & expiry & ip & _ & ->).
  apply status_record_message.
Qed.

End Check.

Section Reconcile.
Context (E : Env).

(** The helpers of the toggle issue their call once and report nothing of
    its outcome: they return [None] whether the call returned or raised. *)
Lemma disable_run sg ak sk r w :
  exists t,
    disable_security_group_rule E sg ak sk r w
    = (Ok tt, snd (call_api E (RevokeSecurityGroup ak sk r sg) w), t)
    /\ mutating_calls t = [RevokeSecurityGroup ak sk r sg]
    /\ notifications t = [].
Proof.
  unfold disable_security_group_rule, try_except, bind, api_call, print, emit.
  destruct (call_api E _ w) as [[u|e] w1]; cbn; eexists; split; try reflexivity;
    now cbn.
Qed.

Lemma enable_run sg ak sk r w :
  exists t,
    enable_security_group_rule E sg ak sk r w
    = (Ok tt, snd (call_api E (AuthorizeSecurityGroup ak sk r sg) w), t)
    /\ mutating_calls t = [AuthorizeSecurityGroup ak sk r sg]
    /\ notifications t = [].
Proof.
  unfold enable_security_group_rule, try_except, bind, api_call, print, emit.
  destruct (call_api E _ w) as [[u|e] w1]; cbn; eexists; split; try reflexivity;
    now cbn.
Qed.

Lemma state_key_kept (log : log_record) state sent :
  dict_get (dict_set (dict_set log "安全组状态" state) "通知发送" sent) "安全组状态"
  = Some state.
Proof.
  rewrite dict_get_set_other by discriminate. apply dict_get_set_same.
Qed.

(** What the decision of [check] does for an observation whose record can
    be turned into a notification text. *)
Lemma check_reconcile_spec account config o w :
  (forall state,
      exists text, notification_message (dict_set (ob_log o) "安全组状态" state) = Ok text) ->
  let out := check_reconcile E account config o w in
  exists log,
    result_of out = Ok log
    /\ match reconcile (ob_is_enabled o) (ob_usage o) with
       | Disable =>
           mutating_calls (trace_of out) = [revoke_request account o]
           /\ notifications (trace_of out)
              = [dict_set (ob_log o) "安全组状态" "已禁用 0.0.0.0/0 访问规则"]
           /\ dict_get log "安全组状态" = Some "已禁用 0.0.0.0/0 访问规则"
       | Enable =>
           mutating_calls (trace_of out) = [authorize_request account o]
           /\ notifications (trace_of out)
              = [dict_set (ob_log o) "安全组状态" "已恢复 0.0.0.0 访问规则"]
           /\ dict_get log "安全组状态" = Some "已恢复 0.0.0.0 访问规则"
       | NoAction =>
           mutating_calls (trace_of out) = []
           /\ notifications (trace_of out) = []
           /\ dict_get log "安全组状态"
              = Some (if reached_95 (ob_usage o)
                      then "规则已禁用，无需操作" else "规则已启用，无需操作")
       end.
Proof.
  intros Hmsg out. subst out. unfold check_reconcile, reconcile.
  fold (reached_95 (ob_usage o)).
  destruct (reached_95 (ob_usage o)), (ob_is_enabled o); cbn [negb].
  - destruct (disable_run (ob_security_group_id o) (AccessKeyId account)
                (AccessKeySecret account) (regionId account) w) as (t & Hd & Hm & Hn).
    destruct (Hmsg "已禁用 0.0.0.0/0 访问规则") as [text Ht].
    rewrite (bind_ok _ _ _ _ _ _ Hd). cbv beta zeta.
    match goal with |- context [bind (send_notification E ?l config) _ ?w1] =>
      destruct (send_notification_run E l config text w1 Ht) as [results [_ Hs]];
      destruct (send_notification_trace E l config w1) as (Hn1 & Hm1 & _)
    end.
    rewrite (bind_ok _ _ _ _ _ _ Hs). rewrite Hs in Hn1, Hm1.
    unfold result_of, trace_of in *. cbn [fst snd ret] in *.
    eexists. split; [reflexivity|].
    unfold mutating_calls, notifications in *.
    rewrite !flat_map_app, Hm, Hn, Hm1, Hn1. cbn [app flat_map mutation_of notification_of].
    repeat split; trivial. apply state_key_kept.
  - cbn. eexists. split; [reflexivity|]. repeat split; trivial. apply state_key_kept.
  - cbn. eexists. split; [reflexivity|]. repeat split; trivial. apply state_key_kept.
  - destruct (enable_run (ob_security_group_id o) (AccessKeyId account)
                (AccessKeySecret account) (regionId account) w) as (t & Hd & Hm & Hn).
    destruct (Hmsg "已恢复 0.0.0.0 访问规则") as [text Ht].
    rewrite (bind_ok _ _ _ _ _ _ Hd). cbv beta zeta.
    match goal with |- context [bind (send_notification E ?l config) _ ?w1] =>
      destruct (send_notification_run E l config text w1 Ht) as [results [_ Hs]];
      destruct (send_notification_trace E l config w1) as (Hn1 & Hm1 & _)
    end.
    rewrite (bind_ok _ _ _ _ _ _ Hs). rewrite Hs in Hn1, Hm1.
    unfold result_of, trace_of in *. cbn [fst snd ret] in *.
    eexists. split; [reflexivity|].
    unfold mutating_calls, notifications in *.
    rewrite !flat_map_app, Hm, Hn, Hm1, Hn1. cbn [app flat_map mutation_of notification_of].
    repeat split; trivial. apply state_key_kept.
Qed.

End Reconcile.

Section Account.
Context (E : Env).

Lemma check_account_invalid config logs account w w0 t0 :
  validate_credentials_and_instance E account config w = (Ok false, w0, t0) ->
  check_account E config logs account w = (Ok logs, w0, t0).
Proof.
  intros Hv. unfold check_account. rewrite (bind_ok _ _ _ _ _ _ Hv). cbn.
  now rewrite app_nil_r.
Qed.

Lemma check_account_observed config logs account w w0 t0 o w1 t1 :
  validate_credentials_and_instance E account config w = (Ok true, w0, t0) ->
  check_observe E account w0 = (Ok o, w1, t1) ->
  exists log,
    result_of (check_reconcile E account config o w1) = Ok log
    /\ check_account E config logs account w
       = (Ok (logs ++ [log])%list,
          world_of (check_reconcile E account config o w1),
          (t0 ++ t1 ++ trace_of (check_reconcile E account config o w1))%list).
Proof.
  intros Hv Ho.
  destruct (check_reconcile_spec E account config o w1
              (check_observe_message E account w0 o w1 t1 Ho)) as (log & Hr & _).
  exists log. split; [exact Hr|].
  unfold check_account. rewrite (bind_ok _ _ _ _ _ _ Hv). cbn [negb].
  assert (Hrec : check_reconcile E account config o w1
                 = (Ok log, world_of (check_reconcile E account config o w1),
                    trace_of (check_reconcile E account config o w1))).
  { rewrite (outcome_eta (check_reconcile E account config o w1)) at 1. now rewrite Hr. }
  assert (Hbody : (o <- check_observe E account ;;
                   log <- check_reconcile E account config o ;;
                   ret (logs ++ [log])%list) w0
                  = (Ok (logs ++ [log])%list,
                     world_of (check_reconcile E account config o w1),
                     (t1 ++ trace_of (check_reconcile E account config o w1))%list)).
  { rewrite (bind_ok _ _ _ _ _ _ Ho). rewrite (bind_ok _ _ _ _ _ _ Hrec).
    cbn. now rewrite app_nil_r. }
  rewrite (try_ok _ _ _ _ _ _ Hbody). reflexivity.
Qed.

Lemma check_account_failed config logs account w w0 t0 e w1 t1 :
  validate_credentials_and_instance E account config w = (Ok true, w0, t0) ->
  check_observe E account w0 = (Raise e, w1, t1) ->
  check_account E config logs account w
  = (Ok logs,
     world_of (send_notification E (check_error_record account (exc_msg e)) config w1),
     (t0 ++ t1 ++ EPrint ("异常: " ++ exc_msg e)
      :: trace_of (send_notification E (check_error_record account (exc_msg e))
                     config w1))%list).
Proof.
  intros Hv Ho.
  unfold check_account. rewrite (bind_ok _ _ _ _ _ _ Hv). cbn [negb].
  assert (Hbody : (o <- check_observe E account ;;
                   log <- check_reconcile E account config o ;;
                   ret (logs ++ [log])%list) w0 = (Raise e, w1, t1))
    by (now rewrite (bind_raise _ _ _ _ _ _ Ho)).
  rewrite (try_raise _ _ _ _ _ _ Hbody).
  fold (check_error_record account (exc_msg e)).
  destruct (error_record_message (account_name_of account) (instanceId account)
              (exc_msg e)) as [text Ht].
  destruct (send_notification_run E (check_error_record account (exc_msg e))
              config text w1 Ht) as [results [_ Hs]].
  assert (Hh : (print ("异常: " ++ exc_msg e) ;;
                send_notification E (check_error_record account (exc_msg e)) config ;;
                ret logs) w1
               = (Ok logs,
                  world_of (send_notification E (check_error_record account (exc_msg e))
                              config w1),
                  EPrint ("异常: " ++ exc_msg e)
                  :: trace_of (send_notification E
                                 (check_error_record account (exc_msg e)) config w1))).
  { unfold print, emit. unfold bind at 1.
    rewrite (bind_ok _ _ _ _ _ _ Hs). rewrite Hs. cbn. now rewrite app_nil_r. }
  rewrite Hh. reflexivity.
Qed.

End Account.

(* ================================================================= *)
(** ** The claims *)





(** C6. The decision is idempotent: decide on an observation, take the
    state the decision aims at as the observed state of a second
    observation with the same usage, and the second decision is to do
    nothing; the second run of the decision issues no mutating call,
    invokes no fanout and starts no delivery. *)
Theorem reconcile_is_idempotent
    (E : Env) (config : NotificationConfig) (account : Account)
    (first second : observation) (w : world E) :
  ob_usage second = ob_usage first ->
  ob_is_enabled second
  = state_after (reconcile (ob_is_enabled first) (ob_usage first)) (ob_is_enabled first) ->
  reconcile (ob_is_enabled second) (ob_usage second) = NoAction
  /\ mutating_calls (trace_of (check_reconcile E account config second w)) = []
  /\ notifications (trace_of (check_reconcile E account config second w)) = []
  /\ deliveries (trace_of (check_reconcile E account config second w)) = [].
Proof.
  intros Hu He. unfold check_reconcile, reconcile, reached_95 in *.
  rewrite Hu, He.
  destruct (95 <=? ob_usage first)%float, (ob_is_enabled first); cbn; auto.
Qed.

Lemma reconcile_is_idempotent_witness :
  reconcile false 96 = NoAction
  /\ mutating_calls
       (trace_of (check_reconcile (sim_env demo_scenario) demo_account demo_config
                    (mkObservation 96 (Some "sg-demo") [] false) false)) = []
  /\ notifications
       (trace_of (check_reconcile (sim_env demo_scenario) demo_account demo_config
                    (mkObservation 96 (Some "sg-demo") [] false) false)) = []
  /\ deliveries
       (trace_of (check_reconcile (sim_env demo_scenario) demo_account demo_config
                    (mkObservation 96 (Some "sg-demo") [] false) false)) = [].
Proof.
  apply (reconcile_is_idempotent (sim_env demo_scenario) demo_config demo_account
           (mkObservation 96 (Some "sg-demo") [] true)
           (mkObservation 96 (Some "sg-demo") [] false) false);
    vm_compute; reflexivity.
Defined.

(** C9. A remote query that raises degrades its value and does not stop
    the run: when the traffic query raises, [get_traffic] prints the error
    and returns 0; when the security-group attribute query raises,
    [is_security_group_rule_enabled] prints the error and returns
    [False]; neither helper ever raises, so the caller goes on. *)
Theorem query_failures_degrade
    (E : Env) (ak sk region : string) (sg : option string)
    (w w1 v v1 : world E) (e e1 : exc) :
  call_api E (ListCdtInternetTraffic ak sk) w = (Raise e, w1) ->
  call_api E (DescribeSecurityGroupAttribute ak sk region sg) v = (Raise e1, v1) ->
  get_traffic E ak sk w
  = (Ok (PInt 0), w1,
     [ECall (ListCdtInternetTraffic ak sk); EPrint ("获取流量异常: " ++ exc_msg e)])
  /\ is_security_group_rule_enabled E sg ak sk region v
     = (Ok false, v1,
        [ECall (DescribeSecurityGroupAttribute ak sk region sg);
         EPrint ("检查安全组规则异常: " ++ exc_msg e1)])
  /\ never_raises (get_traffic E ak sk)
  /\ never_raises (is_security_group_rule_enabled E sg ak sk region).
Proof.
  intros Ht Hs. split; [|split; [|split]].
  - unfold get_traffic, try_except, bind, api_call. now rewrite Ht.
  - unfold is_security_group_rule_enabled, try_except, bind, api_call.
    now rewrite Hs.
  - apply get_traffic_total.
  - apply is_enabled_total.
Qed.

Lemma query_failures_degrade_witness :
  get_traffic (sim_env (mkScenario (Raise (mkExc "TeaException" "timeout"))
                          (Ok (Some [demo_instance])) true false (Ok tt) (Ok 200) (Ok 200)))
    "ak" "sk" true
  = (Ok (PInt 0), true,
     [ECall (ListCdtInternetTraffic "ak" "sk"); EPrint "获取流量异常: timeout"]).
Proof.
  refine (proj1 (query_failures_degrade
                   (sim_env (mkScenario (Raise (mkExc "TeaException" "timeout"))
                               (Ok (Some [demo_instance])) true false (Ok tt) (Ok 200)
                               (Ok 200)))
                   "ak" "sk" "cn-hongkong" (Some "sg-demo") true true true true
                   (mkExc "TeaException" "timeout") (mkExc "TeaException" "Throttling")
                   eq_refl eq_refl)).
Defined.



Section ZeroQuota.
Context (E : Env).



Lemma check_observe_raises account w traffic wa ta e :
  get_traffic E (AccessKeyId account) (AccessKeySecret account) w = (Ok traffic, wa, ta) ->
  usage_percentage traffic (maxTraffic account) = Raise e ->
  check_observe E account w = (Raise e, wa, ta).
Proof.
  intros Ht Hu. unfold check_observe.
  rewrite (bind_ok _ _ _ _ _ _ Ht). cbv zeta. rewrite Hu.
  unfold lift, bind. cbn. now rewrite app_nil_r.
Qed.


End ZeroQuota.




Section FanoutFacts.
Context (E : Env).

Lemma channels_keys message title_ config :
  enabled_keys (channels E message title_ config) = enabled_channels config.
Proof.
  unfold enabled_keys, channels, enabled_channels.
  destruct (enableEmail config), (enableBark config), (enableTG config),
    (enableWebhook config), (enableQywx config); reflexivity.
Qed.

Lemma enabled_channels_nodup config : NoDup (enabled_channels config).
Proof.
  unfold enabled_channels.
  destruct (enableEmail config), (enableBark config), (enableTG config),
    (enableWebhook config), (enableQywx config); cbn;
    repeat (constructor; [cbn; intuition discriminate|]); constructor.
Qed.

Lemma fanout_keys message title_ config w results :
  result_of (fanout E message title_ config w) = Ok results ->
  map fst results = enabled_channels config.
Proof.
  rewrite fanout_as_attempts. intros Hr.
  rewrite (run_attempts_keys E _ (channels_total E message title_ config) [] w results Hr).
  - now rewrite channels_keys.
  - reflexivity.
  - rewrite channels_keys. apply enabled_channels_nodup.
Qed.


End FanoutFacts.

Section Outcomes.
Context (E : Env).

(** An attempt with a sender that returns: the outcome is recorded under
    the key when the channel is enabled. *)
Lemma attempt_outcome enabled key send results w v :
  result_of (send w) = Ok v ->
  attempt E enabled key send results w
  = (Ok (if enabled then dict_set results key v else results),
     (if enabled then world_of (send w) else w),
     (if enabled then trace_of (send w) else [])).
Proof.
  intros Hv. unfold attempt. destruct enabled; [|reflexivity].
  assert (Hs : send w = (Ok v, world_of (send w), trace_of (send w)))
    by (rewrite (outcome_eta (send w)) at 1; now rewrite Hv).
  rewrite (bind_ok _ _ _ _ _ _ Hs). cbn. now rewrite app_nil_r.
Qed.

(** The enterprise chat records what its two deliveries answered. *)
Lemma send_qywx_outcome message title_ config w :
  result_of (send_qywx_notification E message title_ (touser config) (corpid config)
               (corpsecret config) (agentid config) (baseApiUrl config) (picUrl config) w)
  = Ok (qywx_outcome E message title_ config w).
Proof.
  unfold send_qywx_notification, qywx_outcome, qywx_token_request, qywx_send_request,
    try_except, bind, transport_call, raise, print, emit, ret.
  destruct (deliver E (HttpGetJson _) w) as [[[tok|]|e] w1]; cbn; try reflexivity.
  destruct (deliver E (HttpPostJson _ _ _ _ _ _) w1) as [[[[| |]|]|e] w2]; reflexivity.
Qed.

(** Five attempts in a row, each sender returning from the state the one
    before left: the outcomes, the last state and the events. *)
Lemma five_attempts_run (e1 e2 e3 e4 e5 : bool) (s1 s2 s3 s4 s5 : M E jvalue)
    (v1 v2 v3 v4 v5 : jvalue) (w : world E) :
  let w1 := if e1 then world_of (s1 w) else w in
  let w2 := if e2 then world_of (s2 w1) else w1 in
  let w3 := if e3 then world_of (s3 w2) else w2 in
  let w4 := if e4 then world_of (s4 w3) else w3 in
  let w5 := if e5 then world_of (s5 w4) else w4 in
  result_of (s1 w) = Ok v1 ->
  result_of (s2 w1) = Ok v2 ->
  result_of (s3 w2) = Ok v3 ->
  result_of (s4 w3) = Ok v4 ->
  result_of (s5 w4) = Ok v5 ->
  run_attempts E [(e1, "email", s1); (e2, "bark", s2); (e3, "tg", s3);
                  (e4, "webhook", s4); (e5, "qywx", s5)] [] w
  = (Ok ((if e1 then [("email", v1)] else [])
         ++ (if e2 then [("bark", v2)] else [])
         ++ (if e3 then [("tg", v3)] else [])
         ++ (if e4 then [("webhook", v4)] else [])
         ++ (if e5 then [("qywx", v5)] else []))%list,
     w5,
     ((if e1 then trace_of (s1 w) else [])
      ++ (if e2 then trace_of (s2 w1) else [])
      ++ (if e3 then trace_of (s3 w2) else [])
      ++ (if e4 then trace_of (s4 w3) else [])
      ++ (if e5 then trace_of (s5 w4) else []))%list).
Proof.
  intros w1 w2 w3 w4 w5 H1 H2 H3 H4 H5. cbn [run_attempts]. unfold bind.
  rewrite (attempt_outcome e1 "email" s1 [] w v1 H1). fold w1.
  rewrite (attempt_outcome e2 "bark" s2 _ w1 v2 H2). fold w2.
  rewrite (attempt_outcome e3 "tg" s3 _ w2 v3 H3). fold w3.
  rewrite (attempt_outcome e4 "webhook" s4 _ w3 v4 H4). fold w4.
  rewrite (attempt_outcome e5 "qywx" s5 _ w4 v5 H5). fold w5.
  unfold ret. rewrite app_nil_r.
  f_equal. f_equal.
  destruct e1, e2, e3, e4, e5; reflexivity.
Qed.

(** The outcome map of the five attempts of the fanout, with the title
    the webhook and the enterprise chat are given. *)
Lemma channel_attempts_outcomes message title_ late_title config w :
  result_of
    (run_attempts E
       [ (enableEmail config, "email", send_email_notification E message title_ config);
         (enableBark config, "bark", send_bark_notification E message (barkUrl config));
         (enableTG config, "tg",
          send_tg_notification E message (tgBotToken config) (tgChatId config));
         (enableWebhook config, "webhook",
          send_webhook_notification E message (webhookUrl config) late_title
            (webhookId config));
         (enableQywx config, "qywx",
          send_qywx_notification E message late_title (touser config) (corpid config)
            (corpsecret config) (agentid config) (baseApiUrl config) (picUrl config)) ]
       [] w)
  = Ok (outcome_map E message title_ late_title config w).
Proof.
  erewrite five_attempts_run;
    [|apply send_email_run|apply send_bark_run|apply send_tg_run|apply send_webhook_run
     |apply send_qywx_outcome].
  unfold result_of, outcome_map. cbn [fst]. cbv zeta.
  rewrite (proj1 (proj2 (send_email_run E message title_ config w))).
  set (w1 := if enableEmail config
             then snd (deliver E (email_request message title_ config) w) else w).
  rewrite (proj1 (proj2 (send_bark_run E message config w1))).
  set (w2 := if enableBark config
             then snd (deliver E (bark_request E message config) w1) else w1).
  rewrite (proj1 (proj2 (send_tg_run E message config w2))).
  set (w3 := if enableTG config
             then snd (deliver E (tg_request message config) w2) else w2).
  rewrite (proj1 (proj2 (send_webhook_run E message late_title config w3))).
  reflexivity.
Qed.


End Outcomes.



(** The example of the specification: email, Bark and Telegram enabled,
    the Bark delivery raises.  The three deliveries are started, in order;
    the map holds two [True] and one [False]; the result is the failure
    text with the JSON of the map. *)
Example fanout_three_channels_one_raises :
  let sc := mkScenario (Ok (Some demo_traffic)) (Ok (Some [demo_instance])) false false
              (Ok tt) (Raise (mkExc "ConnectionError" "refused")) (Ok 200) in
  let log := [("服务器", "demo"); ("错误信息", "boom")] in
  let out := send_notification (sim_env sc) log demo_config true in
  result_of out
  = Ok (NText ("发送失败: " ++ dumps [("email", JTrue); ("bark", JFalse); ("tg", JTrue)]))
  /\ map (fun t => match t with
                   | SmtpSend _ _ _ _ _ _ _ _ => "smtp"
                   | HttpGet _ [] => "get"
                   | HttpGet _ _ => "get with parameters"
                   | _ => "other"
                   end) (deliveries (trace_of out))
     = ["smtp"; "get"; "get with parameters"]
  /\ printed (trace_of out) = ["Bark 通知失败: refused"]
  /\ dumps [("email", JTrue); ("bark", JFalse); ("tg", JTrue)]
     = "{" ++ DQ ++ "email" ++ DQ ++ ": true, " ++ DQ ++ "bark" ++ DQ ++ ": false, "
       ++ DQ ++ "tg" ++ DQ ++ ": true}".
Proof. vm_compute. repeat split. Qed.

(** ** Rounding to the nearest integer *)

Lemma rhe_div_ge n d k : 0 < d -> k * d <= n -> k <= rhe_div n d.
Proof.
  intros Hd Hn. unfold rhe_div.
  assert (Hq : k <= n / d) by (apply Z.div_le_lower_bound; lia).
  destruct (2 * (n mod d) ?= d); [destruct (Z.even (n / d))| |]; lia.
Qed.

Lemma py_round_nonneg (u : float) (p : Z) :
  PrimFloat.leb 0 u = true -> py_round u = Ok p -> 0 <= p.
Proof.
  rewrite leb_spec. unfold py_round.
  change (Prim2SF 0) with (S754_zero false).
  destruct (Prim2SF u) as [s|s| |s m e]; try discriminate.
  - intros _ [= <-]. lia.
  - intros Hle [= <-]. destruct s; [discriminate|].
    destruct (0 <=? e) eqn:He.
    + apply Z.leb_le in He. assert (0 < 2 ^ e) by (apply Z.pow_pos_nonneg; lia). lia.
    + apply Z.leb_gt in He. apply rhe_div_ge; [apply Z.pow_pos_nonneg; lia|lia].
Qed.

Lemma Z_range_in lo n z : lo <= z < lo + Z.of_nat n -> In z (Z_range lo n).
Proof.
  intros Hz. unfold Z_range. apply in_map_iff. exists (Z.to_nat (z - lo)). split.
  - lia.
  - apply in_seq. lia.
Qed.

Lemma formula_below_full p :
  1 <= p <= 94 -> exists cells, cells_formula p = Ok cells /\ 1 <= cells <= 19.
Proof.
  intros Hp.
  assert (Hall : forallb formula_stays_below_full (Z_range 1 94) = true)
    by (vm_compute; reflexivity).
  rewrite forallb_forall in Hall.
  specialize (Hall p (Z_range_in 1 94 p ltac:(lia))).
  unfold formula_stays_below_full in Hall.
  destruct (cells_formula p) as [cells|e]; [|discriminate].
  exists cells. split; [reflexivity|].
  apply andb_true_iff in Hall. destruct Hall as [H1 H2].
  apply Z.leb_le in H1, H2. lia.
Qed.

(** C8. The bars of the five example percentages. *)
Theorem progress_bar_examples :
  progress_bar 0 = Ok "□□□□□□□□□□□□□□□□□□□□"
  /\ progress_bar 100 = Ok "■■■■■■■■■■■■■■■■■■■■"
  /\ progress_bar 0.5 = Ok "■□□□□□□□□□□□□□□□□□□□"
  /\ progress_bar 96 = Ok "■■■■■■■■■■■■■■■■■■■□"
  /\ progress_bar 50 = Ok "■■■■■■■■■■□□□□□□□□□□".
Proof. repeat split; vm_compute; reflexivity. Qed.

(** C3, as the code has it.  Let [p] be the percentage rounded to the
    nearest integer (ties to even), other than 95.  A percentage strictly
    between 0 and 1 gives 1 filled cell; otherwise [p = 0] gives none;
    otherwise [p > 95] with the percentage below 100 gives exactly 19;
    otherwise the count is [round(0.5 + 20 * p / 100)] clamped to 20.
    For a percentage from 0 to below 100 the bar then has at most 19
    filled cells. *)
Theorem progress_cells_by_rounded_percentage (usage : float) (p : Z) :
  py_round usage = Ok p ->
  p <> 95 ->
  progress_do_num usage
  = (if (PrimFloat.ltb 0 usage && PrimFloat.ltb usage 1)%bool then Ok 1
     else if p =? 0 then Ok 0
     else if ((95 <? p) && PrimFloat.ltb usage 100)%bool then Ok 19
     else cells_formula p)
  /\ (PrimFloat.leb 0 usage = true -> PrimFloat.ltb usage 100 = true ->
      exists cells, progress_do_num usage = Ok cells /\ 0 <= cells <= 19).
Proof.
  intros Hp H95.
  assert (Heq : progress_do_num usage
                = (if (PrimFloat.ltb 0 usage && PrimFloat.ltb usage 1)%bool then Ok 1
                   else if p =? 0 then Ok 0
                   else if ((95 <? p) && PrimFloat.ltb usage 100)%bool then Ok 19
                   else cells_formula p)).
  { unfold progress_do_num, cells_formula. rewrite Hp. reflexivity. }
  split; [exact Heq|].
  intros H0 H100. rewrite Heq, H100.
  pose proof (py_round_nonneg usage p H0 Hp) as Hnn.
  destruct (PrimFloat.ltb 0 usage && PrimFloat.ltb usage 1)%bool.
  - exists 1. split; [reflexivity|lia].
  - destruct (p =? 0) eqn:Hz.
    + exists 0. split; [reflexivity|lia].
    + apply Z.eqb_neq in Hz. rewrite andb_true_r.
      destruct (95 <? p) eqn:Hgt.
      * exists 19. split; [reflexivity|lia].
      * apply Z.ltb_ge in Hgt.
        destruct (formula_below_full p ltac:(lia)) as (cells & Hc & Hb).
        exists cells. split; [exact Hc|lia].
Qed.

Lemma progress_cells_by_rounded_percentage_witness :
  exists cells, progress_do_num 50 = Ok cells /\ 0 <= cells <= 19.
Proof.
  refine (proj2 (progress_cells_by_rounded_percentage 50 50 _ _) _ _).
  - vm_compute. reflexivity.
  - discriminate.
  - vm_compute. reflexivity.
  - vm_compute. reflexivity.
Defined.

(** C3, as the specification states it, fails.  At 95.3% the bar is full,
    20 cells, where the rule allows at most 19 below 100%; at 10.2% the
    bar has 2 cells, where [round(0.5 + 20 * 10.2 / 100)] is 3. *)
Lemma bar_rule_fails :
  progress_do_num 95.3 = Ok 20 /\ ~ bar_rule 95.3 20
  /\ progress_do_num 10.2 = Ok 2 /\ ~ bar_rule 10.2 2.
Proof.
  split; [vm_compute; reflexivity|].
  split; [intros H; vm_compute in H; apply H; reflexivity|].
  split; [vm_compute; reflexivity|].
  intros H. vm_compute in H. discriminate.
Qed.

(** ** Binary64 values of integers *)

Lemma digits2_pos_upper (m : positive) : Z.pos m < 2 ^ Z.pos (digits2_pos m).
Proof.
  induction m as [m IH|m IH|]; cbn [digits2_pos].
  - rewrite Pos2Z.inj_succ, Z.pow_succ_r by lia. lia.
  - rewrite Pos2Z.inj_succ, Z.pow_succ_r by lia. lia.
  - reflexivity.
Qed.

Lemma digits2_pos_lower (m : positive) : 2 ^ (Z.pos (digits2_pos m) - 1) <= Z.pos m.
Proof.
  induction m as [m IH|m IH|]; cbn [digits2_pos].
  - rewrite Pos2Z.inj_succ.
    replace (Z.succ (Z.pos (digits2_pos m)) - 1) with (Z.succ (Z.pos (digits2_pos m) - 1))
      by lia.
    rewrite Z.pow_succ_r by lia. lia.
  - rewrite Pos2Z.inj_succ.
    replace (Z.succ (Z.pos (digits2_pos m)) - 1) with (Z.succ (Z.pos (digits2_pos m) - 1))
      by lia.
    rewrite Z.pow_succ_r by lia. lia.
  - reflexivity.
Qed.

Lemma digits2_pos_unique (m : positive) (d : Z) :
  2 ^ (d - 1) <= Z.pos m < 2 ^ d -> Z.pos (digits2_pos m) = d.
Proof.
  intros [Hlo Hhi].
  pose proof (digits2_pos_upper m) as Hu.
  pose proof (digits2_pos_lower m) as Hl.
  assert (Hd : 0 < d).
  { destruct (Z.ltb_spec 0 d) as [|Hneg]; trivial.
    destruct (Z.eq_dec d 0) as [->|Hne].
    - change (2 ^ 0) with 1 in Hhi. lia.
    - rewrite (Z.pow_neg_r 2 d) in Hhi by lia. lia. }
  assert (d - 1 < Z.pos (digits2_pos m)).
  { apply (Z.pow_lt_mono_r_iff 2); lia. }
  assert (Z.pos (digits2_pos m) - 1 < d).
  { apply (Z.pow_lt_mono_r_iff 2); lia. }
  lia.
Qed.

Lemma iter_xO_value (d p : positive) : Z.pos (Pos.iter xO p d) = Z.pos p * 2 ^ Z.pos d.
Proof.
  induction d as [|d IH] using Pos.peano_ind.
  - cbn [Pos.iter]. rewrite Pos2Z.inj_xO. change (2 ^ 1) with 2. lia.
  - rewrite Pos.iter_succ, Pos2Z.inj_xO, IH, Pos2Z.inj_succ, Z.pow_succ_r by lia. lia.
Qed.

(** A mantissa of 53 bits with an exponent in range is its own rounding. *)
Lemma binary_round_aux_canonical (s : bool) (p : positive) (e : Z) :
  Z.pos (digits2_pos p) = 53 -> -1074 <= e <= 971 ->
  binary_round_aux prec emax s (Z.pos p) e loc_Exact = S754_finite s p e.
Proof.
  intros Hd He. unfold binary_round_aux, shr_fexp, Zdigits2, fexp, emin, prec, emax.
  rewrite Hd.
  replace (Z.max (53 + e - 53) (3 - 1024 - 53) - e) with 0 by lia.
  cbn [shr shr_record_of_loc shr_m loc_of_shr_record round_nearest_even].
  rewrite Hd.
  replace (Z.max (53 + e - 53) (3 - 1024 - 53) - e) with 0 by lia.
  cbn [shr shr_record_of_loc shr_m].
  replace (e <=? 1024 - 53) with true by (symmetry; apply Z.leb_le; lia).
  reflexivity.
Qed.

(** One more low bit, a zero, is shifted out without rounding. *)
Lemma binary_round_aux_shifted (s : bool) (p : positive) (e : Z) :
  Z.pos (digits2_pos p) = 53 -> -1074 <= e <= 971 ->
  binary_round_aux prec emax s (Z.pos (xO p)) (e - 1) loc_Exact = S754_finite s p e.
Proof.
  intros Hd He. unfold binary_round_aux, shr_fexp, Zdigits2, fexp, emin, prec, emax.
  cbn [digits2_pos]. rewrite Pos2Z.inj_succ, Hd.
  replace (Z.max (Z.succ 53 + (e - 1) - 53) (3 - 1024 - 53) - (e - 1)) with 1 by lia.
  cbn [shr shr_record_of_loc shr_m loc_of_shr_record round_nearest_even iter_pos shr_1 orb].
  replace (e - 1 + 1) with e by lia.
  rewrite Hd.
  replace (Z.max (53 + e - 53) (3 - 1024 - 53) - e) with 0 by lia.
  cbn [shr shr_record_of_loc shr_m].
  replace (e <=? 1024 - 53) with true by (symmetry; apply Z.leb_le; lia).
  reflexivity.
Qed.

Lemma div_eucl_mul (a b : Z) : 0 < b -> Z.div_eucl (a * b) b = (a, 0).
Proof.
  intros Hb. pose proof (Z_div_mod (a * b) b ltac:(lia)) as H.
  destruct (Z.div_eucl (a * b) b) as [q r]. destruct H as [Heq Hr].
  destruct (Z.div_mod_unique b q a r 0) as [-> ->]; try lia. reflexivity.
Qed.

Lemma normalize_below_2_53 (pm : positive) :
  Z.pos pm < 2 ^ 53 ->
  exists p e,
    Z.pos (digits2_pos p) = 53 /\ -52 <= e <= 0
    /\ e = Z.pos (digits2_pos pm) - 53
    /\ Z.pos p = Z.pos pm * 2 ^ (- e)
    /\ binary_normalize prec emax (Z.pos pm) 0 false = S754_finite false p e.
Proof.
  intros Hlt.
  pose proof (digits2_pos_upper pm) as Hu.
  pose proof (digits2_pos_lower pm) as Hl.
  assert (HD : Z.pos (digits2_pos pm) <= 53).
  { assert (Z.pos (digits2_pos pm) - 1 < 53) by (apply (Z.pow_lt_mono_r_iff 2); lia). lia. }
  unfold binary_normalize, binary_round, shl_align, fexp, emin, prec, emax.
  destruct (Z.eq_dec (Z.pos (digits2_pos pm)) 53) as [Heq|Hne].
  - exists pm, 0. rewrite Heq. cbn [Z.add Z.sub Z.max Z.opp Z.compare Pos.compare Z.pos_sub].
    repeat split; try lia.
    change (Z.max (53 + 0 - 53) (3 - 1024 - 53) - 0) with 0.
    cbv beta iota. apply binary_round_aux_canonical; [exact Heq|lia].
  - set (k := Z.to_pos (53 - Z.pos (digits2_pos pm))).
    assert (Hk : Z.pos k = 53 - Z.pos (digits2_pos pm)) by (unfold k; rewrite Z2Pos.id; lia).
    exists (Pos.iter xO pm k), (- Z.pos k).
    assert (Hv : Z.pos (Pos.iter xO pm k) = Z.pos pm * 2 ^ Z.pos k) by apply iter_xO_value.
    assert (Hdig : Z.pos (digits2_pos (Pos.iter xO pm k)) = 53).
    { assert (Hlo : 2 ^ (Z.pos (digits2_pos pm) - 1 + Z.pos k)
                    = 2 ^ (Z.pos (digits2_pos pm) - 1) * 2 ^ Z.pos k)
        by (apply Z.pow_add_r; lia).
      assert (Hhi : 2 ^ (Z.pos (digits2_pos pm) + Z.pos k)
                    = 2 ^ Z.pos (digits2_pos pm) * 2 ^ Z.pos k)
        by (apply Z.pow_add_r; lia).
      replace (Z.pos (digits2_pos pm) - 1 + Z.pos k) with (53 - 1) in Hlo by lia.
      replace (Z.pos (digits2_pos pm) + Z.pos k) with 53 in Hhi by lia.
      assert (Hpos : 0 < 2 ^ Z.pos k) by (apply Z.pow_pos_nonneg; lia).
      apply digits2_pos_unique. rewrite Hv, Hlo, Hhi. split.
      - apply Z.mul_le_mono_nonneg_r; [lia|exact Hl].
      - apply Z.mul_lt_mono_pos_r; [exact Hpos|exact Hu]. }
    split; [exact Hdig|]. split; [lia|]. split; [lia|].
    split; [rewrite Z.opp_involutive; exact Hv|].
    replace (Z.max (Z.pos (digits2_pos pm) + 0 - 53) (3 - 1024 - 53)) with (Z.neg k) by lia.
    cbn [Z.sub Z.add Z.opp]. cbv beta iota.
    change (Z.neg k) with (- Z.pos k).
    apply binary_round_aux_canonical; [exact Hdig|lia].
Qed.

Lemma gib_division_below_2_53 (pm p : positive) (e : Z) :
  Z.pos (digits2_pos p) = 53 -> -52 <= e <= 0 ->
  e = Z.pos (digits2_pos pm) - 53 ->
  Z.pos p = Z.pos pm * 2 ^ (- e) ->
  SFdiv prec emax (S754_finite false (pm * 1073741824) 0) (S754_finite false 1073741824 0)
  = S754_finite false p e.
Proof.
  intros Hdig He HeD Hp.
  pose proof (digits2_pos_upper pm) as Hu.
  pose proof (digits2_pos_lower pm) as Hl.
  assert (Hd30 : Z.pos (digits2_pos (pm * 1073741824)) = Z.pos (digits2_pos pm) + 30).
  { apply digits2_pos_unique. rewrite Pos2Z.inj_mul.
    change (Z.pos 1073741824) with (2 ^ 30).
    replace (Z.pos (digits2_pos pm) + 30 - 1) with (Z.pos (digits2_pos pm) - 1 + 30) by lia.
    rewrite !Z.pow_add_r by lia. split.
    - apply Z.mul_le_mono_nonneg_r; [lia|exact Hl].
    - apply Z.mul_lt_mono_pos_r; [lia|exact Hu]. }
  set (sp := Z.to_pos (1 - e)).
  assert (Hsp : Z.pos sp = 1 - e) by (unfold sp; rewrite Z2Pos.id; lia).
  unfold SFdiv, SFdiv_core_binary, fexp, emin, prec, emax. cbn [Zdigits2 xorb].
  rewrite Hd30. change (Z.pos (digits2_pos 1073741824)) with 31.
  replace (Z.min (Z.max (Z.pos (digits2_pos pm) + 30 + 0 - (31 + 0) - 53) (3 - 1024 - 53))
             (0 - 0)) with (e - 1) by lia.
  replace (0 - 0 - (e - 1)) with (Z.pos sp) by lia.
  cbv iota. rewrite Z.shiftl_mul_pow2 by lia.
  replace (Z.pos (pm * 1073741824) * 2 ^ Z.pos sp)
    with (Z.pos pm * 2 ^ Z.pos sp * 1073741824) by (rewrite Pos2Z.inj_mul; ring).
  rewrite div_eucl_mul by lia.
  change (new_location 1073741824 0) with loc_Exact. cbv iota beta.
  replace (Z.pos pm * 2 ^ Z.pos sp) with (Z.pos (xO p)).
  - apply binary_round_aux_shifted; [exact Hdig|lia].
  - rewrite Pos2Z.inj_xO, Hp, Hsp.
    replace (1 - e) with (Z.succ (- e)) by lia.
    rewrite Z.pow_succ_r by lia. ring.
Qed.

Lemma SFdiv_self (s : bool) (p : positive) (e : Z) :
  SFdiv prec emax (S754_finite s p e) (S754_finite s p e)
  = S754_finite false 4503599627370496 (-52).
Proof.
  unfold SFdiv, SFdiv_core_binary, fexp, emin, prec, emax. cbn [Zdigits2].
  rewrite xorb_nilpotent.
  replace (Z.min (Z.max (Z.pos (digits2_pos p) + e - (Z.pos (digits2_pos p) + e) - 53)
                    (3 - 1024 - 53)) (e - e)) with (-53) by lia.
  replace (e - e - -53) with 53 by lia.
  cbv iota. rewrite Z.shiftl_mul_pow2 by lia.
  rewrite (Z.mul_comm (Z.pos p)), div_eucl_mul by lia.
  assert (Hloc : new_location (Z.pos p) 0 = loc_Exact).
  { unfold new_location, new_location_even, new_location_odd.
    destruct (Z.even (Z.pos p)); reflexivity. }
  rewrite Hloc. vm_compute. reflexivity.
Qed.

(** ** Quotients of floats *)

Lemma float_div_self (x : float) (s : bool) (p : positive) (e : Z) :
  Prim2SF x = S754_finite s p e -> (x / x)%float = 1%float.
Proof.
  intros H. apply Prim2SF_inj. rewrite div_spec. unfold SF64div.
  rewrite H, SFdiv_self. reflexivity.
Qed.

Lemma float_zero_div (x : float) (p : positive) (e : Z) :
  Prim2SF x = S754_finite false p e -> (0 / x)%float = 0%float.
Proof.
  intros H. apply Prim2SF_inj. rewrite div_spec. unfold SF64div.
  rewrite H. reflexivity.
Qed.

Lemma float_finite_nonzero (x : float) (s : bool) (p : positive) (e : Z) :
  Prim2SF x = S754_finite s p e -> PrimFloat.eqb x 0 = false.
Proof.
  intros H. rewrite eqb_spec, H. change (Prim2SF 0) with (S754_zero false).
  unfold SFeqb, SFcompare. now destruct s.
Qed.

(** The float of an integer quota from 1 to below 2^53, and the quotient
    of that many GiB in bytes by 1024^3: the same float. *)
Lemma float_of_quota (m : Z) :
  0 < m < 2 ^ 53 ->
  exists fm p e,
    Prim2SF fm = S754_finite false p e
    /\ float_of_int m = Ok fm
    /\ int_truediv (m * (1024 * 1024 * 1024)) (1024 * 1024 * 1024) = Ok fm.
Proof.
  intros Hm. destruct m as [|pm|pm]; try lia.
  destruct (normalize_below_2_53 pm ltac:(lia)) as (p & e & Hdig & He & HeD & Hp & Hn).
  pose proof (gib_division_below_2_53 pm p e Hdig He HeD Hp) as Hdiv.
  assert (Hvalid : valid_binary (S754_finite false p e) = true).
  { cbn. unfold bounded, canonical_mantissa, fexp, emin, prec, emax. rewrite Hdig.
    apply andb_true_iff. split; [apply Z.eqb_eq|apply Z.leb_le]; lia. }
  exists (SF2Prim (S754_finite false p e)), p, e.
  split; [apply Prim2SF_SF2Prim; exact Hvalid|].
  split.
  - unfold float_of_int. rewrite Hn. reflexivity.
  - unfold int_truediv. change (1024 * 1024 * 1024) with 1073741824.
    cbn [Z.mul Z.abs Z.ltb Z.compare]. rewrite Hdiv. reflexivity.
Qed.

Lemma usage_of_no_traffic (m : Z) :
  0 < m < 2 ^ 53 -> usage_percentage (PFloat 0) (PInt m) = Ok 0%float.
Proof.
  intros Hm. destruct (float_of_quota m Hm) as (fm & p & e & Hsf & Hf & _).
  unfold usage_percentage, py_truediv, float_truediv. rewrite Hf.
  rewrite (float_finite_nonzero fm false p e Hsf), (float_zero_div fm p e Hsf).
  vm_compute. reflexivity.
Qed.

Lemma usage_of_full_quota (m : Z) (gb : float) :
  0 < m < 2 ^ 53 ->
  int_truediv (m * (1024 * 1024 * 1024)) (1024 * 1024 * 1024) = Ok gb ->
  usage_percentage (PFloat gb) (PInt m) = Ok 100%float.
Proof.
  intros Hm Hgb. destruct (float_of_quota m Hm) as (fm & p & e & Hsf & Hf & Hd).
  rewrite Hd in Hgb. injection Hgb as <-.
  unfold usage_percentage, py_truediv, float_truediv. rewrite Hf.
  rewrite (float_finite_nonzero fm false p e Hsf), (float_div_self fm false p e Hsf).
  vm_compute. reflexivity.
Qed.

Lemma float_positive_finite (x : float) :
  PrimFloat.ltb 0 x = true -> PrimFloat.ltb x infinity = true ->
  exists p e, Prim2SF x = S754_finite false p e.
Proof.
  rewrite !ltb_spec.
  change (Prim2SF 0) with (S754_zero false).
  change (Prim2SF infinity) with (S754_infinity false).
  destruct (Prim2SF x) as [s|s| |s p e]; try destruct s; try discriminate.
  intros _ _. now exists p, e.
Qed.

Lemma usage_of_float_quota (fq : float) :
  PrimFloat.ltb 0 fq = true -> PrimFloat.ltb fq infinity = true ->
  usage_percentage (PFloat 0) (PFloat fq) = Ok 0%float
  /\ usage_percentage (PFloat fq) (PFloat fq) = Ok 100%float.
Proof.
  intros Hpos Hfin. destruct (float_positive_finite fq Hpos Hfin) as (p & e & Hsf).
  unfold usage_percentage, py_truediv, float_truediv.
  rewrite (float_finite_nonzero fq false p e Hsf), (float_zero_div fq p e Hsf),
    (float_div_self fq false p e Hsf).
  split; vm_compute; reflexivity.
Qed.

Lemma sum_traffic_from (items : list TrafficItem) (acc : Z) :
  fold_left (fun a item => a + get_default (Traffic item) 0) items acc
  = acc + fold_right Z.add 0
            (map (fun item => match Traffic item with Some bytes => bytes | None => 0 end)
               items).
Proof.
  revert acc. induction items as [|item items IH]; intros acc; cbn [fold_left map fold_right].
  - lia.
  - rewrite IH. unfold get_default. destruct (Traffic item); lia.
Qed.

(** [rhe_div n d] is an integer nearest to [n / d], the even one of the
    two when [n / d] lies half way. *)
Lemma rhe_div_nearest n d :
  0 < d ->
  2 * Z.abs (n - rhe_div n d * d) <= d
  /\ (2 * Z.abs (n - rhe_div n d * d) = d -> Z.even (rhe_div n d) = true).
Proof.
  intros Hd. unfold rhe_div.
  pose proof (Z.div_mod n d ltac:(lia)) as Hdm.
  pose proof (Z.mod_pos_bound n d Hd) as Hr.
  rewrite (Z.mul_comm d) in Hdm.
  remember (n mod d) as r eqn:Er. remember (n / d) as q eqn:Eq. clear Er Eq.
  assert (Hlo : n - q * d = r) by lia.
  assert (Hhi : n - (q + 1) * d = r - d) by lia.
  destruct (2 * r ?= d) eqn:Hc.
  - apply Z.compare_eq_iff in Hc.
    destruct (Z.even q) eqn:He.
    + rewrite Hlo. split; [lia|intros _; exact He].
    + rewrite Hhi. split; [lia|]. intros _. rewrite Z.even_add, He. reflexivity.
  - change (2 * r < d) in Hc. rewrite Hlo. split; [lia|intros; exfalso; lia].
  - change (2 * r > d) in Hc. rewrite Hhi. split; [lia|intros; exfalso; lia].
Qed.

(** [round(x, 2)] rounds: for a float of value [m * 2^e] that is no
    integer it answers the float nearest to [n / 100], where [n] is the
    integer nearest to 100 times the value, the even one at a tie. *)
Lemma py_round2_hundredths x s m e :
  Prim2SF x = S754_finite s m e -> e < 0 ->
  exists n,
    0 <= n
    /\ 2 * Z.abs (100 * Z.pos m - n * 2 ^ (- e)) <= 2 ^ (- e)
    /\ (2 * Z.abs (100 * Z.pos m - n * 2 ^ (- e)) = 2 ^ (- e) -> Z.even n = true)
    /\ py_round2 x = hundredths s n.
Proof.
  intros Hx He.
  assert (Hd : 0 < 2 ^ (- e)) by (apply Z.pow_pos_nonneg; lia).
  exists (rhe_div (100 * Z.pos m) (2 ^ (- e))).
  destruct (rhe_div_nearest (100 * Z.pos m) (2 ^ (- e)) Hd) as [Hn Ht].
  split; [apply rhe_div_ge; [exact Hd|lia]|].
  split; [exact Hn|]. split; [exact Ht|].
  unfold py_round2, hundredths. rewrite Hx.
  replace (0 <=? e) with false by (symmetry; apply Z.leb_gt; exact He).
  reflexivity.
Qed.

(** C7. [get_traffic] adds the [Traffic] members of the line items, a
    missing member counting for zero, and divides the total by 1024^3;
    the usage is [round(GB / maxTraffic * 100, 2)].  For a quota of [m]
    GB, [m] an integer from 1 to below 2^53: no traffic gives 0.0, and
    [m * 1024^3] bytes give 100.0.  For a quota that is a positive finite
    float: 0.0 GB give 0.0, and as many GB as the quota give 100.0.
    The rounding is to hundredths: a value [mx * 2^e] that is no integer
    becomes the float nearest to [n / 100], [n] being the integer nearest
    to 100 times the value and the even one at a tie; so 1 GB of traffic
    is 33.33 per cent of 3 GB and 16.67 per cent of 6 GB. *)
Theorem usage_evaluation
    (E : Env) (ak sk : string) (w w1 : world E) (details : option (list TrafficItem))
    (m : Z) :
  call_api E (ListCdtInternetTraffic ak sk) w = (Ok details, w1) ->
  0 < m < 2 ^ 53 ->
  let items := get_default details [] in
  let total := sum_traffic items in
  total = fold_right Z.add 0
            (map (fun item => match Traffic item with Some bytes => bytes | None => 0 end)
               items)
  /\ get_traffic E ak sk w
     = match int_truediv total (1024 * 1024 * 1024) with
       | Ok gb => (Ok (PFloat gb), w1, [ECall (ListCdtInternetTraffic ak sk)])
       | Raise e => (Ok (PInt 0), w1,
                     [ECall (ListCdtInternetTraffic ak sk);
                      EPrint ("获取流量异常: " ++ exc_msg e)])
       end
  /\ (forall gb quota,
         usage_percentage (PFloat gb) quota
         = match py_truediv (PFloat gb) quota with
           | Ok q => Ok (py_round2 (q * 100)%float)
           | Raise e => Raise e
           end)
  /\ (total = 0 ->
      result_of (get_traffic E ak sk w) = Ok (PFloat 0)
      /\ usage_percentage (PFloat 0) (PInt m) = Ok 0%float)
  /\ (total = m * (1024 * 1024 * 1024) ->
      exists gb,
        result_of (get_traffic E ak sk w) = Ok (PFloat gb)
        /\ usage_percentage (PFloat gb) (PInt m) = Ok 100%float)
  /\ (forall fq,
         PrimFloat.ltb 0 fq = true -> PrimFloat.ltb fq infinity = true ->
         usage_percentage (PFloat 0) (PFloat fq) = Ok 0%float
         /\ usage_percentage (PFloat fq) (PFloat fq) = Ok 100%float)
  /\ (forall x s mx e,
         Prim2SF x = S754_finite s mx e -> e < 0 ->
         exists n,
           0 <= n
           /\ 2 * Z.abs (100 * Z.pos mx - n * 2 ^ (- e)) <= 2 ^ (- e)
           /\ (2 * Z.abs (100 * Z.pos mx - n * 2 ^ (- e)) = 2 ^ (- e) -> Z.even n = true)
           /\ py_round2 x = hundredths s n)
  /\ (total = 1024 * 1024 * 1024 ->
      result_of (get_traffic E ak sk w) = Ok (PFloat 1)
      /\ usage_percentage (PFloat 1) (PInt 3) = Ok 33.33%float
      /\ usage_percentage (PFloat 1) (PInt 6) = Ok 16.67%float).
Proof.
  intros Hc Hm items total.
  assert (Hrun : get_traffic E ak sk w
                 = match int_truediv total (1024 * 1024 * 1024) with
                   | Ok gb => (Ok (PFloat gb), w1, [ECall (ListCdtInternetTraffic ak sk)])
                   | Raise e => (Ok (PInt 0), w1,
                                 [ECall (ListCdtInternetTraffic ak sk);
                                  EPrint ("获取流量异常: " ++ exc_msg e)])
                   end).
  { unfold get_traffic, try_except, bind, api_call, lift, print, emit, ret.
    rewrite Hc. fold items. fold total.
    destruct (int_truediv total (1024 * 1024 * 1024)); reflexivity. }
  split; [|split; [exact Hrun|split; [reflexivity|split; [|split; [|split; [|split]]]]]];
    [| | |exact usage_of_float_quota|exact py_round2_hundredths|].
  - unfold total, sum_traffic. rewrite sum_traffic_from. lia.
  - intros H0. rewrite Hrun, H0. split; [reflexivity|].
    apply usage_of_no_traffic, Hm.
  - intros Hfull. rewrite Hrun, Hfull.
    destruct (float_of_quota m Hm) as (fm & p & e & _ & _ & Hd).
    exists fm. rewrite Hd. split; [reflexivity|].
    apply usage_of_full_quota; [exact Hm|exact Hd].
  - intros Hone. rewrite Hrun, Hone.
    split; [reflexivity|]. split; vm_compute; reflexivity.
Qed.

Lemma usage_evaluation_witness :
  exists gb,
    result_of (get_traffic
                 (sim_env (mkScenario (Ok (Some [mkTrafficItem (Some (200 * 1073741824));
                                                 mkTrafficItem None]))
                             (Ok (Some [demo_instance])) false false (Ok tt) (Ok 200)
                             (Ok 200))) "ak" "sk" true) = Ok (PFloat gb)
    /\ usage_percentage (PFloat gb) (PInt 200) = Ok 100%float.
Proof.
  refine (proj1 (proj2 (proj2 (proj2 (proj2
            (usage_evaluation
               (sim_env (mkScenario (Ok (Some [mkTrafficItem (Some (200 * 1073741824));
                                               mkTrafficItem None]))
                           (Ok (Some [demo_instance])) false false (Ok tt) (Ok 200)
                           (Ok 200)))
               "ak" "sk" true true
               (Some [mkTrafficItem (Some (200 * 1073741824)); mkTrafficItem None])
               200 eq_refl _))))) _).
  - split; reflexivity.
  - reflexivity.
Defined.

(* ================================================================= *)
(** * Further properties of the code *)

(* ================================================================= *)
(** ** The calls of a run *)

Section QueryRuns.
Context (E : Env).

(** Each query helper issues its one call, whatever the call answers,
    and returns. *)
Lemma get_traffic_run ak sk w :
  exists traffic t,
    get_traffic E ak sk w
    = (Ok traffic, snd (call_api E (ListCdtInternetTraffic ak sk) w), t)
    /\ api_calls t = [ListCdtInternetTraffic ak sk]
    /\ deliveries t = []
    /\ (traffic = PInt 0 \/ exists f, traffic = PFloat f).
Proof.
  unfold get_traffic, try_except, bind, api_call, lift, print, emit, ret.
  destruct (call_api E _ w) as [[body|e] w1]; cbn [snd].
  - destruct (int_truediv _ _) as [gb|e]; cbn.
    + do 2 eexists. repeat split; try reflexivity. right. now eexists.
    + do 2 eexists. repeat split; try reflexivity. now left.
  - cbn. do 2 eexists. repeat split; try reflexivity. now left.
Qed.

Lemma get_security_group_id_run i ak sk r w :
  exists t,
    get_security_group_id E i ak sk r w
    = (Ok (first_group (fst (call_api E (DescribeInstanceAttribute ak sk r i) w))),
       snd (call_api E (DescribeInstanceAttribute ak sk r i) w), t)
    /\ api_calls t = [DescribeInstanceAttribute ak sk r i]
    /\ deliveries t = [].
Proof.
  unfold get_security_group_id, try_except, bind, api_call, raise, print, emit, ret.
  destruct (call_api E _ w) as [[[[|sg ids]|]|e] w1]; cbn;
    eexists; repeat split; reflexivity.
Qed.

Lemma get_instance_details_run ak sk i r w :
  exists expiry ip t,
    get_instance_details E ak sk i r w
    = (Ok [("到期时间", expiry); ("公网IP地址", ip)],
       snd (call_api E (DescribeInstances ak sk r (Some i)) w), t)
    /\ api_calls t = [DescribeInstances ak sk r (Some i)]
    /\ deliveries t = []
    /\ ip <> "".
Proof.
  unfold get_instance_details, try_except, bind, api_call, raise, print, emit, ret.
  destruct (call_api E _ w) as [[[[|inst rest]|]|e] w1]; cbn;
    try (do 3 eexists; repeat split; try reflexivity; discriminate).
  destruct (EipAddress_IpAddress inst) as [[|c s]|];
    do 3 eexists; repeat split; try reflexivity; discriminate.
Qed.

Lemma is_enabled_run sg ak sk r w :
  exists enabled t,
    is_security_group_rule_enabled E sg ak sk r w
    = (Ok enabled, snd (call_api E (DescribeSecurityGroupAttribute ak sk r sg) w), t)
    /\ api_calls t = [DescribeSecurityGroupAttribute ak sk r sg]
    /\ deliveries t = []
    /\ enabled
       = match fst (call_api E (DescribeSecurityGroupAttribute ak sk r sg) w) with
         | Ok perms => existsb is_open_rule (get_default perms [])
         | Raise _ => false
         end.
Proof.
  unfold is_security_group_rule_enabled, try_except, bind, api_call, print, emit, ret.
  destruct (call_api E _ w) as [[perms|e] w1]; cbn;
    do 2 eexists; repeat split; reflexivity.
Qed.

End QueryRuns.

Section Steps.
Context {E : Env}.

Lemma bind_step {A B} (c : M E A) (k : A -> M E B) w a w1 t1 r w2 t2 :
  c w = (Ok a, w1, t1) -> k a w1 = (r, w2, t2) ->
  bind c k w = (r, w2, (t1 ++ t2)%list).
Proof. intros Hc Hk. unfold bind. now rewrite Hc, Hk. Qed.

Lemma lift_ok {A} (a : A) w : @lift E A (Ok a) w = (Ok a, w, []).
Proof. reflexivity. Qed.

Lemma try_step {A} (c : M E A) (h : exc -> M E A) w e w1 t1 r w2 t2 :
  c w = (Raise e, w1, t1) -> h e w1 = (r, w2, t2) ->
  try_except c h w = (r, w2, (t1 ++ t2)%list).
Proof. intros Hc Hh. unfold try_except. now rewrite Hc, Hh. Qed.

End Steps.

Section ObservationRun.
Context (E : Env).

(** The run of an observation, step by step: the traffic query, the
    usage, then the three other queries, each from the state the one
    before left. *)
Lemma check_observe_run account w :
  exists traffic wA tA,
    get_traffic E (AccessKeyId account) (AccessKeySecret account) w = (Ok traffic, wA, tA)
    /\ wA = snd (call_api E (traffic_request account) w)
    /\ api_calls tA = [traffic_request account]
    /\ deliveries tA = []
    /\ (traffic = PInt 0 \/ exists f, traffic = PFloat f)
    /\ match usage_percentage traffic (maxTraffic account) with
       | Raise e => check_observe E account w = (Raise e, wA, tA)
       | Ok usage =>
           exists o w1 t,
             check_observe E account w = (Ok o, w1, t)
             /\ ob_usage o = usage
             /\ ob_security_group_id o
                = first_group (fst (call_api E (group_request account) wA))
             /\ api_calls t = observation_requests account (ob_security_group_id o)
             /\ deliveries t = []
       end.
Proof.
  destruct (get_traffic_run E (AccessKeyId account) (AccessKeySecret account) w)
    as (traffic & tA & Ht & HcA & HdA & Hshape).
  exists traffic, (snd (call_api E (traffic_request account) w)), tA.
  split; [exact Ht|]. split; [reflexivity|]. split; [exact HcA|].
  split; [exact HdA|]. split; [exact Hshape|].
  destruct (usage_percentage traffic (maxTraffic account)) as [usage|e] eqn:Hu.
  - set (wA := snd (call_api E (traffic_request account) w)) in *.
    destruct (get_security_group_id_run E (instanceId account) (AccessKeyId account)
                (AccessKeySecret account) (regionId account) wA)
      as (tB & Hg & HcB & HdB).
    set (wB := snd (call_api E (DescribeInstanceAttribute (AccessKeyId account)
                                  (AccessKeySecret account) (regionId account)
                                  (instanceId account)) wA)) in *.
    destruct (get_instance_details_run E (AccessKeyId account) (AccessKeySecret account)
                (instanceId account) (regionId account) wB)
      as (expiry & ip & tC & Hi & HcC & HdC & _).
    set (wC := snd (call_api E (DescribeInstances (AccessKeyId account)
                                  (AccessKeySecret account) (regionId account)
                                  (Some (instanceId account))) wB)) in *.
    set (sg := first_group (fst (call_api E (DescribeInstanceAttribute (AccessKeyId account)
                                               (AccessKeySecret account) (regionId account)
                                               (instanceId account)) wA))) in *.
    destruct (is_enabled_run E sg (AccessKeyId account) (AccessKeySecret account)
                (regionId account) wC)
      as (enabled & tD & He & HcD & HdD & _).
    eexists (mkObservation usage sg _ enabled), _, _.
    split.
    + unfold check_observe.
      eapply bind_step; [exact Ht|]. cbv zeta. rewrite Hu.
      eapply bind_step; [apply lift_ok|].
      eapply bind_step; [exact Hg|].
      eapply bind_step; [exact Hi|].
      unfold dict_index. cbn [dict_get String.eqb Ascii.eqb Bool.eqb].
      eapply bind_step; [apply lift_ok|].
      eapply bind_step; [apply lift_ok|].
      eapply bind_step; [exact He|].
      reflexivity.
    + cbn [ob_usage ob_security_group_id].
      split; [reflexivity|]. split; [reflexivity|].
      unfold api_calls, deliveries in *. rewrite !flat_map_app.
      rewrite HcA, HcB, HcC, HcD, HdA, HdB, HdC, HdD. split; reflexivity.
  - apply (check_observe_raises E account w traffic _ tA e Ht Hu).
Qed.

End ObservationRun.

Section ReconcileRun.
Context (E : Env).

Lemma disable_calls sg ak sk r w :
  exists t,
    disable_security_group_rule E sg ak sk r w
    = (Ok tt, snd (call_api E (RevokeSecurityGroup ak sk r sg) w), t)
    /\ api_calls t = [RevokeSecurityGroup ak sk r sg]
    /\ notifications t = []
    /\ deliveries t = [].
Proof.
  unfold disable_security_group_rule, try_except, bind, api_call, print, emit.
  destruct (call_api E _ w) as [[u|e] w1]; cbn; eexists; repeat split; reflexivity.
Qed.

Lemma enable_calls sg ak sk r w :
  exists t,
    enable_security_group_rule E sg ak sk r w
    = (Ok tt, snd (call_api E (AuthorizeSecurityGroup ak sk r sg) w), t)
    /\ api_calls t = [AuthorizeSecurityGroup ak sk r sg]
    /\ notifications t = []
    /\ deliveries t = [].
Proof.
  unfold enable_security_group_rule, try_except, bind, api_call, print, emit.
  destruct (call_api E _ w) as [[u|e] w1]; cbn; eexists; repeat split; reflexivity.
Qed.

(** The run of [send_notification] on a record whose text can be built:
    the record goes to the fanout, no cloud call is made, and the result
    is the aggregate of an outcome map over the enabled channels. *)
Lemma send_notification_full log config message w :
  notification_message log = Ok message ->
  exists results w1 t,
    fanout E message (get_default (title config) "CDT流量统计") config w = (Ok results, w1, t)
    /\ send_notification E log config w = (Ok (aggregate results), w1, ENotify log :: t)
    /\ api_calls t = []
    /\ notifications t = []
    /\ map fst results = enabled_channels config.
Proof.
  intros Hm.
  destruct (send_notification_run E log config message w Hm) as (results & Hf & Hs).
  exists results, (world_of (fanout E message (get_default (title config) "CDT流量统计")
                               config w)),
    (trace_of (fanout E message (get_default (title config) "CDT流量统计") config w)).
  split; [exact Hf|]. split; [exact Hs|].
  split; [apply fanout_no_call|]. split; [apply fanout_no_notify|].
  apply (fanout_keys E message (get_default (title config) "CDT流量统计") config w).
  now rewrite Hf.
Qed.

End ReconcileRun.

Section DecisionRun.
Context (E : Env).

(** The run of the decision of [check]: the toggle of the decision, if
    any, then the fanout with the record; the record gains its last two
    members. *)
Lemma check_reconcile_run account config o w :
  (forall state,
      exists text, notification_message (dict_set (ob_log o) "安全组状态" state) = Ok text) ->
  let a := reconcile (ob_is_enabled o) (ob_usage o) in
  let log1 := dict_set (ob_log o) "安全组状态" (reported_state a (ob_usage o)) in
  exists sent w1 t,
    check_reconcile E account config o w = (Ok (dict_set log1 "通知发送" sent), w1, t)
    /\ api_calls t = toggle_requests account o a
    /\ match a with
       | NoAction => sent = "不需要" /\ t = [] /\ w1 = w
       | _ =>
           notifications t = [log1]
           /\ exists results,
               map fst results = enabled_channels config
               /\ sent = sent_text (aggregate results)
       end.
Proof.
  intros Hmsg a log1. subst a log1. unfold check_reconcile, reconcile.
  fold (reached_95 (ob_usage o)).
  destruct (reached_95 (ob_usage o)) eqn:H95, (ob_is_enabled o); cbn [negb reported_state].
  - destruct (disable_calls E (ob_security_group_id o) (AccessKeyId account)
                (AccessKeySecret account) (regionId account) w) as (tM & Hd & Hc & Hn & _).
    destruct (Hmsg "已禁用 0.0.0.0/0 访问规则") as [text Ht].
    destruct (send_notification_full E _ config text
                (snd (call_api E (RevokeSecurityGroup (AccessKeyId account)
                                    (AccessKeySecret account) (regionId account)
                                    (ob_security_group_id o)) w)) Ht)
      as (results & wF & tF & _ & Hs & HcF & HnF & Hk).
    do 3 eexists. split.
    + eapply bind_step; [exact Hd|]. cbv zeta.
      eapply bind_step; [exact Hs|]. reflexivity.
    + unfold api_calls, notifications in *. rewrite !flat_map_app. cbn [flat_map app call_of notification_of].
      rewrite Hc, Hn, HcF, HnF, !app_nil_r. split; [reflexivity|].
      split; [reflexivity|]. exists results. split; [exact Hk|reflexivity].
  - rewrite H95. do 3 eexists. split; [reflexivity|]. repeat split.
  - rewrite H95. do 3 eexists. split; [reflexivity|]. repeat split.
  - destruct (enable_calls E (ob_security_group_id o) (AccessKeyId account)
                (AccessKeySecret account) (regionId account) w) as (tM & Hd & Hc & Hn & _).
    destruct (Hmsg "已恢复 0.0.0.0 访问规则") as [text Ht].
    destruct (send_notification_full E _ config text
                (snd (call_api E (AuthorizeSecurityGroup (AccessKeyId account)
                                    (AccessKeySecret account) (regionId account)
                                    (ob_security_group_id o)) w)) Ht)
      as (results & wF & tF & _ & Hs & HcF & HnF & Hk).
    do 3 eexists. split.
    + eapply bind_step; [exact Hd|]. cbv zeta.
      eapply bind_step; [exact Hs|]. reflexivity.
    + unfold api_calls, notifications in *. rewrite !flat_map_app. cbn [flat_map app call_of notification_of].
      rewrite Hc, Hn, HcF, HnF, !app_nil_r. split; [reflexivity|].
      split; [reflexivity|]. exists results. split; [exact Hk|reflexivity].
Qed.

End DecisionRun.

Lemma mutating_calls_filter (tr : list event) :
  mutating_calls tr = filter is_mutating (api_calls tr).
Proof.
  unfold mutating_calls, api_calls.
  induction tr as [|ev tr IH]; [reflexivity|].
  cbn [flat_map]. rewrite filter_app, IH. f_equal.
  now destruct ev.
Qed.

Lemma toggle_requests_mutating account o a :
  filter is_mutating (toggle_requests account o a) = toggle_requests account o a.
Proof. now destruct a. Qed.

Lemma toggle_requests_length account o a : (List.length (toggle_requests account o a) <= 1)%nat.
Proof. destruct a; cbn; lia. Qed.

Section AccountRun.
Context (E : Env).

(** The three ways the loop body of [check] can go for an account: the
    validation fails; the usage evaluation raises; the decision is
    reached. *)
Lemma check_account_run config logs account w :
  let out := check_account E config logs account w in
  (result_of out = Ok logs
   /\ api_calls (trace_of out) = [validate_request account]
   /\ List.length (notifications (trace_of out)) = 1%nat)
  \/ (result_of out = Ok logs
      /\ api_calls (trace_of out) = [validate_request account; traffic_request account]
      /\ List.length (notifications (trace_of out)) = 1%nat)
  \/ (exists o log,
         let a := reconcile (ob_is_enabled o) (ob_usage o) in
         result_of out = Ok (logs ++ [log])%list
         /\ record_of account log
         /\ api_calls (trace_of out)
            = (validate_request account
               :: observation_requests account (ob_security_group_id o)
               ++ toggle_requests account o a)%list
         /\ List.length (notifications (trace_of out))
            = List.length (toggle_requests account o a)).
Proof.
  intros out. subst out.
  destruct (call_api E (validate_request account) w) as [r w0] eqn:Hcall.
  destruct (validation_fails account r) eqn:Hfail.
  - left.
    pose proof (validate_run_fail E account config w r w0 Hcall Hfail) as Hv.
    rewrite (check_account_invalid E config logs account w _ _ Hv).
    destruct (send_notification_trace E
                (validation_record account (validation_message account r)) config w0)
      as (Hn & _ & Hc).
    unfold result_of, trace_of, api_calls, notifications in *. cbn [fst snd flat_map].
    cbn [call_of notification_of app]. rewrite Hn, Hc. repeat split.
  - right.
    pose proof (validate_run_ok E account config w r w0 Hcall Hfail) as Hv.
    destruct (check_observe_run E account w0)
      as (traffic & wA & tA & Ht & _ & HcA & _ & _ & Hobs).
    destruct (usage_percentage traffic (maxTraffic account)) as [usage|e].
    + right. destruct Hobs as (o & w1 & t & Ho & _ & _ & Hc & _).
      pose proof (check_observe_message E account w0 o w1 t Ho) as Hmsg.
      destruct (check_reconcile_run E account config o w1 Hmsg)
        as (sent & w2 & t2 & Hr & Hc2 & Hcase).
      destruct (check_account_observed E config logs account w w0 _ o w1 t Hv Ho)
        as (log & Hlog & Hrun).
      rewrite Hr in Hlog, Hrun. unfold result_of, world_of, trace_of in Hlog, Hrun.
      cbn [fst snd] in Hlog, Hrun. injection Hlog as <-.
      exists o. eexists. cbv zeta. rewrite Hrun.
      unfold result_of, trace_of. cbn [fst snd].
      split; [reflexivity|]. split.
      * destruct (check_observe_log E account w0 o w1 t Ho) as (tr & ex & ip & _ & Hl).
        unfold record_of. rewrite Hl. split; reflexivity.
      * unfold api_calls, notifications in *. rewrite !flat_map_app.
        cbn [flat_map call_of notification_of app]. rewrite Hc, Hc2.
        split; [reflexivity|].
        pose proof (check_observe_no_notify E account w0) as Hq.
        rewrite Ho in Hq. unfold trace_of in Hq. cbn [snd] in Hq. rewrite Hq.
        cbn [app].
        destruct (reconcile (ob_is_enabled o) (ob_usage o)).
        -- destruct Hcase as (_ & -> & _). reflexivity.
        -- destruct Hcase as [-> _]. reflexivity.
        -- destruct Hcase as [-> _]. reflexivity.
    + left.
      rewrite (check_account_failed E config logs account w w0 _ e wA tA Hv Hobs).
      destruct (send_notification_trace E (check_error_record account (exc_msg e))
                  config wA) as (Hn & _ & Hc).
      unfold result_of, trace_of, api_calls, notifications in *. cbn [fst snd].
      rewrite !flat_map_app. cbn [flat_map call_of notification_of app].
      rewrite Hn, Hc, HcA.
      pose proof (get_traffic_no_notify E (AccessKeyId account) (AccessKeySecret account) w0)
        as Hq.
      rewrite Ht in Hq. unfold trace_of in Hq. cbn [snd] in Hq. rewrite Hq.
      repeat split.
Qed.

End AccountRun.

Lemma observation_requests_mutating_with account sg o a :
  filter is_mutating (observation_requests account sg ++ toggle_requests account o a)
  = toggle_requests account o a.
Proof. now destruct a. Qed.

Section Decided.
Context (E : Env).



End Decided.

Lemma subseq_length {A} (l1 l2 : list A) : subseq l1 l2 -> (List.length l1 <= List.length l2)%nat.
Proof. induction 1; cbn; lia. Qed.

Lemma subseq_refl_nil {A} (l : list A) : subseq [] l.
Proof. induction l; constructor; assumption. Qed.

Lemma validations_app (t1 t2 : list event) :
  validations (t1 ++ t2) = (validations t1 ++ validations t2)%list.
Proof. unfold validations, api_calls. now rewrite flat_map_app, filter_app. Qed.

Lemma observation_requests_not_validation account sg a o :
  filter is_validation (observation_requests account sg ++ toggle_requests account o a) = [].
Proof. now destruct a. Qed.

(** [silent], with a lemma for the computations it should not open. *)
Ltac silent_upto known :=
  unfold print;
  repeat first
    [ known
    | apply emits_none_ret
    | apply emits_none_raise
    | apply emits_none_lift
    | apply emits_none_emit; reflexivity
    | apply emits_none_api_call; reflexivity
    | apply emits_none_transport_call; reflexivity
    | apply emits_none_bind; [ | intros ? ]
    | apply emits_none_try; [ | intros ? ]
    | match goal with
      | |- emits_none _ (if ?b then _ else _) => destruct b
      | |- emits_none _ (match ?x with _ => _ end) => destruct x
      end ].

Section LoopRun.
Context (E : Env).

Lemma send_notification_writes_nothing log config :
  emits_none write_of (send_notification E log config).
Proof.
  unfold send_notification, fanout, attempt, send_email_notification,
    send_bark_notification, send_tg_notification, send_webhook_notification,
    send_qywx_notification.
  silent.
Qed.

Lemma check_account_writes_nothing config logs account :
  emits_none write_of (check_account E config logs account).
Proof.
  unfold check_account, validate_credentials_and_instance, check_observe, check_reconcile,
    get_traffic, get_security_group_id, get_instance_details,
    is_security_group_rule_enabled, disable_security_group_rule,
    enable_security_group_rule.
  cbv zeta.
  silent_upto ltac:(apply send_notification_writes_nothing).
Qed.

Lemma check_account_summary config logs account w :
  let out := check_account E config logs account w in
  exists kept logs',
    result_of out = Ok (logs ++ logs')%list
    /\ subseq kept [account]
    /\ Forall2 record_of kept logs'
    /\ validations (trace_of out) = [validate_request account]
    /\ (List.length (mutating_calls (trace_of out))
        <= List.length (notifications (trace_of out)) <= 1)%nat
    /\ written (trace_of out) = [].
Proof.
  intros out. subst out.
  pose proof (check_account_writes_nothing config logs account w) as Hw.
  destruct (check_account_run E config logs account w)
    as [(Hr & Hc & Hn)|[(Hr & Hc & Hn)|(o & log & Hr & Hrec & Hc & Hn)]].
  - exists [], []. rewrite app_nil_r. split; [exact Hr|].
    split; [apply subseq_refl_nil|]. split; [constructor|].
    unfold validations. rewrite mutating_calls_filter, Hc, Hn.
    repeat split; cbn; trivial; lia.
  - exists [], []. rewrite app_nil_r. split; [exact Hr|].
    split; [apply subseq_refl_nil|]. split; [constructor|].
    unfold validations. rewrite mutating_calls_filter, Hc, Hn.
    repeat split; cbn; trivial; lia.
  - exists [account], [log]. split; [exact Hr|].
    split; [apply subseq_keep, subseq_nil|].
    split; [apply Forall2_cons; [exact Hrec|apply Forall2_nil]|].
    unfold validations. rewrite mutating_calls_filter, Hc, Hn.
    cbn [filter is_validation validate_request is_mutating].
    rewrite observation_requests_not_validation, observation_requests_mutating_with.
    pose proof (toggle_requests_length account o
                  (reconcile (ob_is_enabled o) (ob_usage o))).
    repeat split; trivial; lia.
Qed.

Lemma subseq_app {A} (k1 k2 l1 l2 : list A) :
  subseq k1 l1 -> subseq k2 l2 -> subseq (k1 ++ k2) (l1 ++ l2).
Proof.
  induction 1; intros H2; cbn; [exact H2|apply subseq_skip|apply subseq_keep]; auto.
Qed.

(** The loop of [check]: what holds after any number of accounts. *)
Lemma check_loop_summary config accounts :
  forall logs w,
    let out := check_loop E config accounts logs w in
    exists kept logs',
      result_of out = Ok (logs ++ logs')%list
      /\ subseq kept accounts
      /\ Forall2 record_of kept logs'
      /\ validations (trace_of out) = map validate_request accounts
      /\ (List.length (mutating_calls (trace_of out))
          <= List.length (notifications (trace_of out)) <= List.length accounts)%nat
      /\ written (trace_of out) = [].
Proof.
  induction accounts as [|account rest IH]; intros logs w out; subst out.
  - exists [], []. cbn. rewrite app_nil_r. repeat split; try constructor; lia.
  - destruct (check_account_summary config logs account w)
      as (k1 & l1 & Hr1 & Hs1 & Hf1 & Hv1 & Hm1 & Hw1).
    destruct (check_account E config logs account w) as [[r1 w1] t1] eqn:Hca.
    unfold result_of, trace_of in Hr1, Hv1, Hm1, Hw1. cbn [fst snd] in Hr1, Hv1, Hm1, Hw1.
    subst r1.
    destruct (IH (logs ++ l1)%list w1) as (k2 & l2 & Hr2 & Hs2 & Hf2 & Hv2 & Hm2 & Hw2).
    destruct (check_loop E config rest (logs ++ l1)%list w1) as [[r2 w2] t2] eqn:Hrest.
    unfold result_of, trace_of in Hr2, Hv2, Hm2, Hw2. cbn [fst snd] in Hr2, Hv2, Hm2, Hw2.
    subst r2.
    exists (k1 ++ k2)%list, (l1 ++ l2)%list.
    assert (Hrun : check_loop E config (account :: rest) logs w
                   = (Ok ((logs ++ l1) ++ l2)%list, w2, (t1 ++ t2)%list)).
    { cbn [check_loop]. eapply bind_step; [exact Hca|exact Hrest]. }
    rewrite Hrun. clear Hrun.
    unfold result_of, trace_of. cbn [fst snd].
    rewrite app_assoc. split; [reflexivity|].
    split; [apply (subseq_app k1 k2 [account] rest Hs1 Hs2)|].
    split; [apply Forall2_app; assumption|].
    rewrite validations_app, Hv1, Hv2.
    unfold mutating_calls, notifications, written in *. rewrite !flat_map_app, !length_app.
    rewrite Hw1, Hw2. cbn [map app List.length].
    repeat split; trivial; lia.
Qed.

End LoopRun.

Section CheckRun.
Context (E : Env).

(** A whole run of [check]: the loop, then the log. *)
Lemma check_run accounts config w :
  exists kept logs w1 t,
    check E accounts config w = (Ok tt, w1, (t ++ [EWriteLog logs])%list)
    /\ subseq kept accounts
    /\ Forall2 record_of kept logs
    /\ validations t = map validate_request accounts
    /\ (List.length (mutating_calls t) <= List.length (notifications t)
        <= List.length accounts)%nat
    /\ written t = [].
Proof.
  destruct (check_loop_summary E config accounts [] w)
    as (kept & logs & Hr & Hs & Hf & Hv & Hm & Hw).
  destruct (check_loop E config accounts [] w) as [[r w1] t] eqn:Hloop.
  unfold result_of, trace_of in Hr, Hv, Hm, Hw. cbn [fst snd app] in Hr, Hv, Hm, Hw.
  subst r. exists kept, logs, w1, t.
  split; [|now repeat split].
  unfold check. eapply bind_step; [exact Hloop|reflexivity].
Qed.

End CheckRun.

(* ================================================================= *)
(** ** The observation of [check] *)

(** X1. An observation that returns has issued exactly the four queries,
    in the order of the source: traffic, security group of the instance,
    details of the instance, rules of the security group.  The group it
    asks the rules of is the first one the second query answered, and no
    group at all when that query raised or answered none: the run goes on
    without it.  An observation changes no security group and delivers
    nothing. *)
Theorem observation_queries_in_order
    (E : Env) (account : Account) (w w1 : world E) (o : observation) (t : list event) :
  check_observe E account w = (Ok o, w1, t) ->
  api_calls t = observation_requests account (ob_security_group_id o)
  /\ ob_security_group_id o
     = first_group (fst (call_api E (group_request account)
                           (snd (call_api E (traffic_request account) w))))
  /\ mutating_calls t = []
  /\ notifications t = []
  /\ deliveries t = [].
Proof.
  intros Ho.
  destruct (check_observe_run E account w)
    as (traffic & wA & tA & _ & -> & _ & _ & _ & Hobs).
  destruct (usage_percentage traffic (maxTraffic account)) as [usage|e].
  - destruct Hobs as (o' & w1' & t' & Ho' & _ & Hsg & Hc & Hd).
    rewrite Ho in Ho'. injection Ho' as <- <- <-.
    split; [exact Hc|]. split; [exact Hsg|].
    rewrite mutating_calls_filter, Hc.
    pose proof (check_observe_no_notify E account w) as Hn.
    rewrite Ho in Hn. now repeat split.
  - rewrite Ho in Hobs. discriminate.
Qed.

Lemma observation_queries_in_order_witness :
  api_calls (trace_of (check_observe (sim_env demo_scenario) demo_account true))
  = [ ListCdtInternetTraffic "LTAI-demo-key" "secret";
      DescribeInstanceAttribute "LTAI-demo-key" "secret" "cn-hongkong" "i-demo";
      DescribeInstances "LTAI-demo-key" "secret" "cn-hongkong" (Some "i-demo");
      DescribeSecurityGroupAttribute "LTAI-demo-key" "secret" "cn-hongkong"
        (Some "sg-demo") ].
Proof.
  eassert (H : check_observe (sim_env demo_scenario) demo_account true = (Ok _, _, _))
    by (vm_compute; reflexivity).
  rewrite H.
  exact (proj1 (observation_queries_in_order (sim_env demo_scenario) demo_account
                  true _ _ _ H)).
Defined.

Lemma usage_raise_cases traffic quota e :
  (traffic = PInt 0 \/ exists f, traffic = PFloat f) ->
  usage_percentage traffic quota = Raise e ->
  e = ZeroDivisionError "division by zero"
  \/ e = ZeroDivisionError "float division by zero"
  \/ e = OverflowError "int too large to convert to float".
Proof.
  unfold usage_percentage, py_truediv.
  intros [->|[f ->]]; destruct quota as [y|y].
  - unfold int_truediv. cbn [Z.abs]. destruct (Z.abs y); try discriminate.
    intros [= <-]. now left.
  - change (float_of_int 0) with (@Ok float 0%float).
    unfold float_truediv. destruct (PrimFloat.eqb y 0); try discriminate.
    intros [= <-]. right. now left.
  - unfold float_of_int.
    destruct (binary_normalize prec emax y 0 false); unfold float_truediv;
      try (destruct (PrimFloat.eqb _ 0); try discriminate; intros [= <-]; right; now left).
    intros [= <-]. right. now right.
  - unfold float_truediv. destruct (PrimFloat.eqb y 0); try discriminate.
    intros [= <-]. right. now left.
Qed.

(** X2. An observation can fail in one way only: the usage evaluation
    raises, on the division.  Then the traffic query is the only call
    that was made, and the exception is one of three: the division of the
    integer 0 by an integer 0, a float division by zero, or an integer
    quota too large to convert to a float.  No failing query makes an
    observation fail. *)
Theorem observation_fails_only_on_usage
    (E : Env) (account : Account) (w w1 : world E) (e : exc) (t : list event) :
  check_observe E account w = (Raise e, w1, t) ->
  (exists traffic,
      result_of (get_traffic E (AccessKeyId account) (AccessKeySecret account) w)
      = Ok traffic
      /\ usage_percentage traffic (maxTraffic account) = Raise e)
  /\ api_calls t = [traffic_request account]
  /\ (e = ZeroDivisionError "division by zero"
      \/ e = ZeroDivisionError "float division by zero"
      \/ e = OverflowError "int too large to convert to float").
Proof.
  intros Ho.
  destruct (check_observe_run E account w)
    as (traffic & wA & tA & Ht & _ & Hc & _ & Hshape & Hobs).
  destruct (usage_percentage traffic (maxTraffic account)) as [usage|e'] eqn:Hu.
  - destruct Hobs as (o' & w1' & t' & Ho' & _). rewrite Ho in Ho'. discriminate.
  - rewrite Ho in Hobs. injection Hobs as -> -> ->.
    split; [|split; [exact Hc|]].
    + exists traffic. rewrite Ht. split; [reflexivity|exact Hu].
    + exact (usage_raise_cases traffic (maxTraffic account) e' Hshape Hu).
Qed.

Lemma observation_fails_only_on_usage_witness :
  api_calls
    (trace_of (check_observe (sim_env demo_scenario)
                 (mkAccount (Some "demo") "LTAI-demo-key" "secret" "cn-hongkong" "i-demo"
                    (PInt 0) None None) true))
  = [ListCdtInternetTraffic "LTAI-demo-key" "secret"].
Proof.
  eassert (H : check_observe (sim_env demo_scenario)
                 (mkAccount (Some "demo") "LTAI-demo-key" "secret" "cn-hongkong" "i-demo"
                    (PInt 0) None None) true = (Raise _, _, _))
    by (vm_compute; reflexivity).
  rewrite H.
  exact (proj1 (proj2 (observation_fails_only_on_usage (sim_env demo_scenario) _
                         true _ _ _ H))).
Defined.

Lemma usage_defined traffic quota :
  (traffic = PInt 0 \/ exists f, traffic = PFloat f) ->
  quota_divides quota ->
  exists usage, usage_percentage traffic quota = Ok usage.
Proof.
  unfold usage_percentage, py_truediv, quota_divides.
  intros [->|[f ->]]; destruct quota as [m|fq]; intros Hq.
  - destruct m as [|pm|pm]; try lia. cbn. eexists. reflexivity.
  - change (float_of_int 0) with (@Ok float 0%float).
    unfold float_truediv. rewrite Hq. eexists. reflexivity.
  - destruct (float_of_quota m Hq) as (fm & p & e & Hsf & Hf & _).
    rewrite Hf. unfold float_truediv.
    rewrite (float_finite_nonzero fm false p e Hsf). eexists. reflexivity.
  - unfold float_truediv. rewrite Hq. eexists. reflexivity.
Qed.

(** X3. With a quota the usage evaluation can divide by (an integer from
    1 to below 2^53, or a float other than zero) an observation always
    returns, whatever the four queries answer or raise: the check then
    reaches its decision. *)
Theorem observation_returns_when_quota_divides
    (E : Env) (account : Account) (w : world E) :
  quota_divides (maxTraffic account) ->
  exists o w1 t traffic,
    check_observe E account w = (Ok o, w1, t)
    /\ result_of (get_traffic E (AccessKeyId account) (AccessKeySecret account) w)
       = Ok traffic
    /\ usage_percentage traffic (maxTraffic account) = Ok (ob_usage o).
Proof.
  intros Hq.
  destruct (check_observe_run E account w)
    as (traffic & wA & tA & Ht & _ & _ & _ & Hshape & Hobs).
  destruct (usage_defined traffic (maxTraffic account) Hshape Hq) as [usage Hu].
  rewrite Hu in Hobs. destruct Hobs as (o & w1 & t & Ho & Hus & _).
  exists o, w1, t, traffic. split; [exact Ho|].
  rewrite Ht. split; [reflexivity|]. now rewrite Hus.
Qed.

Lemma observation_returns_when_quota_divides_witness :
  exists o w1 t, check_observe (sim_env demo_scenario) demo_account true = (Ok o, w1, t).
Proof.
  destruct (observation_returns_when_quota_divides (sim_env demo_scenario) demo_account true)
    as (o & w1 & t & traffic & Ho & _).
  - cbn. lia.
  - now exists o, w1, t.
Defined.

(* ================================================================= *)
(** ** The loop body and the loop of [check] *)





(* ================================================================= *)
(** ** A failed traffic query *)





(* ================================================================= *)
(** ** The last member of a run-log record *)

Section SentMember.
Context (E : Env).

Lemma outcome_map_keys message title_ late_title config w :
  map fst (outcome_map E message title_ late_title config w) = enabled_channels config.
Proof.
  unfold outcome_map, enabled_channels. cbv zeta. rewrite !map_app.
  destruct (enableEmail config), (enableBark config), (enableTG config),
    (enableWebhook config), (enableQywx config); reflexivity.
Qed.



End SentMember.



(* ================================================================= *)
(** ** The text of a notification *)

(** X11. The text of [send_notification].  A record with the member
    [错误信息] always has a text, whatever else it lacks.  A record without
    it needs the nine members of the status text: when one is missing,
    building the text raises [KeyError] for the first missing one, in the
    order the text reads them, and [send_notification] raises it before
    any channel is attempted. *)
Theorem status_record_needs_its_members (log : log_record) :
  (dict_mem log "错误信息" = true -> exists text, notification_message log = Ok text)
  /\ (dict_mem log "错误信息" = false ->
      match first_missing log status_keys with
      | None => exists text, notification_message log = Ok text
      | Some k =>
          notification_message log = Raise (KeyError k)
          /\ forall (E : Env) (config : NotificationConfig) (w : world E),
              send_notification E log config w = (Raise (KeyError k), w, [ENotify log])
      end).
Proof.
  split.
  - unfold notification_message, dict_mem, dict_index. intros H. rewrite H.
    destruct (dict_get log "错误信息"); [|discriminate].
    destruct (dict_get log "实例ID"); eexists; reflexivity.
  - intros H.
    assert (Hsend : forall k, notification_message log = Raise (KeyError k) ->
              forall (E : Env) (config : NotificationConfig) (w : world E),
                send_notification E log config w = (Raise (KeyError k), w, [ENotify log])).
    { intros k Hk E config w. unfold send_notification, bind, emit, lift. now rewrite Hk. }
    unfold first_missing, status_keys.
    assert (Hmsg : notification_message log
                   = match dict_index log "服务器" with
                     | Raise e => Raise e
                     | Ok v1 =>
                     match dict_index log "实例ID" with
                     | Raise e => Raise e
                     | Ok v2 =>
                     match dict_index log "公网IP地址" with
                     | Raise e => Raise e
                     | Ok v3 =>
                     match dict_index log "实例到期时间" with
                     | Raise e => Raise e
                     | Ok v4 =>
                     match dict_index log "总流量" with
                     | Raise e => Raise e
                     | Ok v5 =>
                     match dict_index log "已使用流量" with
                     | Raise e => Raise e
                     | Ok v6 =>
                     match dict_index log "使用百分比" with
                     | Raise e => Raise e
                     | Ok v7 =>
                     match dict_index log "地区" with
                     | Raise e => Raise e
                     | Ok v8 =>
                     match dict_index log "安全组状态" with
                     | Raise e => Raise e
                     | Ok v9 =>
                         Ok ("服务器: " ++ v1 ++ LF
                             ++ "实例ID: " ++ v2 ++ LF
                             ++ "实例IP: " ++ v3 ++ LF
                             ++ "到期时间: " ++ v4 ++ LF
                             ++ "CDT总流量: " ++ v5 ++ LF
                             ++ "已使用流量: " ++ v6 ++ LF
                             ++ "使用百分比: " ++ v7 ++ LF
                             ++ "地区: " ++ v8 ++ LF
                             ++ "安全组状态: " ++ v9 ++ LF)
                     end end end end end end end end end).
    { unfold notification_message. now rewrite H. }
    unfold dict_index, dict_mem in *.
    repeat match goal with
           | |- context [dict_get log ?k] =>
               lazymatch goal with
               | Hk : dict_get log k = _ |- _ => fail
               | _ => idtac
               end;
               destruct (dict_get log k) eqn:?;
               [ | split; [exact Hmsg | exact (Hsend _ Hmsg)] ]
           end.
    eexists. exact Hmsg.
Qed.

(* ================================================================= *)
(** ** The channels *)

Section ChannelFacts.
Context (E : Env).

Lemma run_attempts_forall (P : transport -> Prop) chs :
  all_total chs ->
  (forall key send w, In (true, key, send) chs ->
                      Forall P (deliveries (trace_of (send w)))) ->
  forall results w, Forall P (deliveries (trace_of (run_attempts E chs results w))).
Proof.
  induction chs as [|[[enabled key] send] rest IH]; intros Htot HP results w.
  - constructor.
  - assert (Hsend : never_raises send) by (apply (Htot (enabled, key, send)); now left).
    destruct (attempt_run E enabled key send results w Hsend) as (v & Ha & _).
    cbn [run_attempts].
    rewrite (bind_ok _ _ _ _ _ _ Ha). unfold trace_of at 1. cbn [snd].
    unfold deliveries. rewrite flat_map_app. apply Forall_app. split.
    + destruct enabled; [|constructor].
      apply (HP key send w). now left.
    + apply IH.
      * intros ch Hin. apply Htot. now right.
      * intros k s w' Hin. apply (HP k s w'). now right.
Qed.

Lemma send_qywx_deliveries message title_ config w :
  Forall (fun t => channel_enabled config t = enableQywx config)
    (deliveries (trace_of (send_qywx_notification E message title_ (touser config)
                             (corpid config) (corpsecret config) (agentid config)
                             (baseApiUrl config) (picUrl config) w))).
Proof.
  unfold send_qywx_notification, try_except, bind, transport_call, raise, print, emit, ret.
  destruct (deliver E _ w) as [[[tok|]|e] w1]; cbn.
  - destruct (deliver E _ w1) as [[[[| |]|]|e] w2]; cbn; repeat constructor.
  - repeat constructor.
  - repeat constructor.
Qed.

End ChannelFacts.

(** X12. The fanout contacts no channel the configuration does not
    enable: every delivery it starts belongs to an enabled channel (SMTP
    to email; a GET without parameters to Bark or the webhook; a GET with
    parameters to Telegram; the token GET and the JSON POST to the
    enterprise chat).  With no channel enabled it starts no delivery and
    [send_notification] still answers [True]. *)
Theorem fanout_skips_disabled_channels
    (E : Env) (log : log_record) (message title_ : string) (config : NotificationConfig)
    (w : world E) :
  Forall (fun t => channel_enabled config t = true)
    (deliveries (trace_of (fanout E message title_ config w)))
  /\ (enabled_channels config = [] ->
      deliveries (trace_of (fanout E message title_ config w)) = []
      /\ (notification_message log = Ok message ->
          result_of (send_notification E log config w) = Ok NTrue)).
Proof.
  assert (Hall : Forall (fun t => channel_enabled config t = true)
                   (deliveries (trace_of (fanout E message title_ config w)))).
  { rewrite fanout_as_attempts. apply run_attempts_forall.
    - apply channels_total.
    - intros key send w' Hin. unfold channels in Hin. cbn [In] in Hin.
      destruct Hin as [Hin|[Hin|[Hin|[Hin|[Hin|[]]]]]]; injection Hin as Hen _ <-.
      + destruct (send_email_run E message title_ config w') as (_ & _ & ->).
        repeat constructor. exact Hen.
      + destruct (send_bark_run E message config w') as (_ & _ & ->).
        repeat constructor. cbn. now rewrite Hen.
      + destruct (send_tg_run E message config w') as (_ & _ & ->).
        repeat constructor. exact Hen.
      + destruct (send_webhook_run E message title_ config w') as (_ & _ & ->).
        repeat constructor. cbn. rewrite Hen. apply orb_true_r.
      + pose proof (send_qywx_deliveries E message title_ config w') as Hq.
        rewrite Hen in Hq. exact Hq. }
  split; [exact Hall|].
  intros Hnone.
  assert (Hflags : enableEmail config = false /\ enableBark config = false
                   /\ enableTG config = false /\ enableWebhook config = false
                   /\ enableQywx config = false).
  { unfold enabled_channels in Hnone.
    destruct (enableEmail config), (enableBark config), (enableTG config),
      (enableWebhook config), (enableQywx config); try discriminate; now repeat split. }
  destruct Hflags as (He & Hb & Ht & Hw & Hq).
  assert (Hrun : fanout E message title_ config w = (Ok [], w, [])).
  { unfold fanout, attempt. rewrite He, Hb, Ht, Hw, Hq. reflexivity. }
  rewrite Hrun. split; [reflexivity|].
  intros Hm. destruct (send_notification_run E log config message w Hm) as (results & Hf & Hs).
  rewrite Hs. unfold result_of. cbn [fst]. do 2 f_equal.
  assert (Hrun' : fanout E message (get_default (title config) "CDT流量统计") config w
                  = (Ok [], w, [])).
  { unfold fanout, attempt. rewrite He, Hb, Ht, Hw, Hq. reflexivity. }
  rewrite Hrun' in Hf. now injection Hf as <-.
Qed.

(** X13. The enterprise-chat channel posts only with a token.  When the
    token request raises or its answer has no [access_token], that
    request is the only delivery and the outcome is [False].  With a
    token, the message is posted once, to the send URL carrying that
    token, from the state the token request left, and the outcome is
    [True] exactly when the answer has [errcode] 0. *)
Theorem qywx_posts_only_with_token
    (E : Env) (message title_ : string) (config : NotificationConfig) (w : world E) :
  let out := send_qywx_notification E message title_ (touser config) (corpid config)
               (corpsecret config) (agentid config) (baseApiUrl config) (picUrl config) w in
  let token := deliver E (qywx_token_request config) w in
  match fst token with
  | Ok (Some access_token) =>
      let post := deliver E (qywx_send_request message title_ config access_token)
                    (snd token) in
      result_of out = Ok (match fst post with Ok (Some 0) => JTrue | _ => JFalse end)
      /\ world_of out = snd post
      /\ deliveries (trace_of out)
         = [qywx_token_request config; qywx_send_request message title_ config access_token]
  | _ =>
      result_of out = Ok JFalse
      /\ world_of out = snd token
      /\ deliveries (trace_of out) = [qywx_token_request config]
  end.
Proof.
  intros out token. subst out token.
  unfold send_qywx_notification, qywx_token_request, qywx_send_request, try_except, bind,
    transport_call, raise, print, emit, ret.
  destruct (deliver E _ w) as [[[tok|]|e] w1]; cbn.
  - destruct (deliver E _ w1) as [[[[| |]|]|e] w2]; cbn; repeat split.
  - repeat split.
  - repeat split.
Qed.

(* ================================================================= *)
(** ** The details of an instance *)

(** X14. [get_instance_details] always answers a dictionary with exactly
    the two members [到期时间] and [公网IP地址], after its one call: both
    are [查询失败] when the call raises; they are the two defaults when
    the answer lists no instance; otherwise they come from the first
    instance listed, a missing expiry reading as [无到期时间] and a missing
    or empty address as [无公网 IP 地址].  The address is never empty, and
    reading either member never fails. *)
Theorem get_instance_details_members
    (E : Env) (ak sk instance region : string) (w : world E) :
  let out := get_instance_details E ak sk instance region w in
  let answer := fst (call_api E (DescribeInstances ak sk region (Some instance)) w) in
  exists expiry ip,
    result_of out = Ok [("到期时间", expiry); ("公网IP地址", ip)]
    /\ api_calls (trace_of out) = [DescribeInstances ak sk region (Some instance)]
    /\ ip <> ""
    /\ match answer with
       | Raise _ => expiry = "查询失败" /\ ip = "查询失败"
       | Ok found =>
           match get_default found [] with
           | [] => expiry = "无到期时间" /\ ip = "无公网 IP 地址"
           | first :: _ =>
               expiry = get_default (ExpiredTime first) "无到期时间"
               /\ ip = match EipAddress_IpAddress first with
                       | Some "" | None => "无公网 IP 地址"
                       | Some address => address
                       end
           end
       end.
Proof.
  intros out answer. subst out answer.
  unfold get_instance_details, try_except, bind, api_call, raise, print, emit, ret.
  destruct (call_api E _ w) as [[[[|inst rest]|]|e] w1]; cbn;
    try (do 2 eexists; repeat split; discriminate).
  destruct (EipAddress_IpAddress inst) as [[|c s]|];
    do 2 eexists; repeat split; discriminate.
Qed.

(* ================================================================= *)
(** ** The body of the email *)

Lemma has_byte_app c s1 s2 : has_byte c (s1 ++ s2) = has_byte c s1 || has_byte c s2.
Proof.
  induction s1 as [|d s1 IH]; [reflexivity|].
  cbn. now rewrite IH, orb_assoc.
Qed.

Lemma length_app_string s1 s2 :
  String.length (s1 ++ s2) = (String.length s1 + String.length s2)%nat.
Proof. induction s1 as [|d s1 IH]; cbn; [reflexivity|now rewrite IH]. Qed.

(** X15. The HTML body of the email is the message with every line feed
    replaced by [<br>]: it holds no line feed, it is three bytes longer
    per line feed of the message, and a message without a line feed is
    sent as it is.  The sender starts exactly this one delivery, with the
    title as subject, over STARTTLS exactly when [secure] is [tls]. *)
Theorem email_body_has_no_line_feed
    (E : Env) (message title_ : string) (config : NotificationConfig) (w : world E) :
  let lf := ascii_of_nat 10 in
  let html := replace_char lf "<br>" message in
  has_byte lf html = false
  /\ String.length html = (String.length message + 3 * count_byte lf message)%nat
  /\ (has_byte lf message = false -> html = message)
  /\ deliveries (trace_of (send_email_notification E message title_ config w))
     = [SmtpSend (match secure config with Some s => String.eqb s "tls" | None => false end)
          (host config) (port config) (username config) (password config) (email config)
          title_ html].
Proof.
  intros lf html. subst html.
  split; [|split; [|split]].
  - induction message as [|d r IH]; [reflexivity|].
    cbn [replace_char]. destruct (Ascii.eqb lf d) eqn:Hd.
    + rewrite has_byte_app, IH. reflexivity.
    + cbn [has_byte]. now rewrite Hd, IH.
  - induction message as [|d r IH]; [reflexivity|].
    cbn [replace_char count_byte]. destruct (Ascii.eqb lf d).
    + rewrite length_app_string, IH. cbn [String.length]. lia.
    + cbn [String.length]. rewrite IH. lia.
  - induction message as [|d r IH]; [reflexivity|].
    cbn [replace_char has_byte]. destruct (Ascii.eqb lf d); [discriminate|].
    cbn [orb]. intros Hr. now rewrite IH.
  - now destruct (send_email_run E message title_ config w) as (_ & _ & ->).
Qed.

(* ================================================================= *)
(** ** The daily job *)

Section DailyFanout.
Context (E : Env).

Lemma daily_channels_total message traffic config :
  all_total (daily_channels E message traffic config).
Proof.
  intros ch Hin. unfold daily_channels in Hin. cbn [In] in Hin.
  destruct Hin as [<-|[<-|[<-|[<-|[<-|[]]]]]]; cbn [snd].
  - apply send_email_total.
  - apply send_bark_total.
  - apply send_tg_total.
  - apply send_webhook_total.
  - apply send_qywx_total.
Qed.

Lemma daily_channels_keys message traffic config :
  enabled_keys (daily_channels E message traffic config) = enabled_channels config.
Proof.
  unfold enabled_keys, daily_channels, enabled_channels.
  destruct (enableEmail config), (enableBark config), (enableTG config),
    (enableWebhook config), (enableQywx config); reflexivity.
Qed.

Lemma daily_message_as_attempts message traffic config w :
  send_daily_notification_message E message traffic config w
  = bind (emit (EDigest message))
      (fun _ =>
         bind (run_attempts E (daily_channels E message traffic config) [])
           (fun results =>
              if existsb (fun kv => is_not_True (snd kv)) results
              then bind (print ("通知发送失败: " ++ dumps results)) (fun _ => ret false)
              else bind (print "通知发送成功") (fun _ => ret true))) w.
Proof.
  unfold send_daily_notification_message, daily_channels. cbn [run_attempts].
  apply bind_ext. intros _ w1.
  unfold bind.
  destruct (attempt E (enableEmail config) "email" _ [] w1) as [[[r1|e1] v1] t1];
    [|reflexivity].
  destruct (attempt E (enableBark config) "bark" _ r1 v1) as [[[r2|e2] v2] t2];
    [|reflexivity].
  destruct (attempt E (enableTG config) "tg" _ r2 v2) as [[[r3|e3] v3] t3];
    [|reflexivity].
  destruct (attempt E (enableWebhook config) "webhook" _ r3 v3) as [[[r4|e4] v4] t4];
    [|reflexivity].
  destruct (attempt E (enableQywx config) "qywx" _ r4 v4) as [[[r5|e5] v5] t5];
    [|reflexivity].
  cbn. rewrite !app_nil_r.
  destruct (existsb _ r5); cbn; now rewrite <- ?app_assoc.
Qed.

End DailyFanout.

Section DailyFanoutRun.
Context (E : Env) {X : Type} (f : event -> list X).
Hypothesis f_send : forall t, f (ESend t) = [].
Hypothesis f_print : forall s, f (EPrint s) = [].

Lemma run_attempts_silent chs :
  (forall ch, In ch chs -> emits_none f (snd ch)) ->
  forall results, emits_none f (run_attempts E chs results).
Proof.
  induction chs as [|[[enabled key] send] rest IH]; intros Hs results.
  - apply emits_none_ret.
  - cbn [run_attempts]. apply emits_none_bind.
    + unfold attempt. destruct enabled; [|apply emits_none_ret].
      apply emits_none_bind; [|intros ?; apply emits_none_ret].
      apply (Hs (true, key, send)). now left.
    + intros results1. apply IH. intros ch Hin. apply Hs. now right.
Qed.

Lemma daily_channels_silent message traffic config :
  forall ch, In ch (daily_channels E message traffic config) -> emits_none f (snd ch).
Proof.
  intros ch Hin. unfold daily_channels in Hin. cbn [In] in Hin.
  destruct Hin as [<-|[<-|[<-|[<-|[<-|[]]]]]]; cbn [snd];
    unfold send_email_notification, send_bark_notification, send_tg_notification,
      send_webhook_notification, send_qywx_notification, print;
    repeat first
      [ apply emits_none_ret
      | apply emits_none_raise
      | apply emits_none_emit; apply f_print
      | apply emits_none_transport_call; apply f_send
      | apply emits_none_bind; [ | intros ? ]
      | apply emits_none_try; [ | intros ? ]
      | match goal with
        | |- emits_none _ (match ?x with _ => _ end) => destruct x
        end ].
Qed.

End DailyFanoutRun.

Section DailyMessage.
Context (E : Env).

(** The run of [send_daily_notification_message]: the digest, the
    attempts of the enabled channels, the summary line. *)
Lemma daily_message_run message traffic config w :
  exists results w1 t,
    send_daily_notification_message E message traffic config w
    = (Ok (negb (existsb (fun kv => is_not_True (snd kv)) results)), w1,
       (EDigest message :: t
        ++ [EPrint (if existsb (fun kv => is_not_True (snd kv)) results
                    then "通知发送失败: " ++ dumps results
                    else "通知发送成功")])%list)
    /\ map fst results = enabled_channels config
    /\ api_calls t = []
    /\ notifications t = []
    /\ digests t = []
    /\ written t = []
    /\ Forall (fun d => channel_enabled config d = true) (deliveries t).
Proof.
  pose proof (run_attempts_total E (daily_channels E message traffic config)
                (daily_channels_total E message traffic config) [] w) as [results Hr].
  destruct (run_attempts E (daily_channels E message traffic config) [] w)
    as [[r w1] t] eqn:Hrun.
  unfold result_of in Hr. cbn [fst] in Hr. subst r.
  exists results, w1, t. split; [|split; [|split; [|split; [|split; [|split]]]]].
  - rewrite daily_message_as_attempts.
    match goal with
    | |- bind (emit ?ev) ?k w = _ =>
        change (bind (emit ev) k w)
          with (match k tt w with (r, w2, t2) => (r, w2, ([ev] ++ t2)%list) end);
        cbv beta;
        erewrite bind_step; [reflexivity|exact Hrun|]
    end.
    destruct (existsb _ results); reflexivity.
  - rewrite <- (daily_channels_keys E message traffic config).
    apply (run_attempts_keys E _ (daily_channels_total E message traffic config) [] w).
    + now rewrite Hrun.
    + reflexivity.
    + rewrite daily_channels_keys. apply enabled_channels_nodup.
  - pose proof (run_attempts_silent E call_of (daily_channels E message traffic config)
                  (daily_channels_silent E call_of (fun _ => eq_refl) (fun _ => eq_refl)
                     message traffic config) [] w) as H.
    now rewrite Hrun in H.
  - pose proof (run_attempts_silent E notification_of
                  (daily_channels E message traffic config)
                  (daily_channels_silent E notification_of (fun _ => eq_refl)
                     (fun _ => eq_refl) message traffic config) [] w) as H.
    now rewrite Hrun in H.
  - pose proof (run_attempts_silent E digest_of (daily_channels E message traffic config)
                  (daily_channels_silent E digest_of (fun _ => eq_refl) (fun _ => eq_refl)
                     message traffic config) [] w) as H.
    now rewrite Hrun in H.
  - pose proof (run_attempts_silent E write_of (daily_channels E message traffic config)
                  (daily_channels_silent E write_of (fun _ => eq_refl) (fun _ => eq_refl)
                     message traffic config) [] w) as H.
    now rewrite Hrun in H.
  - pose proof (run_attempts_forall E (fun d => channel_enabled config d = true)
                  (daily_channels E message traffic config)
                  (daily_channels_total E message traffic config)) as H.
    specialize (fun HP => H HP [] w). rewrite Hrun in H. apply H.
    intros key send w' Hin. unfold daily_channels in Hin. cbn [In] in Hin.
    destruct Hin as [Hin|[Hin|[Hin|[Hin|[Hin|[]]]]]]; injection Hin as Hen _ <-.
    + destruct (send_email_run E message (get_default (title config) "CDT流量统计")
                  config w') as (_ & _ & ->).
      repeat constructor. exact Hen.
    + destruct (send_bark_run E message config w') as (_ & _ & ->).
      repeat constructor. cbn. now rewrite Hen.
    + destruct (send_tg_run E message config w') as (_ & _ & ->).
      repeat constructor. exact Hen.
    + match goal with
      | |- Forall _ (deliveries (trace_of (send_webhook_notification E _ _ ?tt _ w'))) =>
          destruct (send_webhook_run E message tt config w') as (_ & _ & ->)
      end.
      repeat constructor. cbn. rewrite Hen. apply orb_true_r.
    + match goal with
      | |- Forall _ (deliveries (trace_of (send_qywx_notification E _ ?tt _ _ _ _ _ _ w'))) =>
          pose proof (send_qywx_deliveries E message tt config w') as Hq
      end.
      rewrite Hen in Hq. exact Hq.
Qed.

End DailyMessage.

Ltac unfold_daily :=
  unfold daily_account, validate_credentials_and_instance, daily_digest,
    send_daily_notification_message, send_notification, fanout, attempt,
    send_email_notification, send_bark_notification, send_tg_notification,
    send_webhook_notification, send_qywx_notification, get_traffic,
    get_security_group_id, get_instance_details, is_security_group_rule_enabled;
  cbv zeta.

Section DailySilence.
Context (E : Env).

Lemma daily_account_no_mutation config account :
  emits_none mutation_of (daily_account E config account).
Proof. unfold_daily. silent. Qed.

Lemma daily_account_writes_nothing config account :
  emits_none write_of (daily_account E config account).
Proof. unfold_daily. silent. Qed.

Lemma daily_account_own_calls config account :
  emits_none (foreign_call_of (AccessKeyId account)) (daily_account E config account).
Proof.
  unfold_daily. unfold print.
  repeat first
    [ apply emits_none_ret
    | apply emits_none_raise
    | apply emits_none_lift
    | apply emits_none_emit; reflexivity
    | apply emits_none_api_call; cbn; rewrite String.eqb_refl; reflexivity
    | apply emits_none_transport_call; reflexivity
    | apply emits_none_bind; [ | intros ? ]
    | apply emits_none_try; [ | intros ? ]
    | match goal with
      | |- emits_none _ (if ?b then _ else _) => destruct b
      | |- emits_none _ (match ?x with _ => _ end) => destruct x
      end ].
Qed.

End DailySilence.

Lemma foreign_free (ak : string) (tr : list event) :
  flat_map (foreign_call_of ak) tr = [] ->
  Forall (fun rq => request_key rq = ak) (api_calls tr).
Proof.
  unfold api_calls. induction tr as [|ev tr IH]; cbn [flat_map]; [constructor|].
  intros H. apply app_eq_nil in H. destruct H as [Hev Htr].
  apply Forall_app. split; [|now apply IH].
  destruct ev as [rq| | | | |]; cbn in *; try constructor; [|constructor].
  destruct (String.eqb (request_key rq) ak) eqn:Hk; [|discriminate].
  now apply String.eqb_eq.
Qed.

Section DailyAccount.
Context (E : Env).

(** The trace of a sequence: the trace of its first part, then that of
    the second if the first returned. *)
Lemma bind_trace {A B} (c : M E A) (k : A -> M E B) w :
  (exists e, result_of (c w) = Raise e
             /\ bind c k w = (Raise e, world_of (c w), trace_of (c w)))
  \/ (exists a, result_of (c w) = Ok a
                /\ bind c k w
                   = (result_of (k a (world_of (c w))), world_of (k a (world_of (c w))),
                      (trace_of (c w) ++ trace_of (k a (world_of (c w))))%list)).
Proof.
  destruct (c w) as [[[a|e] w1] t1] eqn:Hc.
  - right. exists a. split; [reflexivity|]. now apply bind_ok.
  - left. exists e. split; [reflexivity|]. now apply bind_raise.
Qed.

Lemma validate_returns account config w :
  exists valid w1 t,
    validate_credentials_and_instance E account config w = (Ok valid, w1, t).
Proof.
  destruct (call_api E (validate_request account) w) as [r w1] eqn:Hc.
  destruct (validation_fails account r) eqn:Hf.
  - rewrite (validate_run_fail E account config w r w1 Hc Hf). now do 3 eexists.
  - rewrite (validate_run_ok E account config w r w1 Hc Hf). now do 3 eexists.
Qed.

(** An account the daily job skips: one line is printed, with its name. *)
Lemma daily_account_skipped config account w :
  reports_on account = false ->
  daily_account E config account w
  = match accountName account with
    | Some name =>
        (Ok tt, w,
         [EPrint ("跳过账户 " ++ name
                  ++ (if get_default (enableNotification account) true
                      then "：仅在防火墙切换时通知" else "：未启用通知"))])
    | None => (Raise (KeyError "accountName"), w, [])
    end.
Proof.
  unfold reports_on, daily_account, account_name_index.
  destruct (get_default (enableNotification account) true); cbn [negb andb].
  - destruct (get_default (onlyNotifyOnToggle account) false); [|discriminate].
    intros _. now destruct (accountName account).
  - intros _. now destruct (accountName account).
Qed.

Lemma daily_account_reported config account w :
  reports_on account = true ->
  daily_account E config account w
  = bind (validate_credentials_and_instance E account config)
      (fun valid =>
         if negb valid then ret tt
         else try_except (daily_digest E account config)
                (fun e => print ("异常: " ++ exc_msg e))) w.
Proof.
  unfold reports_on, daily_account.
  destruct (get_default (enableNotification account) true); [|discriminate].
  now destruct (get_default (onlyNotifyOnToggle account) false).
Qed.

Lemma daily_account_returns config account w :
  reports_on account || is_named account = true ->
  result_of (daily_account E config account w) = Ok tt.
Proof.
  destruct (reports_on account) eqn:Hr; cbn [orb].
  - intros _. rewrite (daily_account_reported config account w Hr).
    destruct (validate_returns account config w) as (valid & w1 & t & Hv).
    rewrite (bind_ok _ _ _ _ _ _ Hv). unfold result_of at 1. cbn [fst].
    destruct valid; cbn [negb]; [|reflexivity].
    unfold try_except, result_of.
    destruct (daily_digest E account config w1) as [[[[]|e] w2] t2]; reflexivity.
  - unfold is_named. intros Hn. rewrite (daily_account_skipped config account w Hr).
    now destruct (accountName account).
Qed.

End DailyAccount.

Section DailyLoop.
Context (E : Env).

Lemma daily_loop_silent {X} (f : event -> list X) config :
  (forall account, emits_none f (daily_account E config account)) ->
  forall accounts, emits_none f (send_daily_notification E accounts config).
Proof.
  intros Hf. induction accounts as [|account rest IH]; cbn [send_daily_notification].
  - apply emits_none_ret.
  - apply emits_none_bind; [apply Hf|intros _; exact IH].
Qed.

End DailyLoop.

(** X16. The daily job is read-only: whatever the accounts, the
    configuration and the answers of the services, a run issues no
    mutating call and writes no run log. *)
Theorem daily_job_never_mutates
    (E : Env) (accounts : list Account) (config : NotificationConfig) (w : world E) :
  mutating_calls (trace_of (send_daily_notification E accounts config w)) = []
  /\ written (trace_of (send_daily_notification E accounts config w)) = [].
Proof.
  split.
  - apply (daily_loop_silent E mutation_of config
             (daily_account_no_mutation E config) accounts w).
  - apply (daily_loop_silent E write_of config
             (daily_account_writes_nothing E config) accounts w).
Qed.

(** X17. The daily job calls the cloud only for the accounts it reports
    on: every call of a run is made with the access key of an account of
    the configuration that has not opted out ([enableNotification] not
    false, [onlyNotifyOnToggle] not true). *)
Theorem daily_calls_only_for_reported_accounts
    (E : Env) (accounts : list Account) (config : NotificationConfig) (w : world E) :
  Forall (fun rq =>
            existsb (fun account =>
                       reports_on account
                       && String.eqb (request_key rq) (AccessKeyId account)) accounts
            = true)
    (api_calls (trace_of (send_daily_notification E accounts config w))).
Proof.
  revert w. induction accounts as [|account rest IH]; intros w.
  - constructor.
  - cbn [send_daily_notification existsb].
    assert (Hown : Forall (fun rq =>
                     reports_on account
                     && String.eqb (request_key rq) (AccessKeyId account) = true)
                     (api_calls (trace_of (daily_account E config account w)))).
    { destruct (reports_on account) eqn:Hr.
      - pose proof (foreign_free (AccessKeyId account) _
                      (daily_account_own_calls E config account w)) as Hk.
        eapply Forall_impl; [|exact Hk].
        intros rq Hrq. cbn. now apply String.eqb_eq.
      - rewrite (daily_account_skipped E config account w Hr).
        destruct (accountName account); constructor. }
    destruct (bind_trace E (daily_account E config account)
                (fun _ => send_daily_notification E rest config) w)
      as [(e & _ & ->)|(a & _ & ->)]; unfold trace_of at 1; cbn [snd].
    + eapply Forall_impl; [|exact Hown]. intros rq Hrq. now rewrite Hrq.
    + unfold api_calls in *. rewrite flat_map_app. apply Forall_app. split.
      * eapply Forall_impl; [|exact Hown]. intros rq Hrq. now rewrite Hrq.
      * eapply Forall_impl; [|apply IH]. intros rq Hrq. cbv beta in Hrq.
        rewrite Hrq. apply orb_true_r.
Qed.



Section DailyDigest.
Context (E : Env).

Lemma queries_no_digest account :
  emits_none digest_of (get_traffic E (AccessKeyId account) (AccessKeySecret account))
  /\ emits_none digest_of
       (get_instance_details E (AccessKeyId account) (AccessKeySecret account)
          (instanceId account) (regionId account))
  /\ emits_none digest_of
       (get_security_group_id E (instanceId account) (AccessKeyId account)
          (AccessKeySecret account) (regionId account))
  /\ forall sg,
      emits_none digest_of
        (is_security_group_rule_enabled E sg (AccessKeyId account) (AccessKeySecret account)
           (regionId account)).
Proof.
  unfold get_traffic, get_instance_details, get_security_group_id,
    is_security_group_rule_enabled.
  repeat split; try intros sg; silent.
Qed.

(** The digest of an account whose open rule is not shown: the four
    queries and nothing more. *)
Lemma daily_digest_closed account config w :
  rule_never_shown E ->
  digests (trace_of (daily_digest E account config w)) = []
  /\ deliveries (trace_of (daily_digest E account config w)) = [].
Proof.
  intros Hclosed.
  destruct (queries_no_digest account) as (Hg1 & Hg2 & Hg3 & Hg4).
  destruct (get_traffic_run E (AccessKeyId account) (AccessKeySecret account) w)
    as (traffic & tA & Ht & _ & HdA & _).
  specialize (Hg1 w). rewrite Ht in Hg1. unfold trace_of in Hg1. cbn [snd] in Hg1.
  set (wA := snd (call_api E (ListCdtInternetTraffic (AccessKeyId account)
                                (AccessKeySecret account)) w)) in *.
  destruct (usage_percentage traffic (maxTraffic account)) as [usage|e] eqn:Hu.
  - destruct (get_instance_details_run E (AccessKeyId account) (AccessKeySecret account)
                (instanceId account) (regionId account) wA)
      as (expiry & ip & tB & Hi & _ & HdB & _).
    specialize (Hg2 wA). rewrite Hi in Hg2. unfold trace_of in Hg2. cbn [snd] in Hg2.
    set (wB := snd (call_api E (DescribeInstances (AccessKeyId account)
                                  (AccessKeySecret account) (regionId account)
                                  (Some (instanceId account))) wA)) in *.
    destruct (get_security_group_id_run E (instanceId account) (AccessKeyId account)
                (AccessKeySecret account) (regionId account) wB)
      as (tC & Hg & _ & HdC).
    specialize (Hg3 wB). rewrite Hg in Hg3. unfold trace_of in Hg3. cbn [snd] in Hg3.
    match type of Hg with
    | _ = (Ok ?sg0, ?wC0, _) => set (sg := sg0) in *; set (wC := wC0) in *
    end.
    destruct (is_enabled_run E sg (AccessKeyId account) (AccessKeySecret account)
                (regionId account) wC)
      as (enabled & tD & He & _ & HdD & Hen).
    specialize (Hg4 sg wC). rewrite He in Hg4. unfold trace_of in Hg4. cbn [snd] in Hg4.
    assert (Hfalse : enabled = false).
    { rewrite Hen. apply (Hclosed (AccessKeyId account) (AccessKeySecret account)
                            (regionId account) sg wC). }
    clear Hen. subst enabled.
    assert (Hrun : daily_digest E account config w
                   = (Ok tt, snd (call_api E (DescribeSecurityGroupAttribute
                                                (AccessKeyId account) (AccessKeySecret account)
                                                (regionId account) sg) wC),
                      (tA ++ [] ++ tB ++ tC ++ tD ++ [])%list)).
    { unfold daily_digest.
      eapply bind_step; [exact Ht|]. rewrite Hu.
      eapply bind_step; [apply lift_ok|].
      eapply bind_step; [exact Hi|].
      eapply bind_step; [exact Hg|].
      eapply bind_step; [exact He|].
      reflexivity. }
    rewrite Hrun. unfold trace_of, digests, deliveries in *. cbn [snd].
    rewrite !flat_map_app, Hg1, Hg2, Hg3, Hg4, HdA, HdB, HdC, HdD. now split.
  - assert (Hrun : daily_digest E account config w = (Raise e, wA, tA)).
    { unfold daily_digest. rewrite (bind_ok _ _ _ _ _ _ Ht). rewrite Hu.
      unfold lift, bind. cbn. now rewrite app_nil_r. }
    rewrite Hrun. unfold trace_of, digests, deliveries in *. cbn [snd]. now split.
Qed.

Lemma send_notification_no_digest log config :
  emits_none digest_of (send_notification E log config).
Proof.
  unfold send_notification, fanout, attempt, send_email_notification,
    send_bark_notification, send_tg_notification, send_webhook_notification,
    send_qywx_notification.
  silent.
Qed.

Lemma validate_no_digest account config :
  emits_none digest_of (validate_credentials_and_instance E account config).
Proof.
  unfold validate_credentials_and_instance.
  silent_upto ltac:(apply send_notification_no_digest).
Qed.

Lemma daily_account_no_digest config account :
  rule_never_shown E -> emits_none digest_of (daily_account E config account).
Proof.
  intros Hclosed. unfold daily_account.
  destruct (negb _); [silent|]. destruct (get_default _ false); [silent|].
  apply emits_none_bind; [apply validate_no_digest|]. intros valid.
  destruct (negb valid); [silent|].
  apply emits_none_try; [|intros e; silent].
  intros w. apply (daily_digest_closed account config w Hclosed).
Qed.

End DailyDigest.

(** X20. The daily job reports only on accounts whose open rule it sees.
    In an environment whose rules query never shows the open rule (it
    raises, or the rule is not among the permissions it answers), a run
    composes no digest at all; and for an account that reports and passes
    the validation nothing is delivered. *)
Theorem daily_digest_suppressed_when_closed
    (E : Env) (accounts : list Account) (config : NotificationConfig) (w : world E) :
  rule_never_shown E ->
  digests (trace_of (send_daily_notification E accounts config w)) = []
  /\ (forall account v v0 t0,
         reports_on account = true ->
         validate_credentials_and_instance E account config v = (Ok true, v0, t0) ->
         deliveries (trace_of (daily_account E config account v)) = []).
Proof.
  intros Hclosed. split.
  - apply (daily_loop_silent E digest_of config
             (fun account => daily_account_no_digest E config account Hclosed) accounts w).
  - intros account v v0 t0 Hr Hv.
    rewrite (daily_account_reported E config account v Hr).
    rewrite (bind_ok _ _ _ _ _ _ Hv). cbn [negb]. unfold trace_of at 1. cbn [snd].
    rewrite (validate_true_inv E account config v v0 t0 Hv).
    destruct (daily_digest_closed E account config v0 Hclosed) as [_ Hd].
    unfold try_except.
    destruct (daily_digest E account config v0) as [[[[]|e] v1] t1];
      unfold trace_of, deliveries, print, emit in *; cbn [snd] in *;
      rewrite ?flat_map_app, Hd; reflexivity.
Qed.

Lemma daily_digest_suppressed_when_closed_witness :
  let sc := mkScenario (Ok (Some demo_traffic)) (Ok (Some [demo_instance])) true false
              (Ok tt) (Ok 200) (Ok 200) in
  digests (trace_of (send_daily_notification (sim_env sc) [demo_account] demo_config true))
  = [].
Proof.
  intros sc.
  refine (proj1 (daily_digest_suppressed_when_closed (sim_env sc) [demo_account]
                   demo_config true _)).
  intros ak sk region sg w. reflexivity.
Defined.



(* ================================================================= *)
(** ** The width of the progress bar *)

Lemma rhe_div_le n d k : 0 < d -> n <= k * d -> rhe_div n d <= k.
Proof.
  intros Hd Hn. unfold rhe_div.
  pose proof (Z.div_mod n d ltac:(lia)) as Hdm.
  pose proof (Z.mod_pos_bound n d Hd) as Hr.
  assert (Hq : n / d <= k) by (apply Z.div_le_upper_bound; lia).
  destruct (Z.eq_dec (n / d) k) as [Heq|Hne].
  - assert (n mod d = 0) by nia.
    replace (2 * (n mod d) ?= d) with Lt by (symmetry; apply Z.compare_lt_iff; lia).
    lia.
  - destruct (2 * (n mod d) ?= d); [destruct (Z.even (n / d))| |]; lia.
Qed.

Lemma valid_mantissa_bound s m e :
  valid_binary (S754_finite s m e) = true -> Z.pos m < 2 ^ 53.
Proof.
  cbn. unfold bounded, canonical_mantissa, fexp.
  intros H. apply andb_true_iff in H. destruct H as [H _].
  apply Z.eqb_eq in H.
  pose proof (digits2_pos_upper m) as Hb.
  assert (Hd : Z.pos (digits2_pos m) <= 53) by (unfold prec in H; lia).
  assert (Hp : 2 ^ Z.pos (digits2_pos m) <= 2 ^ 53) by (apply Z.pow_le_mono_r; lia).
  lia.
Qed.

(** A percentage from 0 to 100 rounds to an integer from 0 to 100. *)
Lemma py_round_percentage (u : float) :
  PrimFloat.leb 0 u = true -> PrimFloat.leb u 100 = true ->
  exists p, py_round u = Ok p /\ 0 <= p <= 100.
Proof.
  intros H0 H100.
  assert (Hex : exists p, py_round u = Ok p).
  { revert H0 H100. rewrite !leb_spec. unfold py_round.
    change (Prim2SF 0) with (S754_zero false).
    change (Prim2SF 100) with (S754_finite false 7036874417766400 (-46)).
    destruct (Prim2SF u) as [s|s| |s m e]; try discriminate.
    - intros _ _. now eexists.
    - destruct s; discriminate.
    - intros _ _. now eexists. }
  destruct Hex as [p Hp]. exists p. split; [exact Hp|].
  split; [exact (py_round_nonneg u p H0 Hp)|].
  revert H0 H100 Hp. rewrite !leb_spec. unfold py_round.
  pose proof (Prim2SF_valid u) as Hvalid.
  change (Prim2SF 0) with (S754_zero false).
  change (Prim2SF 100) with (S754_finite false 7036874417766400 (-46)).
  destruct (Prim2SF u) as [s|s| |s m e]; try discriminate.
  - intros _ _ [= <-]. lia.
  - pose proof (valid_mantissa_bound s m e Hvalid) as Hm.
    intros Hge Hle [= <-]. destruct s; [discriminate|].
    unfold SFleb, SFcompare in Hle.
    destruct (e ?= -46) eqn:Hc; try discriminate.
    + apply Z.compare_eq in Hc. subst e. cbn [Z.leb Z.compare Z.opp].
      assert (Hmc : Z.pos m <= 7036874417766400).
      { destruct (Pos.compare_cont Eq m 7036874417766400) eqn:Hcmp; try discriminate.
        - apply Pos.compare_eq in Hcmp. subst m. apply Z.le_refl.
        - apply (proj1 (Pos.compare_lt_iff m 7036874417766400)) in Hcmp.
          apply Pos2Z.pos_lt_pos in Hcmp. apply Z.lt_le_incl. exact Hcmp. }
      apply rhe_div_le; [reflexivity|]. change (2 ^ 46) with 70368744177664.
      clear - Hmc. lia.
    + rewrite Z.compare_lt_iff in Hc. clear Hle Hvalid Hge.
      replace (0 <=? e) with false by (symmetry; apply Z.leb_gt; lia).
      apply rhe_div_le; [apply Z.pow_pos_nonneg; lia|].
      assert (H47 : 2 ^ 47 <= 2 ^ (- e)) by (apply Z.pow_le_mono_r; lia).
      change (2 ^ 53) with (64 * 2 ^ 47) in Hm. clear - Hm H47 Hc. lia.
Qed.

(** A percentage from 0 that rounds to 0 is below 1. *)
Lemma py_round_zero_below_one (u : float) :
  PrimFloat.leb 0 u = true -> py_round u = Ok 0 -> PrimFloat.ltb u 1 = true.
Proof.
  rewrite leb_spec, ltb_spec. unfold py_round.
  pose proof (Prim2SF_valid u) as Hvalid.
  change (Prim2SF 0) with (S754_zero false).
  change (Prim2SF 1) with (S754_finite false 4503599627370496 (-52)).
  destruct (Prim2SF u) as [s|s| |s m e]; try discriminate.
  - intros _ _. now destruct s.
  - intros Hge. destruct s; [discriminate|]. clear Hge.
    destruct (0 <=? e) eqn:He; intros [= Hp].
    + apply Z.leb_le in He.
      assert (0 < 2 ^ e) by (apply Z.pow_pos_nonneg; lia). exfalso.
      destruct (2 ^ e); [lia|discriminate|lia].
    + apply Z.leb_gt in He.
      assert (Hd : 0 < 2 ^ (- e)) by (apply Z.pow_pos_nonneg; lia).
      assert (Hm : Z.pos m < 2 ^ (- e)).
      { destruct (Z.lt_ge_cases (Z.pos m) (2 ^ (- e))) as [Hlt|Hge]; [exact Hlt|].
        pose proof (rhe_div_ge (Z.pos m) (2 ^ (- e)) 1 Hd ltac:(lia)). lia. }
      unfold SFltb, SFcompare.
      destruct (e ?= -52) eqn:Hc; [exfalso|reflexivity|exfalso].
      * apply Z.compare_eq in Hc.
        cbn in Hvalid. unfold bounded, canonical_mantissa, fexp, emin, prec, emax in Hvalid.
        apply andb_true_iff in Hvalid. destruct Hvalid as [Hcan _].
        apply Z.eqb_eq in Hcan.
        assert (Hdig : Z.pos (digits2_pos m) = 53) by lia.
        pose proof (digits2_pos_lower m) as Hlow. rewrite Hdig in Hlow.
        subst e. change (2 ^ (53 - 1)) with 4503599627370496 in Hlow.
        change (2 ^ (- -52)) with 4503599627370496 in Hm. clear - Hlow Hm. lia.
      * rewrite Z.compare_gt_iff in Hc.
        cbn in Hvalid. unfold bounded, canonical_mantissa, fexp, emin, prec, emax in Hvalid.
        apply andb_true_iff in Hvalid. destruct Hvalid as [Hcan _].
        apply Z.eqb_eq in Hcan.
        assert (Hdig : Z.pos (digits2_pos m) = 53) by lia.
        pose proof (digits2_pos_lower m) as Hlow. rewrite Hdig in Hlow.
        assert (H52 : 2 ^ (- e) <= 2 ^ 52) by (apply Z.pow_le_mono_r; lia).
        change (2 ^ (53 - 1)) with (2 ^ 52) in Hlow. clear - Hlow Hm H52. lia.
Qed.

Lemma formula_fits p :
  1 <= p <= 100 -> exists cells, cells_formula p = Ok cells /\ 1 <= cells <= 20.
Proof.
  intros Hp.
  assert (Hall : forallb formula_fits_bar (Z_range 1 100) = true)
    by (vm_compute; reflexivity).
  rewrite forallb_forall in Hall.
  specialize (Hall p (Z_range_in 1 100 p ltac:(lia))).
  unfold formula_fits_bar in Hall.
  destruct (cells_formula p) as [cells|e]; [|discriminate].
  exists cells. split; [reflexivity|].
  apply andb_true_iff in Hall. destruct Hall as [H1 H2].
  apply Z.leb_le in H1, H2. lia.
Qed.

Lemma length_repeat_nat s n :
  String.length (repeat_nat s n) = (String.length s * n)%nat.
Proof.
  induction n as [|n IH]; cbn [repeat_nat]; [cbn; lia|].
  assert (Happ : forall a b, String.length (a ++ b)
                             = (String.length a + String.length b)%nat).
  { intros a b. induction a as [|c a IHa]; cbn; [reflexivity|now rewrite IHa]. }
  rewrite Happ, IH. lia.
Qed.

Lemma bar_length cells :
  0 <= cells <= 20 ->
  String.length (str_mul "■" cells ++ str_mul "□" (20 - cells)) = 60%nat.
Proof.
  intros Hc.
  assert (Happ : forall a b, String.length (a ++ b)
                             = (String.length a + String.length b)%nat).
  { intros a b. induction a as [|c a IHa]; cbn; [reflexivity|now rewrite IHa]. }
  unfold str_mul. rewrite Happ, !length_repeat_nat.
  change (String.length "■") with 3%nat. change (String.length "□") with 3%nat. lia.
Qed.

Lemma zero_percentage (u : float) :
  PrimFloat.leb 0 u = true -> PrimFloat.ltb 0 u = false -> PrimFloat.eqb u 0 = true.
Proof.
  rewrite leb_spec, ltb_spec, eqb_spec.
  change (Prim2SF 0) with (S754_zero false).
  destruct (Prim2SF u) as [s|s| |s m e]; try discriminate; try reflexivity;
    destruct s; discriminate.
Qed.

Lemma zero_percentage_cells (u : float) :
  PrimFloat.eqb u 0 = true -> progress_do_num u = Ok 0.
Proof.
  intros Hz. unfold progress_do_num, py_round.
  assert (Hlt : PrimFloat.ltb 0 u = false).
  { revert Hz. rewrite eqb_spec, ltb_spec. change (Prim2SF 0) with (S754_zero false).
    destruct (Prim2SF u) as [s|s| |s m e]; try discriminate; try reflexivity;
      destruct s; discriminate. }
  rewrite Hlt. cbn [andb].
  revert Hz. rewrite eqb_spec. change (Prim2SF 0) with (S754_zero false).
  destruct (Prim2SF u) as [s|s| |s m e]; try discriminate; try reflexivity;
    destruct s; discriminate.
Qed.

(** X23. The bar of a percentage from 0 to 100 always has exactly 20
    cells, from 0 to 20 of them filled.  It is empty exactly when the
    percentage is zero: any usage at all shows at least one filled cell.
    It is full only when the percentage rounds to 95 or more. *)
Theorem progress_bar_has_twenty_cells (usage : float) :
  PrimFloat.leb 0 usage = true ->
  PrimFloat.leb usage 100 = true ->
  exists p cells,
    py_round usage = Ok p
    /\ progress_do_num usage = Ok cells
    /\ 0 <= cells <= 20
    /\ (cells = 0 <-> PrimFloat.eqb usage 0 = true)
    /\ (cells = 20 -> 95 <= p)
    /\ progress_bar usage = Ok (str_mul "■" cells ++ str_mul "□" (20 - cells))
    /\ String.length (str_mul "■" cells ++ str_mul "□" (20 - cells)) = 60%nat.
Proof.
  intros H0 H100.
  destruct (py_round_percentage usage H0 H100) as (p & Hp & Hrange).
  assert (Hcells : exists cells,
             progress_do_num usage = Ok cells
             /\ 0 <= cells <= 20
             /\ (cells = 0 -> PrimFloat.eqb usage 0 = true)
             /\ (cells = 20 -> 95 <= p)).
  { unfold progress_do_num. rewrite Hp. cbv zeta.
    destruct (PrimFloat.ltb 0 usage) eqn:Hpos; cbn [andb].
    - destruct (PrimFloat.ltb usage 1) eqn:Hone.
      + exists 1. repeat split; lia.
      + destruct (p =? 0) eqn:Hz.
        * apply Z.eqb_eq in Hz. subst p.
          rewrite (py_round_zero_below_one usage H0 Hp) in Hone. discriminate.
        * apply Z.eqb_neq in Hz.
          destruct ((95 <? p) && PrimFloat.ltb usage 100)%bool eqn:Hhigh.
          -- apply andb_true_iff in Hhigh. destruct Hhigh as [Hgt _].
             apply Z.ltb_lt in Hgt. exists 19. repeat split; lia.
          -- destruct (formula_fits p ltac:(lia)) as (cells & Hc & Hb).
             fold (cells_formula p). rewrite Hc. exists cells.
             split; [reflexivity|]. split; [lia|]. split; [lia|].
             intros H20. destruct (Z.lt_ge_cases p 95) as [Hlow|Hok]; [|exact Hok].
             destruct (formula_below_full p ltac:(lia)) as (c' & Hc' & Hb').
             rewrite Hc in Hc'. injection Hc' as <-. lia.
    - exists 0.
      pose proof (zero_percentage_cells usage (zero_percentage usage H0 Hpos)) as Hz.
      unfold progress_do_num in Hz. rewrite Hp, Hpos in Hz. cbn [andb] in Hz.
      split; [exact Hz|]. split; [lia|]. split; [|lia].
      intros _. exact (zero_percentage usage H0 Hpos). }
  destruct Hcells as (cells & Hc & Hb & Hzero & Hfull).
  exists p, cells. split; [exact Hp|]. split; [exact Hc|]. split; [exact Hb|].
  split; [|split; [exact Hfull|split]].
  - split; [exact Hzero|].
    intros Hz. rewrite (zero_percentage_cells usage Hz) in Hc. now injection Hc as <-.
  - unfold progress_bar. now rewrite Hc.
  - now apply bar_length.
Qed.

Lemma progress_bar_has_twenty_cells_witness :
  exists p cells,
    py_round 37.5 = Ok p
    /\ progress_do_num 37.5 = Ok cells
    /\ 0 <= cells <= 20
    /\ progress_bar 37.5 = Ok (str_mul "■" cells ++ str_mul "□" (20 - cells)).
Proof.
  destruct (progress_bar_has_twenty_cells 37.5 eq_refl eq_refl)
    as (p & cells & Hp & Hc & Hb & _ & _ & Hbar & _).
  exists p, cells.
  split; [exact Hp|]. split; [exact Hc|]. split; [exact Hb|exact Hbar].
Defined.

(* ================================================================= *)
(** ** The names of the regions *)

Lemma dict_get_in {V} (d : pydict V) k v : dict_get d k = Some v -> In (k, v) d.
Proof.
  induction d as [|[k' v'] d IH]; cbn [dict_get]; [discriminate|].
  destruct (String.eqb k k') eqn:Hk.
  - apply String.eqb_eq in Hk. subst k'. intros [= ->]. now left.
  - intros H. right. now apply IH.
Qed.

Lemma distinct_values {V} (d : list (V * string)) k1 k2 v :
  distinct (map snd d) = true -> In (k1, v) d -> In (k2, v) d -> k1 = k2.
Proof.
  induction d as [|[k' v'] d IH]; cbn [map snd distinct]; [contradiction|].
  intros Hd H1 H2. apply andb_true_iff in Hd. destruct Hd as [Hfresh Hd].
  assert (Hnot : forall k, In (k, v') d -> False).
  { intros k Hin. apply negb_true_iff in Hfresh.
    assert (Hex : existsb (String.eqb v') (map snd d) = true).
    { apply existsb_exists. exists v'. split; [|apply String.eqb_refl].
      apply in_map_iff. now exists (k, v'). }
    rewrite Hex in Hfresh. discriminate. }
  destruct H1 as [H1|H1], H2 as [H2|H2].
  - injection H1 as <- _. now injection H2 as <- _.
  - injection H1 as _ <-. exfalso. exact (Hnot k2 H2).
  - injection H2 as _ <-. exfalso. exact (Hnot k1 H1).
  - now apply IH.
Qed.

(** X24. The name of a region identifies it.  [get_region_name] answers
    [未知地区] exactly for the region IDs that are not in the table, and
    two region IDs with the same name, one of them in the table, are the
    same ID. *)
Theorem region_name_identifies_region (region_id other : string) :
  (get_region_name region_id = "未知地区" <-> dict_mem REGION_NAMES region_id = false)
  /\ (dict_mem REGION_NAMES region_id = true ->
      get_region_name region_id = get_region_name other -> region_id = other).
Proof.
  assert (Hknown : forall r v, dict_get REGION_NAMES r = Some v -> v <> "未知地区").
  { intros r v Hr Hv. apply dict_get_in in Hr.
    assert (Hall : forallb (fun kv => negb (String.eqb (snd kv) "未知地区")) REGION_NAMES
                   = true) by (vm_compute; reflexivity).
    rewrite forallb_forall in Hall. specialize (Hall (r, v) Hr).
    cbn [snd] in Hall. subst v. now rewrite String.eqb_refl in Hall. }
  unfold get_region_name, dict_get_default, dict_mem. split.
  - destruct (dict_get REGION_NAMES region_id) as [v|] eqn:Hr.
    + split; [|discriminate]. intros Hv. now destruct (Hknown region_id v Hr).
    + now split.
  - destruct (dict_get REGION_NAMES region_id) as [v|] eqn:Hr; [|discriminate].
    intros _.
    destruct (dict_get REGION_NAMES other) as [v'|] eqn:Ho.
    + intros <-. apply dict_get_in in Hr, Ho.
      apply (distinct_values REGION_NAMES region_id other v);
        [vm_compute; reflexivity|exact Hr|exact Ho].
    + intros Hv. now destruct (Hknown region_id v Hr).
Qed.

Section DailyRun.
Context (E : Env).



End DailyRun.

Section DailySummary.
Context (E : Env).


End DailySummary.


(* ================================================================= *)
(** ** The rule the check looks for *)

Lemma upper_ascii_inv (c : ascii) (lower upper_ : ascii) :
  lower = "a"%char /\ upper_ = "A"%char \/ lower = "l"%char /\ upper_ = "L"%char ->
  upper_ascii c = upper_ -> c = lower \/ c = upper_.
Proof.
  intros [[-> ->]|[-> ->]];
    destruct c as [[] [] [] [] [] [] [] []]; vm_compute; intros H;
    first [discriminate H | now left | now right].
Qed.

Lemma upper_ALL (s : string) : upper s = "ALL" <-> In s all_spellings.
Proof.
  split.
  - destruct s as [|c1 [|c2 [|c3 [|c4 s]]]]; cbn [upper]; try discriminate.
    intros [= H1 H2 H3].
    destruct (upper_ascii_inv c1 "a" "A" ltac:(now left) H1) as [->| ->],
      (upper_ascii_inv c2 "l" "L" ltac:(now right) H2) as [->| ->],
      (upper_ascii_inv c3 "l" "L" ltac:(now right) H3) as [->| ->];
      cbn; tauto.
  - unfold all_spellings. cbn [In].
    intros [<-|[<-|[<-|[<-|[<-|[<-|[<-|[<-|[]]]]]]]]]; reflexivity.
Qed.

Lemma is_open_rule_iff (rule : Permission) : is_open_rule rule = true <-> is_open rule.
Proof.
  unfold is_open_rule, is_open. split.
  - intros H.
    apply andb_true_iff in H. destruct H as [H Hd].
    apply andb_true_iff in H. destruct H as [H Hn].
    apply andb_true_iff in H. destruct H as [H Hpo].
    apply andb_true_iff in H. destruct H as [Hp Hc].
    destruct (Direction rule) as [d|]; [|discriminate].
    destruct (NicType rule) as [n|]; [|discriminate].
    destruct (Policy rule) as [po|]; [|discriminate].
    destruct (SourceCidrIp rule) as [c|]; [|discriminate].
    apply String.eqb_eq in Hd, Hn, Hpo, Hc, Hp. subst d n po c.
    destruct (IpProtocol rule) as [protocol|]; [|discriminate].
    cbn [get_default] in Hp. apply upper_ALL in Hp.
    split; [now exists protocol|now repeat split].
  - intros ((protocol & Hp & Hin) & Hc & Hpo & Hn & Hd).
    rewrite Hp, Hc, Hpo, Hn, Hd. cbn [get_default].
    rewrite (proj2 (upper_ALL protocol) Hin). reflexivity.
Qed.

(** X26. What counts as the open rule.  [is_security_group_rule_enabled]
    answers [True] exactly when its query returns and some permission of
    the answer has a protocol spelling [all] in any mix of upper and
    lower case, the source [0.0.0.0/0], the policy [Accept], the NIC type
    [intranet] and the direction [ingress], each of these four exactly
    and none of them missing.  A failed query and an answer without
    permissions both read as no rule. *)
Theorem open_rule_is_matched
    (E : Env) (sg : option string) (ak sk region : string) (w : world E) :
  result_of (is_security_group_rule_enabled E sg ak sk region w) = Ok true
  <-> exists perms rule,
        fst (call_api E (DescribeSecurityGroupAttribute ak sk region sg) w) = Ok perms
        /\ In rule (get_default perms [])
        /\ is_open rule.
Proof.
  destruct (is_enabled_run E sg ak sk region w) as (enabled & t & -> & _ & _ & ->).
  unfold result_of. cbn [fst].
  destruct (fst (call_api E (DescribeSecurityGroupAttribute ak sk region sg) w))
    as [perms|e].
  - split.
    + intros [= H]. apply existsb_exists in H. destruct H as (rule & Hin & Hopen).
      exists perms, rule. split; [reflexivity|]. split; [exact Hin|].
      now apply is_open_rule_iff.
    + intros (perms' & rule & [= <-] & Hin & Hopen). f_equal.
      apply existsb_exists. exists rule. split; [exact Hin|].
      now apply is_open_rule_iff.
  - split; [discriminate|]. intros (perms & rule & H & _). discriminate.
Qed.

(* ================================================================= *)
(** ** The order of the deliveries *)

Section FanoutOrder.
Context (E : Env).

Lemma send_qywx_delivery_list message title_ config w :
  exists tail,
    deliveries (trace_of (send_qywx_notification E message title_ (touser config)
                            (corpid config) (corpsecret config) (agentid config)
                            (baseApiUrl config) (picUrl config) w))
    = qywx_token_request config :: tail
    /\ (tail = []
        \/ exists access_token, tail = [qywx_send_request message title_ config access_token]).
Proof.
  unfold send_qywx_notification, qywx_token_request, qywx_send_request, try_except, bind,
    transport_call, raise, print, emit, ret.
  destruct (deliver E _ w) as [[[tok|]|e] w1]; cbn.
  - destruct (deliver E _ w1) as [[[[| |]|]|e] w2]; cbn; eexists;
      (split; [reflexivity|right; now exists tok]).
  - exists []. split; [reflexivity|now left].
  - exists []. split; [reflexivity|now left].
Qed.


End FanoutOrder.


(* ================================================================= *)
(** ** The outcome of the daily fanout *)

Section DailyOutcome.
Context (E : Env).

(** The run of [send_daily_notification_message] in full: the digest,
    the events of the enabled senders in order, the summary line; the
    answer is read off the outcome map the answers of the services
    determine. *)
Lemma daily_message_outcome message traffic config w :
  let title_ := get_default (title config) "CDT流量统计" in
  let daily_title := "已使用" ++ traffic ++ " - " ++ title_ in
  let results := outcome_map E message title_ daily_title config w in
  let s1 := send_email_notification E message title_ config in
  let s2 := send_bark_notification E message (barkUrl config) in
  let s3 := send_tg_notification E message (tgBotToken config) (tgChatId config) in
  let s4 := send_webhook_notification E message (webhookUrl config) daily_title
              (webhookId config) in
  let s5 := send_qywx_notification E message daily_title (touser config) (corpid config)
              (corpsecret config) (agentid config) (baseApiUrl config) (picUrl config) in
  let w1 := if enableEmail config then world_of (s1 w) else w in
  let w2 := if enableBark config then world_of (s2 w1) else w1 in
  let w3 := if enableTG config then world_of (s3 w2) else w2 in
  let w4 := if enableWebhook config then world_of (s4 w3) else w3 in
  exists w5,
    send_daily_notification_message E message traffic config w
    = (Ok (negb (existsb (fun kv => is_not_True (snd kv)) results)), w5,
       (EDigest message
        :: ((if enableEmail config then trace_of (s1 w) else [])
            ++ (if enableBark config then trace_of (s2 w1) else [])
            ++ (if enableTG config then trace_of (s3 w2) else [])
            ++ (if enableWebhook config then trace_of (s4 w3) else [])
            ++ (if enableQywx config then trace_of (s5 w4) else []))
        ++ [EPrint (if existsb (fun kv => is_not_True (snd kv)) results
                    then "通知发送失败: " ++ dumps results
                    else "通知发送成功")])%list).
Proof.
  intros title_ daily_title results s1 s2 s3 s4 s5 w1 w2 w3 w4.
  pose proof (channel_attempts_outcomes E message title_ daily_title config w) as Ho.
  fold results in Ho.
  destruct (send_qywx_total E message daily_title (touser config) (corpid config)
              (corpsecret config) (agentid config) (baseApiUrl config) (picUrl config) w4)
    as [v5 Hv5].
  pose proof (five_attempts_run E (enableEmail config) (enableBark config)
                (enableTG config) (enableWebhook config) (enableQywx config)
                s1 s2 s3 s4 s5 _ _ _ _ v5 w
                (proj1 (send_email_run E message title_ config w))
                (proj1 (send_bark_run E message config w1))
                (proj1 (send_tg_run E message config w2))
                (proj1 (send_webhook_run E message daily_title config w3))
                Hv5) as Hrun.
  cbv zeta in Hrun. fold w1 w2 w3 w4 in Hrun.
  subst s1 s2 s3 s4 s5.
  rewrite Hrun in Ho. unfold result_of in Ho. cbn [fst] in Ho. injection Ho as Ho.
  match type of Hrun with
  | _ = (Ok ?L, _, _) => assert (HL : L = results) by exact Ho; rewrite HL in Hrun
  end.
  eexists.
  rewrite daily_message_as_attempts. unfold daily_channels. cbv zeta.
  fold title_. fold daily_title.
  unfold bind at 1. unfold emit at 1.
  unfold bind at 1. rewrite Hrun.
  destruct (existsb (fun kv => is_not_True (snd kv)) results);
    unfold bind, print, emit, ret; cbn [app]; rewrite ?app_nil_r; reflexivity.
Qed.

End DailyOutcome.

(** X22. The fanout of the daily job.  [send_daily_notification_message]
    always returns.  It attempts the enabled channels in the order email,
    Bark, Telegram, webhook, enterprise chat: its deliveries are the
    requests those channels start with, in that order, followed by at
    most the post of the enterprise chat; the webhook and the enterprise
    chat get the title with the traffic, the email the plain title.  It
    makes no cloud call and ends by printing one summary line.  Its
    outcome map is the one the channels' own deliveries determine: it
    answers [True] and prints [通知发送成功] when every outcome is [True];
    otherwise it answers [False] (not a text) and prints [通知发送失败: ]
    with the JSON of the map. *)
Theorem daily_fanout_summary
    (E : Env) (message traffic : string) (config : NotificationConfig) (w : world E) :
  let out := send_daily_notification_message E message traffic config w in
  let title_ := get_default (title config) "CDT流量统计" in
  let daily_title := "已使用" ++ traffic ++ " - " ++ title_ in
  exists results,
    map fst results = enabled_channels config
    /\ result_of out = Ok (negb (existsb (fun kv => is_not_True (snd kv)) results))
    /\ last (printed (trace_of out)) ""
       = (if existsb (fun kv => is_not_True (snd kv)) results
          then "通知发送失败: " ++ dumps results
          else "通知发送成功")
    /\ digests (trace_of out) = [message]
    /\ api_calls (trace_of out) = []
    /\ Forall (fun d => channel_enabled config d = true) (deliveries (trace_of out))
    /\ results = outcome_map E message title_ daily_title config w
    /\ exists tail,
        deliveries (trace_of out)
        = (((if enableEmail config then [email_request message title_ config] else [])
            ++ (if enableBark config then [bark_request E message config] else [])
            ++ (if enableTG config then [tg_request message config] else [])
            ++ (if enableWebhook config
                then [webhook_request E message daily_title config] else [])
            ++ (if enableQywx config then [qywx_token_request config] else []))
           ++ tail)%list
        /\ (tail = []
            \/ (enableQywx config = true
                /\ exists access_token,
                    tail = [qywx_send_request message daily_title config access_token])).
Proof.
  intros out title_ daily_title. subst out.
  destruct (daily_message_run E message traffic config w)
    as (results0 & w0 & t0 & Hrun0 & _ & Hc & _ & Hd & _ & Hall).
  destruct (daily_message_outcome E message traffic config w) as (w5 & Hrun).
  cbv zeta in Hrun. fold title_ in Hrun. fold daily_title in Hrun.
  exists (outcome_map E message title_ daily_title config w).
  split; [apply outcome_map_keys|].
  assert (Hdel : deliveries (trace_of (send_daily_notification_message E message traffic
                                          config w)) = deliveries t0).
  { rewrite Hrun0. unfold trace_of, deliveries. cbn [snd flat_map send_of app].
    rewrite flat_map_app. cbn [flat_map send_of app]. now rewrite app_nil_r. }
  assert (Hcalls : api_calls (trace_of (send_daily_notification_message E message traffic
                                          config w)) = []).
  { rewrite Hrun0. unfold trace_of, api_calls in *. cbn [snd flat_map call_of app].
    rewrite flat_map_app, Hc. reflexivity. }
  assert (Hdig : digests (trace_of (send_daily_notification_message E message traffic
                                      config w)) = [message]).
  { rewrite Hrun0. unfold trace_of, digests in *. cbn [snd flat_map digest_of app].
    rewrite flat_map_app, Hd. reflexivity. }
  split; [now rewrite Hrun|].
  split.
  { rewrite Hrun. unfold trace_of, printed. cbn [snd flat_map print_of app].
    rewrite flat_map_app. cbn [flat_map print_of app]. apply last_last. }
  split; [exact Hdig|]. split; [exact Hcalls|].
  split; [rewrite Hdel; exact Hall|].
  split; [reflexivity|].
  rewrite Hrun. unfold trace_of, deliveries. cbn [snd flat_map send_of app].
  rewrite !flat_map_app. cbn [flat_map send_of app]. rewrite app_nil_r.
  set (w1 := if enableEmail config
             then world_of (send_email_notification E message title_ config w) else w).
  set (w2 := if enableBark config
             then world_of (send_bark_notification E message (barkUrl config) w1)
             else w1).
  set (w3 := if enableTG config
             then world_of (send_tg_notification E message (tgBotToken config)
                              (tgChatId config) w2)
             else w2).
  set (w4 := if enableWebhook config
             then world_of (send_webhook_notification E message (webhookUrl config)
                              daily_title (webhookId config) w3)
             else w3).
  destruct (send_email_run E message title_ config w) as (_ & _ & He).
  destruct (send_bark_run E message config w1) as (_ & _ & Hb).
  destruct (send_tg_run E message config w2) as (_ & _ & Ht).
  destruct (send_webhook_run E message daily_title config w3) as (_ & _ & Hw).
  destruct (send_qywx_delivery_list E message daily_title config w4)
    as (tail & Hq & Htail).
  unfold deliveries, trace_of in *.
  exists (if enableQywx config then tail else []).
  split.
  - destruct (enableEmail config), (enableBark config), (enableTG config),
      (enableWebhook config), (enableQywx config);
      cbn [flat_map app]; rewrite ?He, ?Hb, ?Ht, ?Hw, ?Hq; cbn [app];
      rewrite ?app_nil_r; reflexivity.
  - destruct (enableQywx config); [|now left].
    destruct Htail as [->|Hpost]; [now left|right; now split].
Qed.

(* ================================================================= *)
(** ** Runs over the notification object *)

Section RawRuns.
Context (E : Env).

Lemma bind_cong {A B} (c c' : M E A) (k k' : A -> M E B) w :
  c w = c' w -> (forall a w1, k a w1 = k' a w1) -> bind c k w = bind c' k' w.
Proof.
  intros Hc Hk. unfold bind. rewrite Hc.
  destruct (c' w) as [[[a|e] w1] t1]; trivial. now rewrite Hk.
Qed.

Lemma try_cong {A} (c c' : M E A) (h h' : exc -> M E A) w :
  c w = c' w -> (forall e w1, h e w1 = h' e w1) -> try_except c h w = try_except c' h' w.
Proof.
  intros Hc Hh. unfold try_except. rewrite Hc.
  destruct (c' w) as [[[a|e] w1] t1]; trivial. now rewrite Hh.
Qed.

Lemma attempt_cong enabled key (send send' : M E jvalue) results w :
  (enabled = true -> send w = send' w) ->
  attempt E enabled key send results w = attempt E enabled key send' results w.
Proof.
  intros H. unfold attempt. destruct enabled; [|reflexivity].
  apply bind_cong; [now apply H|reflexivity].
Qed.

Lemma bind_lift_ok {A B} (a : A) (k : A -> M E B) w : bind (lift (Ok a)) k w = k a w.
Proof. unfold bind, lift. now destruct (k a w) as [[r w1] t1]. Qed.

(** A member that is present is read with its value. *)
Lemma member_present (config : NotificationObject) key :
  dict_mem (n_members config) key = true ->
  dict_index (n_members config) key = Ok (dict_get_default (n_members config) key "").
Proof.
  unfold dict_mem, dict_index, dict_get_default.
  now destruct (dict_get (n_members config) key).
Qed.

Section Complete.
Context (config : NotificationObject) (Hcomplete : complete config = true).

Lemma required_present key :
  In key (indexed_members config) -> dict_mem (n_members config) key = true.
Proof.
  intros Hin. unfold complete in Hcomplete.
  rewrite forallb_forall in Hcomplete. now apply Hcomplete.
Qed.

Ltac present :=
  apply required_present; unfold indexed_members;
  repeat match goal with H : _ = true |- _ => rewrite H end;
  repeat (apply in_or_app; first [left; cbn; tauto|right]); cbn; tauto.

Lemma bark_refines message w :
  n_enableBark config = true ->
  Raw.call_bark E message config w
  = send_bark_notification E message (barkUrl (typed config)) w.
Proof.
  intros Hen. unfold Raw.call_bark.
  rewrite (member_present config "barkUrl") by present. now rewrite bind_lift_ok.
Qed.

Lemma tg_refines message w :
  n_enableTG config = true ->
  Raw.call_tg E message config w
  = send_tg_notification E message (tgBotToken (typed config)) (tgChatId (typed config)) w.
Proof.
  intros Hen. unfold Raw.call_tg.
  rewrite (member_present config "tgBotToken") by present. rewrite bind_lift_ok.
  rewrite (member_present config "tgChatId") by present. now rewrite bind_lift_ok.
Qed.

Lemma webhook_refines message title_ w :
  n_enableWebhook config = true ->
  Raw.call_webhook E message title_ config w
  = send_webhook_notification E message (webhookUrl (typed config)) title_
      (webhookId (typed config)) w.
Proof.
  intros Hen. unfold Raw.call_webhook.
  rewrite (member_present config "webhookUrl") by present. rewrite bind_lift_ok.
  rewrite (member_present config "webhookId") by present. now rewrite bind_lift_ok.
Qed.

Lemma qywx_refines message title_ w :
  n_enableQywx config = true ->
  Raw.call_qywx E message title_ config w
  = send_qywx_notification E message title_ (touser (typed config))
      (corpid (typed config)) (corpsecret (typed config)) (agentid (typed config))
      (baseApiUrl (typed config)) (picUrl (typed config)) w.
Proof.
  intros Hen. unfold Raw.call_qywx.
  rewrite (member_present config "touser") by present. rewrite bind_lift_ok.
  rewrite (member_present config "corpid") by present. rewrite bind_lift_ok.
  rewrite (member_present config "corpsecret") by present. rewrite bind_lift_ok.
  rewrite (member_present config "agentid") by present. rewrite bind_lift_ok.
  rewrite (member_present config "baseApiUrl") by present. rewrite bind_lift_ok.
  rewrite (member_present config "picUrl") by present. now rewrite bind_lift_ok.
Qed.

Lemma fanout_refines message title_ w :
  Raw.fanout E message title_ config w = fanout E message title_ (typed config) w.
Proof.
  unfold Raw.fanout, fanout.
  apply bind_cong; [reflexivity|]. intros r1 w1.
  apply bind_cong; [apply attempt_cong; intros; now apply bark_refines|]. intros r2 w2.
  apply bind_cong; [apply attempt_cong; intros; now apply tg_refines|]. intros r3 w3.
  apply bind_cong; [apply attempt_cong; intros; now apply webhook_refines|]. intros r4 w4.
  apply attempt_cong; intros; now apply qywx_refines.
Qed.

Lemma send_notification_refines log w :
  Raw.send_notification E log config w = send_notification E log (typed config) w.
Proof.
  unfold Raw.send_notification, send_notification.
  apply bind_cong; [reflexivity|]. intros _ w1.
  apply bind_cong; [reflexivity|]. intros message w2. cbv zeta.
  apply bind_cong; [apply fanout_refines|reflexivity].
Qed.

Lemma validate_refines account w :
  Raw.validate_credentials_and_instance E account config w
  = validate_credentials_and_instance E account (typed config) w.
Proof.
  unfold Raw.validate_credentials_and_instance, validate_credentials_and_instance.
  apply try_cong; [reflexivity|]. intros e w1.
  apply bind_cong; [reflexivity|]. intros _ w2. cbv zeta.
  apply bind_cong; [apply send_notification_refines|reflexivity].
Qed.

Lemma check_reconcile_refines account o w :
  Raw.check_reconcile E account config o w = check_reconcile E account (typed config) o w.
Proof.
  unfold Raw.check_reconcile, check_reconcile. cbv zeta.
  destruct (reached_95 (ob_usage o)), (ob_is_enabled o); cbn [negb]; try reflexivity.
  - apply bind_cong; [reflexivity|]. intros _ w1.
    apply bind_cong; [apply send_notification_refines|reflexivity].
  - apply bind_cong; [reflexivity|]. intros _ w1.
    apply bind_cong; [apply send_notification_refines|reflexivity].
Qed.

Lemma check_account_refines logs account w :
  Raw.check_account E config logs account w = check_account E (typed config) logs account w.
Proof.
  unfold Raw.check_account, check_account.
  apply bind_cong; [apply validate_refines|]. intros valid w1.
  destruct (negb valid); [reflexivity|].
  apply try_cong.
  - apply bind_cong; [reflexivity|]. intros o w2.
    apply bind_cong; [apply check_reconcile_refines|reflexivity].
  - intros e w2. apply bind_cong; [reflexivity|]. intros _ w3. cbv zeta.
    apply bind_cong; [apply send_notification_refines|reflexivity].
Qed.

Lemma check_loop_refines accounts logs w :
  Raw.check_loop E config accounts logs w = check_loop E (typed config) accounts logs w.
Proof.
  revert logs w. induction accounts as [|a rest IH]; intros logs w; [reflexivity|].
  cbn [Raw.check_loop check_loop].
  apply bind_cong; [apply check_account_refines|]. intros logs1 w1. apply IH.
Qed.

Lemma check_refines accounts w :
  Raw.check E accounts config w = check E accounts (typed config) w.
Proof.
  unfold Raw.check, check. apply bind_cong; [apply check_loop_refines|reflexivity].
Qed.

Lemma daily_message_refines message traffic w :
  Raw.send_daily_notification_message E message traffic config w
  = send_daily_notification_message E message traffic (typed config) w.
Proof.
  unfold Raw.send_daily_notification_message, send_daily_notification_message.
  apply bind_cong; [reflexivity|]. intros _ w0. cbv zeta.
  apply bind_cong; [reflexivity|]. intros r1 w1.
  apply bind_cong; [apply attempt_cong; intros; now apply bark_refines|]. intros r2 w2.
  apply bind_cong; [apply attempt_cong; intros; now apply tg_refines|]. intros r3 w3.
  apply bind_cong; [apply attempt_cong; intros; now apply webhook_refines|]. intros r4 w4.
  apply bind_cong; [apply attempt_cong; intros; now apply qywx_refines|reflexivity].
Qed.

Lemma daily_digest_refines account w :
  Raw.daily_digest E account config w = daily_digest E account (typed config) w.
Proof.
  unfold Raw.daily_digest, daily_digest.
  repeat (apply bind_cong; [reflexivity|]; intros ? ?).
  destruct (negb _); [reflexivity|].
  repeat (apply bind_cong; [reflexivity|]; intros ? ?; cbv zeta).
  apply bind_cong; [apply daily_message_refines|reflexivity].
Qed.

Lemma daily_account_refines account w :
  Raw.daily_account E config account w = daily_account E (typed config) account w.
Proof.
  unfold Raw.daily_account, daily_account.
  destruct (negb (get_default (enableNotification account) true)); [reflexivity|].
  destruct (get_default (onlyNotifyOnToggle account) false); [reflexivity|].
  apply bind_cong; [apply validate_refines|]. intros valid w1.
  destruct (negb valid); [reflexivity|].
  apply try_cong; [apply daily_digest_refines|reflexivity].
Qed.

Lemma daily_refines accounts w :
  Raw.send_daily_notification E accounts config w
  = send_daily_notification E accounts (typed config) w.
Proof.
  revert w. induction accounts as [|a rest IH]; intros w; [reflexivity|].
  cbn [Raw.send_daily_notification send_daily_notification].
  apply bind_cong; [apply daily_account_refines|]. intros _ w1. apply IH.
Qed.

End Complete.

End RawRuns.

(* ================================================================= *)
(** ** An enabled channel without its member *)

Section Missing.
Context (E : Env).

Lemma result_bind_ok {A B} (c : M E A) (k : A -> M E B) w a w1 t1 :
  c w = (Ok a, w1, t1) -> result_of (bind c k w) = result_of (k a w1).
Proof. intros H. now rewrite (bind_ok _ _ _ _ _ _ H). Qed.

Lemma result_bind_raise {A B} (c : M E A) (k : A -> M E B) w e :
  result_of (c w) = Raise e -> result_of (bind c k w) = Raise e.
Proof.
  intros H. unfold bind. destruct (c w) as [[[a|e'] w1] t1]; [discriminate|].
  unfold result_of in *. cbn [fst] in *. now injection H as ->.
Qed.

Lemma first_missing_app (log : log_record) (l1 l2 : list string) :
  first_missing log (l1 ++ l2)
  = match first_missing log l1 with
    | Some k => Some k
    | None => first_missing log l2
    end.
Proof.
  induction l1 as [|k l1 IH]; [reflexivity|].
  cbn [app first_missing]. now destruct (dict_mem log k).
Qed.

Lemma attempt_returns enabled key (send : M E jvalue) results w :
  (enabled = true -> exists v, result_of (send w) = Ok v) ->
  exists r w1 t, attempt E enabled key send results w = (Ok r, w1, t).
Proof.
  intros H. destruct enabled.
  - destruct (H eq_refl) as [v Hv].
    rewrite (attempt_outcome E true key send results w v Hv). now do 3 eexists.
  - unfold attempt, ret. now do 3 eexists.
Qed.

Lemma attempt_raises key (send : M E jvalue) results w e :
  result_of (send w) = Raise e ->
  result_of (attempt E true key send results w) = Raise e.
Proof. intros H. unfold attempt. now apply result_bind_raise. Qed.

Ltac read_members :=
  unfold call_reads; intros w; unfold dict_index, first_missing, dict_mem;
  repeat match goal with
         | |- context [dict_get ?d ?k] =>
             destruct (dict_get d k); [rewrite bind_lift_ok|reflexivity]
         end.

Lemma call_bark_reads message config :
  call_reads E (Raw.call_bark E message config) (n_members config) ["barkUrl"].
Proof. unfold Raw.call_bark. read_members. apply send_bark_total. Qed.

Lemma call_tg_reads message config :
  call_reads E (Raw.call_tg E message config) (n_members config) ["tgBotToken"; "tgChatId"].
Proof. unfold Raw.call_tg. read_members. apply send_tg_total. Qed.

Lemma call_webhook_reads message title_ config :
  call_reads E (Raw.call_webhook E message title_ config) (n_members config)
    ["webhookUrl"; "webhookId"].
Proof. unfold Raw.call_webhook. read_members. apply send_webhook_total. Qed.

Lemma call_qywx_reads message title_ config :
  call_reads E (Raw.call_qywx E message title_ config) (n_members config)
    ["touser"; "corpid"; "corpsecret"; "agentid"; "baseApiUrl"; "picUrl"].
Proof. unfold Raw.call_qywx. read_members. apply send_qywx_total. Qed.

(** One attempt of the fanout whose sender reads [keys]: either the
    first absent member is one of these and the attempt raises for it,
    or the attempt returns and an absent member is looked for further. *)
Lemma attempt_reads (enabled : bool) (key : string) (c : M E jvalue) (members : pydict string)
    (keys later : list string) results w k :
  call_reads E c members keys ->
  first_missing members ((if enabled then keys else []) ++ later) = Some k ->
  result_of (attempt E enabled key c results w) = Raise (KeyError k)
  \/ (first_missing members later = Some k
      /\ exists r w1 t, attempt E enabled key c results w = (Ok r, w1, t)).
Proof.
  intros Hc Hm. specialize (Hc w). rewrite first_missing_app in Hm.
  destruct enabled.
  - destruct (first_missing members keys) as [k'|].
    + injection Hm as ->. left. now apply attempt_raises.
    + right. split; [exact Hm|]. apply attempt_returns. intros _. exact Hc.
  - right. split; [exact Hm|]. apply attempt_returns. discriminate.
Qed.

Lemma raw_fanout_missing message title_ config key w :
  first_missing (n_members config) (indexed_members config) = Some key ->
  result_of (Raw.fanout E message title_ config w) = Raise (KeyError key).
Proof.
  unfold indexed_members, Raw.fanout. intros Hm.
  destruct (attempt_returns (n_enableEmail config) "email"
              (send_email_notification E message title_ (typed config)) [] w
              (fun _ => send_email_total E message title_ (typed config) w))
    as (r1 & w1 & t1 & H1).
  rewrite (result_bind_ok _ _ _ _ _ _ H1).
  destruct (attempt_reads (n_enableBark config) "bark" _ _ _ _ r1 w1 key
              (call_bark_reads message config) Hm)
    as [Hr|(Hm2 & r2 & w2 & t2 & H2)]; [now apply result_bind_raise|].
  rewrite (result_bind_ok _ _ _ _ _ _ H2).
  destruct (attempt_reads (n_enableTG config) "tg" _ _ _ _ r2 w2 key
              (call_tg_reads message config) Hm2)
    as [Hr|(Hm3 & r3 & w3 & t3 & H3)]; [now apply result_bind_raise|].
  rewrite (result_bind_ok _ _ _ _ _ _ H3).
  destruct (attempt_reads (n_enableWebhook config) "webhook" _ _ _ _ r3 w3 key
              (call_webhook_reads message title_ config) Hm3)
    as [Hr|(Hm4 & r4 & w4 & t4 & H4)]; [now apply result_bind_raise|].
  rewrite (result_bind_ok _ _ _ _ _ _ H4).
  rewrite <- (app_nil_r (if n_enableQywx config then _ else _)) in Hm4.
  destruct (attempt_reads (n_enableQywx config) "qywx" _ _ _ _ r4 w4 key
              (call_qywx_reads message title_ config) Hm4)
    as [Hr|(Hm5 & _)]; [exact Hr|discriminate].
Qed.

Lemma raw_send_notification_missing log config message key w :
  first_missing (n_members config) (indexed_members config) = Some key ->
  notification_message log = Ok message ->
  result_of (Raw.send_notification E log config w) = Raise (KeyError key).
Proof.
  intros Hm Hmsg. unfold Raw.send_notification. rewrite Hmsg.
  rewrite (result_bind_ok (emit (ENotify log)) _ w tt w [ENotify log] eq_refl).
  rewrite (result_bind_ok (lift (Ok message)) _ w message w [] eq_refl). cbv zeta.
  apply result_bind_raise. now apply raw_fanout_missing.
Qed.

Lemma raw_validate_missing account config key w :
  first_missing (n_members config) (indexed_members config) = Some key ->
  validation_fails account (fst (call_api E (validate_request account) w)) = true ->
  result_of (Raw.validate_credentials_and_instance E account config w)
  = Raise (KeyError key).
Proof.
  intros Hm Hv.
  destruct (call_api E (validate_request account) w) as [r w1] eqn:Hc. cbn [fst] in Hv.
  destruct (validate_body_fail E account w r w1 Hc Hv) as [e [He Hb]].
  unfold Raw.validate_credentials_and_instance. fold (validate_request account).
  rewrite (try_raise _ _ _ _ _ _ Hb). unfold result_of at 1. cbn [fst].
  rewrite (result_bind_ok (print _) _ w1 tt w1 [EPrint ("验证异常: " ++ exc_msg e)] eq_refl).
  cbv zeta. apply result_bind_raise.
  destruct (error_record_message (get_default (accountName account) "")
              (instanceId account) (exc_msg e)) as [text Ht].
  now apply (raw_send_notification_missing _ config text).
Qed.

Lemma raw_check_loop_writes_nothing config accounts logs :
  emits_none write_of (Raw.check_loop E config accounts logs).
Proof.
  revert logs. induction accounts as [|a rest IH]; intros logs; cbn [Raw.check_loop].
  - apply emits_none_ret.
  - apply emits_none_bind; [|intros logs1; apply IH].
    unfold Raw.check_account, Raw.validate_credentials_and_instance, check_observe,
      Raw.check_reconcile, Raw.send_notification, Raw.fanout, attempt,
      send_email_notification, Raw.call_bark, Raw.call_tg, Raw.call_webhook,
      Raw.call_qywx, send_bark_notification, send_tg_notification,
      send_webhook_notification, send_qywx_notification,
      get_traffic, get_security_group_id, get_instance_details,
      is_security_group_rule_enabled, disable_security_group_rule,
      enable_security_group_rule.
    cbv zeta. silent.
Qed.

End Missing.

Section RawWholeRuns.
Context (E : Env).

(** Over a configuration with a value for every member the daily job
    returns whenever every account that has opted out has a name. *)
Lemma daily_run_returns accounts config w :
  forallb (fun a => reports_on a || is_named a) accounts = true ->
  result_of (send_daily_notification E accounts config w) = Ok tt.
Proof.
  revert w. induction accounts as [|a rest IH]; intros w Hall; [reflexivity|].
  cbn [forallb] in Hall. apply andb_true_iff in Hall. destruct Hall as [Ha Hrest].
  cbn [send_daily_notification].
  pose proof (daily_account_returns E config a w Ha) as Hret.
  destruct (daily_account E config a w) as [[r w1] t1] eqn:Hacc.
  unfold result_of in Hret. cbn [fst] in Hret. subst r.
  rewrite (bind_ok _ _ _ _ _ _ Hacc). unfold result_of at 1. cbn [fst].
  now apply IH.
Qed.

Lemma raw_check_raises config accounts w e :
  result_of (Raw.check_loop E config accounts [] w) = Raise e ->
  result_of (Raw.check E accounts config w) = Raise e
  /\ written (trace_of (Raw.check E accounts config w)) = [].
Proof.
  intros Hr. pose proof (raw_check_loop_writes_nothing E config accounts [] w) as Hw.
  unfold Raw.check, bind.
  destruct (Raw.check_loop E config accounts [] w) as [[[logs|e'] w1] t1];
    [discriminate|].
  unfold result_of, trace_of in *. cbn [fst snd] in *. split; [|exact Hw].
  now injection Hr as ->.
Qed.

End RawWholeRuns.

(** X5. A run of [check] over a notification object in which every
    enabled channel among Bark, Telegram, the webhook and the enterprise
    chat has its members returns whatever the cloud, SMTP and HTTP
    services answer: no exception of a query, of a toggle or of a channel
    escapes it.  It hands the run log to [write_log] exactly once, as its
    last step, with at most one record per account.  The run is the one
    over the configuration that holds the values of the members. *)
Theorem check_returns_and_writes_once
    (E : Env) (accounts : list Account) (config : NotificationObject) (w : world E) :
  complete config = true ->
  let out := Raw.check E accounts config w in
  out = check E accounts (typed config) w
  /\ result_of out = Ok tt
  /\ exists t logs,
      trace_of out = (t ++ [EWriteLog logs])%list
      /\ written t = []
      /\ (List.length logs <= List.length accounts)%nat.
Proof.
  intros Hc out. subst out. rewrite (check_refines E config Hc accounts w).
  split; [reflexivity|].
  destruct (check_run E accounts (typed config) w)
    as (kept & logs & w1 & t & -> & Hs & Hf & _ & _ & Hw).
  split; [reflexivity|]. exists t, logs. split; [reflexivity|]. split; [exact Hw|].
  rewrite <- (Forall2_length Hf). now apply subseq_length.
Qed.

Lemma check_returns_and_writes_once_witness :
  result_of (Raw.check (sim_env demo_scenario) [demo_account] demo_object true) = Ok tt.
Proof.
  exact (proj1 (proj2 (check_returns_and_writes_once (sim_env demo_scenario)
                         [demo_account] demo_object true eq_refl))).
Defined.

(** X19. A run of the daily job returns, whatever the services answer,
    when every enabled channel among Bark, Telegram, the webhook and the
    enterprise chat has its members in the notification object and every
    account that has opted out has a name.  The run is the one over the
    configuration that holds the values of the members. *)
Theorem daily_job_returns
    (E : Env) (accounts : list Account) (config : NotificationObject) (w : world E) :
  complete config = true ->
  forallb (fun a => reports_on a || is_named a) accounts = true ->
  Raw.send_daily_notification E accounts config w
  = send_daily_notification E accounts (typed config) w
  /\ result_of (Raw.send_daily_notification E accounts config w) = Ok tt.
Proof.
  intros Hc Hall. rewrite (daily_refines E config Hc accounts w).
  split; [reflexivity|]. now apply daily_run_returns.
Qed.

Lemma daily_job_returns_witness :
  result_of (Raw.send_daily_notification (sim_env demo_scenario)
               [demo_account;
                mkAccount (Some "quiet") "LTAI-other-key" "secret" "cn-hongkong" "i-other"
                  (PInt 100) (Some false) None]
               demo_object true) = Ok tt.
Proof.
  exact (proj2 (daily_job_returns (sim_env demo_scenario)
                  [demo_account;
                   mkAccount (Some "quiet") "LTAI-other-key" "secret" "cn-hongkong"
                     "i-other" (PInt 100) (Some false) None]
                  demo_object true eq_refl eq_refl)).
Defined.

(** X28. An enabled channel without a member the fanout reads by index
    makes every notification fail: [send_notification] raises [KeyError]
    for the first such member, outside every handler.  So a run of
    [check] whose first account fails the validation raises that
    [KeyError] and writes no run log, whatever accounts follow; and so
    does a run of the daily job when it reports on that account. *)
Theorem missing_member_aborts_run
    (E : Env) (config : NotificationObject) (key : string) (account : Account)
    (rest : list Account) (w : world E) :
  first_missing (n_members config) (indexed_members config) = Some key ->
  validation_fails account (fst (call_api E (validate_request account) w)) = true ->
  let out := Raw.check E (account :: rest) config w in
  result_of out = Raise (KeyError key)
  /\ written (trace_of out) = []
  /\ (reports_on account = true ->
      result_of (Raw.send_daily_notification E (account :: rest) config w)
      = Raise (KeyError key))
  /\ (forall log message v,
         notification_message log = Ok message ->
         result_of (Raw.send_notification E log config v) = Raise (KeyError key)).
Proof.
  intros Hm Hv out. subst out.
  pose proof (raw_validate_missing E account config key w Hm Hv) as Hval.
  assert (Hloop : result_of (Raw.check_loop E config (account :: rest) [] w)
                  = Raise (KeyError key)).
  { cbn [Raw.check_loop]. apply result_bind_raise.
    unfold Raw.check_account. now apply result_bind_raise. }
  destruct (raw_check_raises E config (account :: rest) w _ Hloop) as [Hr Hw].
  split; [exact Hr|]. split; [exact Hw|]. split.
  - intros Hrep. unfold reports_on in Hrep. apply andb_true_iff in Hrep.
    destruct Hrep as [Hen Honly]. apply negb_true_iff in Honly.
    cbn [Raw.send_daily_notification]. apply result_bind_raise.
    unfold Raw.daily_account. rewrite Hen, Honly. cbn [negb].
    now apply result_bind_raise.
  - intros log message v Hmsg. now apply (raw_send_notification_missing E log config message).
Qed.

Lemma missing_member_aborts_run_witness :
  let sc := mkScenario (Ok (Some demo_traffic)) (Ok (Some [])) false false
              (Ok tt) (Ok 200) (Ok 200) in
  result_of (Raw.check (sim_env sc) [demo_account] demo_object_without_chat true)
  = Raise (KeyError "tgChatId")
  /\ written (trace_of (Raw.check (sim_env sc) [demo_account] demo_object_without_chat
                          true)) = [].
Proof.
  intros sc.
  destruct (missing_member_aborts_run (sim_env sc) demo_object_without_chat "tgChatId"
              demo_account [] true eq_refl eq_refl) as (Hr & Hw & _).
  split; [exact Hr|exact Hw].
Defined.

Section ToggleThenAbort.
Context (E : Env).

Lemma raw_send_notification_no_mutation log config :
  emits_none mutation_of (Raw.send_notification E log config).
Proof.
  unfold Raw.send_notification, Raw.fanout, attempt, send_email_notification,
    Raw.call_bark, Raw.call_tg, Raw.call_webhook, Raw.call_qywx,
    send_bark_notification, send_tg_notification, send_webhook_notification,
    send_qywx_notification.
  cbv zeta. silent.
Qed.

(** The run of [send_notification] over an object that lacks a member of
    an enabled channel. *)
Lemma raw_send_notification_missing_run log config message key w :
  first_missing (n_members config) (indexed_members config) = Some key ->
  notification_message log = Ok message ->
  exists w1 t,
    Raw.send_notification E log config w = (Raise (KeyError key), w1, t)
    /\ mutating_calls t = [].
Proof.
  intros Hm Hmsg.
  pose proof (raw_send_notification_missing E log config message key w Hm Hmsg) as Hr.
  pose proof (raw_send_notification_no_mutation log config w) as Hn.
  destruct (Raw.send_notification E log config w) as [[r w1] t].
  unfold result_of, trace_of in *. cbn [fst snd] in *. subst r.
  exists w1, t. split; [reflexivity|exact Hn].
Qed.

Lemma raw_validate_run_ok account config w r w1 :
  call_api E (validate_request account) w = (r, w1) ->
  validation_fails account r = false ->
  Raw.validate_credentials_and_instance E account config w
  = (Ok true, w1, [ECall (validate_request account)]).
Proof.
  intros Hc Hv. unfold Raw.validate_credentials_and_instance, try_except, bind, api_call.
  fold (validate_request account). rewrite Hc.
  destruct r as [found|e]; [|discriminate]. cbn in Hv.
  apply negb_false_iff in Hv. rewrite Hv. now cbn.
Qed.

(** The decision over such an object, when it toggles: the mutating call
    is made and the notification raises. *)
Lemma raw_check_reconcile_missing account config key o w :
  first_missing (n_members config) (indexed_members config) = Some key ->
  (forall state,
      exists text, notification_message (dict_set (ob_log o) "安全组状态" state) = Ok text) ->
  reconcile (ob_is_enabled o) (ob_usage o) <> NoAction ->
  exists w1 t,
    Raw.check_reconcile E account config o w = (Raise (KeyError key), w1, t)
    /\ mutating_calls t = toggle_requests account o (reconcile (ob_is_enabled o) (ob_usage o)).
Proof.
  intros Hm Hmsg. unfold Raw.check_reconcile, reconcile.
  fold (reached_95 (ob_usage o)).
  destruct (reached_95 (ob_usage o)), (ob_is_enabled o);
    cbn [negb toggle_requests]; intros Hact; try contradiction.
  - destruct (disable_calls E (ob_security_group_id o) (AccessKeyId account)
                (AccessKeySecret account) (regionId account) w) as (tM & Hd & Hc & _).
    destruct (Hmsg "已禁用 0.0.0.0/0 访问规则") as [text Ht].
    destruct (raw_send_notification_missing_run _ config text key
                (snd (call_api E (revoke_request account o) w)) Hm Ht)
      as (w2 & tN & Hs & Hn).
    exists w2, (tM ++ tN)%list. split.
    + eapply bind_step; [exact Hd|]. cbv zeta. now rewrite (bind_raise _ _ _ _ _ _ Hs).
    + rewrite mutating_calls_filter in *. unfold api_calls in *.
      rewrite flat_map_app, filter_app, Hc, Hn. reflexivity.
  - destruct (enable_calls E (ob_security_group_id o) (AccessKeyId account)
                (AccessKeySecret account) (regionId account) w) as (tM & Hd & Hc & _).
    destruct (Hmsg "已恢复 0.0.0.0 访问规则") as [text Ht].
    destruct (raw_send_notification_missing_run _ config text key
                (snd (call_api E (authorize_request account o) w)) Hm Ht)
      as (w2 & tN & Hs & Hn).
    exists w2, (tM ++ tN)%list. split.
    + eapply bind_step; [exact Hd|]. cbv zeta. now rewrite (bind_raise _ _ _ _ _ _ Hs).
    + rewrite mutating_calls_filter in *. unfold api_calls in *.
      rewrite flat_map_app, filter_app, Hc, Hn. reflexivity.
Qed.

Lemma raw_check_account_missing config key logs account w r0 w0 o w1 t1 :
  first_missing (n_members config) (indexed_members config) = Some key ->
  call_api E (validate_request account) w = (r0, w0) ->
  validation_fails account r0 = false ->
  check_observe E account w0 = (Ok o, w1, t1) ->
  reconcile (ob_is_enabled o) (ob_usage o) <> NoAction ->
  exists w2 t,
    Raw.check_account E config logs account w = (Raise (KeyError key), w2, t)
    /\ mutating_calls t = toggle_requests account o (reconcile (ob_is_enabled o) (ob_usage o)).
Proof.
  intros Hm Hc Hv Ho Hact.
  pose proof (raw_validate_run_ok account config w r0 w0 Hc Hv) as Hval.
  destruct (raw_check_reconcile_missing account config key o w1 Hm
              (check_observe_message E account w0 o w1 t1 Ho) Hact)
    as (w2 & tR & Hrec & HmR).
  destruct (error_record_message (account_name_of account) (instanceId account)
              (exc_msg (KeyError key))) as [text Ht].
  destruct (raw_send_notification_missing_run
              [("服务器", account_name_of account); ("实例ID", instanceId account);
               ("错误信息", exc_msg (KeyError key))] config text key w2 Hm Ht)
    as (w3 & tN & Hs & Hn).
  do 2 eexists. split.
  - unfold Raw.check_account. eapply bind_step; [exact Hval|]. cbn [negb].
    eapply try_step.
    + eapply bind_step; [exact Ho|]. now rewrite (bind_raise _ _ _ _ _ _ Hrec).
    + unfold print, emit. unfold bind at 1. cbv zeta.
      rewrite (bind_raise _ _ _ _ _ _ Hs). reflexivity.
  - pose proof (check_observe_no_mutation E account w0) as Hobs.
    rewrite Ho in Hobs. unfold trace_of in Hobs. cbn [snd] in Hobs.
    unfold mutating_calls in *.
    rewrite !flat_map_app. cbn [flat_map mutation_of is_mutating validate_request app].
    rewrite Hobs, HmR, Hn. cbn [app]. now rewrite app_nil_r.
Qed.

End ToggleThenAbort.

(** X29. With a member of an enabled channel missing, an account that
    passes the validation and is toggled takes the run down after the
    toggle: the mutating call is made, the notification of the toggle
    raises [KeyError] inside the [try] of [check], the notification of
    the handler raises it again, and it leaves [check].  The rule has
    been toggled, the accounts after this one are not processed, and no
    run log is written. *)
Theorem toggle_then_missing_member_aborts
    (E : Env) (config : NotificationObject) (key : string) (account : Account)
    (rest : list Account) (w w0 w1 : world E) (r0 : res (option (list Instance)))
    (o : observation) (t1 : list event) :
  first_missing (n_members config) (indexed_members config) = Some key ->
  call_api E (validate_request account) w = (r0, w0) ->
  validation_fails account r0 = false ->
  check_observe E account w0 = (Ok o, w1, t1) ->
  reconcile (ob_is_enabled o) (ob_usage o) <> NoAction ->
  let out := Raw.check E (account :: rest) config w in
  result_of out = Raise (KeyError key)
  /\ mutating_calls (trace_of out)
     = toggle_requests account o (reconcile (ob_is_enabled o) (ob_usage o))
  /\ written (trace_of out) = [].
Proof.
  intros Hm Hc Hv Ho Hact out. subst out.
  destruct (raw_check_account_missing E config key [] account w r0 w0 o w1 t1
              Hm Hc Hv Ho Hact) as (w2 & t & Hrun & Hmut).
  assert (Hloop : Raw.check_loop E config (account :: rest) [] w
                  = (Raise (KeyError key), w2, t)).
  { cbn [Raw.check_loop]. now rewrite (bind_raise _ _ _ _ _ _ Hrun). }
  assert (Hcheck : Raw.check E (account :: rest) config w = (Raise (KeyError key), w2, t)).
  { unfold Raw.check. now rewrite (bind_raise _ _ _ _ _ _ Hloop). }
  rewrite Hcheck. split; [reflexivity|]. split; [exact Hmut|].
  pose proof (raw_check_loop_writes_nothing E config (account :: rest) [] w) as Hw.
  rewrite Hloop in Hw. exact Hw.
Qed.

Lemma toggle_then_missing_member_aborts_witness :
  result_of (Raw.check (sim_env demo_scenario) [demo_account] demo_object_without_chat
               true) = Raise (KeyError "tgChatId")
  /\ mutating_calls (trace_of (Raw.check (sim_env demo_scenario) [demo_account]
                                 demo_object_without_chat true))
     = [RevokeSecurityGroup "LTAI-demo-key" "secret" "cn-hongkong" (Some "sg-demo")].
Proof.
  eassert (Ho : check_observe (sim_env demo_scenario) demo_account true = (Ok _, _, _))
    by (vm_compute; reflexivity).
  destruct (toggle_then_missing_member_aborts (sim_env demo_scenario)
              demo_object_without_chat "tgChatId" demo_account [] true true _ _ _ _
              eq_refl eq_refl eq_refl Ho ltac:(vm_compute; discriminate))
    as (Hr & Hmut & _).
  split; [exact Hr|]. rewrite Hmut. vm_compute. reflexivity.
Defined.
